(** * Template marketplace: category mapping, pricing and Stripe catalog creation

    A shallow embedding of [src/monetization/stripe-integration.py]
    (class [MonetizationEngine]) and of the pricing table of
    [src/agents/template-orchestrator.py] ([_calculate_price_tier]).

    Python [int] is [Z] (unbounded, [%] is floor modulo like [Z.modulo]);
    Python [str] is [string]: one [ascii] per character for ASCII text, which
    is what every category name, dict key, tier name and identifier of the
    source is; the printed messages that carry an emoji are kept as their
    UTF-8 bytes and are only ever concatenated and compared. [len] and
    [lower] are therefore Python's on ASCII text only (Python counts code
    points, [String.length] counts bytes), and the statements about them
    are made for ASCII text; a dict literal is an association list in
    insertion order, which is the order [dict.items()] iterates in; the
    Stripe SDK is an external collaborator whose two entry points
    ([stripe.Product.create], [stripe.Price.create]) may raise. *)

From Stdlib Require Import ZArith List String Ascii Bool Lia.
From Stdlib Require Import DecimalString.
Import ListNotations.
Open Scope string_scope.
Open Scope list_scope.
Open Scope Z_scope.

(** ** Python built-ins used by the source *)

Module Py.

(** [dict[k]] / [dict.get(k)] on a dict written as a literal. *)
Fixpoint dict_get {V : Type} (d : list (string * V)) (k : string) : option V :=
  match d with
  | [] => None
  | (k', v) :: rest => if String.eqb k' k then Some v else dict_get rest k
  end.

(** [range(lo, hi)] for [lo <= hi]: the integers lo, lo+1, ..., hi-1. *)
Definition range (lo hi : Z) : list Z :=
  map (fun n => lo + Z.of_nat n) (seq 0 (Z.to_nat (hi - lo))).

(** [len(s)] for ASCII [s], one [ascii] per character. On other text
    [String.length] counts the bytes of the encoding where Python counts
    code points. *)
Definition len (s : string) : Z := Z.of_nat (String.length s).

Definition is_upper (c : ascii) : bool :=
  let n := nat_of_ascii c in (65 <=? n)%nat && (n <=? 90)%nat.
Definition is_lower (c : ascii) : bool :=
  let n := nat_of_ascii c in (97 <=? n)%nat && (n <=? 122)%nat.
Definition lower_char (c : ascii) : ascii :=
  if is_upper c then ascii_of_nat (nat_of_ascii c + 32) else c.
Definition upper_char (c : ascii) : ascii :=
  if is_lower c then ascii_of_nat (nat_of_ascii c - 32) else c.

(** [s.lower()] on ASCII text. *)
Fixpoint lower (s : string) : string :=
  match s with
  | EmptyString => EmptyString
  | String c s' => String (lower_char c) (lower s')
  end.

(** [s.title()] on ASCII text: a cased character is upper-cased when the
    character before it is not cased, lower-cased otherwise. *)
Fixpoint title_from (prev_cased : bool) (s : string) : string :=
  match s with
  | EmptyString => EmptyString
  | String c s' =>
      let cased := is_upper c || is_lower c in
      String (if prev_cased then lower_char c else upper_char c)
             (title_from cased s')
  end.
Definition title (s : string) : string := title_from false s.

(** [str(n)] for a natural number. *)
Definition str_nat (n : N) : string := NilZero.string_of_uint (N.to_uint n).

Fixpoint zeros (n : nat) : string :=
  match n with O => EmptyString | S n' => String "0" (zeros n') end.

(** [str(z)], which is also how an f-string renders [{z}]. *)
Definition str (z : Z) : string :=
  let sign := if z <? 0 then "-" else "" in
  (sign ++ str_nat (Z.abs_N z))%string.

(** [format(z, '03d')]: sign first, then zero padding up to width 3. *)
Definition format_03d (z : Z) : string :=
  let digits := str_nat (Z.abs_N z) in
  let sign := if z <? 0 then "-" else "" in
  let used := (String.length sign + String.length digits)%nat in
  (sign ++ zeros (3 - used) ++ digits)%string.

End Py.

(** ** Category mapper ([MonetizationEngine._get_category_for_template]) *)

(** The local dict [category_mapping]: keys are [(start, end)] tuples, all
    distinct, so the dict has the ten items of the literal, in this order. *)
Definition category_mapping : list ((Z * Z) * string) :=
  [ ((1, 60),    "Corporate & Enterprise");
    ((61, 132),  "Financial Services");
    ((133, 192), "E-commerce & Retail");
    ((193, 252), "Education & Training");
    ((253, 272), "Healthcare & Wellness");
    ((273, 312), "Community Impact");
    ((313, 372), "Creative & Media");
    ((373, 432), "Construction & Real Estate");
    ((433, 467), "Technology & SaaS");
    ((468, 487), "Research & Development") ].

(** The test of the loop body, [start <= template_id <= end]. *)
Definition in_range (r : Z * Z) (template_id : Z) : bool :=
  (fst r <=? template_id) && (template_id <=? snd r).

(** The [for (start, end), category in items: if ...: return category] loop;
    [None] when the loop runs to its end. *)
Fixpoint scan_items (items : list ((Z * Z) * string)) (template_id : Z)
  : option string :=
  match items with
  | [] => None
  | (r, category) :: rest =>
      if in_range r template_id then Some category
      else scan_items rest template_id
  end.

Definition _get_category_for_template (template_id : Z) : string :=
  match scan_items category_mapping template_id with
  | Some category => category
  | None => "Miscellaneous"
  end.

(** The individual tier's price, the local [base_price] of
    [_create_individual_template_product]. *)
Definition base_price (template_id : Z) : Z := 25 + (template_id mod 25).

(** The bundle tier's price, the local [bundle_price] of
    [_create_bundle_product], [199 + (len(category) * 10)]; through [Py.len]
    it is the source's price for category names written in ASCII, as the
    ten declared ones are. *)
Definition bundle_price (category : string) : Z := 199 + (Py.len category * 10).

(** ** The Stripe SDK as an external collaborator *)

(** A value stored in a [metadata] dict. *)
Inductive pyval : Type :=
| PInt (z : Z)
| PStr (s : string)
| PBool (b : bool).

Definition metadata := list (string * pyval).

(** Keyword arguments of [stripe.Product.create]. *)
Record ProductReq : Type := mkProductReq {
  name : string;
  description : string;
  product_metadata : metadata
}.

(** Keyword arguments of [stripe.Price.create]; [recurring] is absent for
    one-off prices and carries the ['interval'] entry otherwise. *)
Record PriceReq : Type := mkPriceReq {
  product : string;
  unit_amount : Z;
  currency : string;
  recurring : option string;
  price_metadata : metadata
}.

(** What the source reads of the objects Stripe returns: their [.id]. *)
Record Product : Type := mkProduct { product_obj_id : string }.
Record Price : Type := mkPrice { price_obj_id : string }.

(** Exceptions that can leave the engine: a failed SDK call, or the
    [KeyError] of [amounts[interval]]. *)
Inductive exn : Type :=
| StripeError (reason : string)
| KeyError (key : string).

(** One call of the SDK, with what it answered. *)
Inductive event : Type :=
| EvProduct (req : ProductReq) (res : exn + Product)
| EvPrice (req : PriceReq) (res : exn + Price).

Definition failure (ev : event) : option exn :=
  match ev with
  | EvProduct _ (inl e) | EvPrice _ (inl e) => Some e
  | _ => None
  end.

Definition succeeded (ev : event) : Prop := failure ev = None.

(** The product-creation requests of a trace, in call order. *)
Fixpoint product_reqs (tr : list event) : list ProductReq :=
  match tr with
  | [] => []
  | EvProduct req _ :: tr' => req :: product_reqs tr'
  | EvPrice _ _ :: tr' => product_reqs tr'
  end.

(** The price-creation requests of a trace, in call order. *)
Fixpoint price_reqs (tr : list event) : list PriceReq :=
  match tr with
  | [] => []
  | EvProduct _ _ :: tr' => price_reqs tr'
  | EvPrice req _ :: tr' => req :: price_reqs tr'
  end.

(** Result of running a method: a returned value or a raised exception. *)
Inductive outcome (A : Type) : Type :=
| Ok (a : A)
| Raise (e : exn).
Arguments Ok {A} a.
Arguments Raise {A} e.

(** ** Records returned by the engine (the dicts of the [return] statements) *)

Record IndividualRecord : Type := mkIndividual {
  ind_product_id : string;
  ind_price_id : string;
  ind_template_id : Z;
  ind_amount : Z;
  ind_stripe_url : string
}.

Record BundleRecord : Type := mkBundle {
  bun_product_id : string;
  bun_price_id : string;
  bun_category : string;
  bun_amount : Z;
  bun_template_count : Z
}.

Record VaultRecord : Type := mkVault {
  vault_product_id : string;
  vault_price_id : string;
  vault_amount : Z;
  vault_template_count : Z;
  vault_includes : list string
}.

Record SubscriptionRecord : Type := mkSubscription {
  sub_product_id : string;
  sub_price_id : string;
  sub_interval : string;
  sub_amount : Z;
  sub_templates_per_month : Z
}.

(** An element of the [prices] list of [_create_enterprise_product]. *)
Record EnterprisePrice : Type := mkEnterprisePrice {
  ep_tier : string;
  ep_price_id : string;
  ep_amount : Z
}.

Record EnterpriseRecord : Type := mkEnterprise {
  ent_product_id : string;
  ent_pricing_tiers : list EnterprisePrice;
  ent_type : string
}.

(** The [results] dict of [create_all_stripe_products]. *)
Record Results : Type := mkResults {
  individual_templates : list IndividualRecord;
  bundles : list BundleRecord;
  subscriptions : list SubscriptionRecord;
  enterprise : list EnterpriseRecord;
  vault_license : option VaultRecord
}.

(** ** The engine, over any implementation of the SDK *)

Section Engine.

(** State of the Stripe account, and the behaviour of its two calls. *)
Context {S : Type}.

Record StripeAPI : Type := mkStripeAPI {
  Product_create : ProductReq -> S -> (exn + Product) * S;
  Price_create : PriceReq -> S -> (exn + Price) * S
}.

Variable stripe : StripeAPI.

(** What a run can observe or change: the account and the calls made so
    far, oldest first. *)
Record World : Type := mkWorld {
  account : S;
  events : list event
}.

Definition M (A : Type) : Type := World -> outcome A * World.

Definition ret {A} (a : A) : M A := fun w => (Ok a, w).

Definition raise {A} (e : exn) : M A := fun w => (Raise e, w).

Definition bind {A B} (m : M A) (k : A -> M B) : M B :=
  fun w =>
    match m w with
    | (Ok a, w') => k a w'
    | (Raise e, w') => (Raise e, w')
    end.

Notation "x <- m ;; k" := (bind m (fun x => k))
  (at level 61, m at next level, right associativity).

(** A call of [stripe.Product.create] with the keyword arguments [req]. *)
Definition stripe_Product_create (req : ProductReq) : M Product :=
  fun w =>
    let (res, s') := Product_create stripe req (account w) in
    let w' := mkWorld s' (events w ++ [EvProduct req res]) in
    match res with
    | inr p => (Ok p, w')
    | inl e => (Raise e, w')
    end.

(** A call of [stripe.Price.create] with the keyword arguments [req]. *)
Definition stripe_Price_create (req : PriceReq) : M Price :=
  fun w =>
    let (res, s') := Price_create stripe req (account w) in
    let w' := mkWorld s' (events w ++ [EvPrice req res]) in
    match res with
    | inr p => (Ok p, w')
    | inl e => (Raise e, w')
    end.

(** [for x in xs: body], the body updating the loop's local state. *)
Fixpoint for_in {A St} (xs : list A) (body : A -> St -> M St) (st : St)
  : M St :=
  match xs with
  | [] => ret st
  | x :: xs' => st' <- body x st ;; for_in xs' body st'
  end.

(** *** [_create_individual_template_product] *)

Definition individual_product_req (template_id : Z) : ProductReq :=
  {| name := ("Business Template #" ++ Py.format_03d template_id)%string;
     description := "AI-powered business template with automated setup and monetization strategies";
     product_metadata :=
       [ ("template_id", PInt template_id);
         ("category", PStr (_get_category_for_template template_id));
         ("type", PStr "individual_template") ] |}.

Definition individual_price_req (template_id : Z) (product_id : string)
  : PriceReq :=
  {| product := product_id;
     unit_amount := base_price template_id * 100;
     currency := "usd";
     recurring := None;
     price_metadata :=
       [ ("template_id", PInt template_id);
         ("pricing_tier", PStr "individual") ] |}.

Definition _create_individual_template_product (template_id : Z)
  : M IndividualRecord :=
  product <- stripe_Product_create (individual_product_req template_id) ;;
  price <- stripe_Price_create
             (individual_price_req template_id (product_obj_id product)) ;;
  ret {| ind_product_id := product_obj_id product;
         ind_price_id := price_obj_id price;
         ind_template_id := template_id;
         ind_amount := base_price template_id;
         ind_stripe_url :=
           ("https://buy.stripe.com/test_" ++ price_obj_id price)%string |}.

(** *** [_create_bundle_product] *)

Definition bundle_size : Z := 48.

Definition bundle_product_req (category : string) : ProductReq :=
  {| name := (category ++ " Template Bundle")%string;
     description :=
       ("Complete " ++ Py.lower category
        ++ " business template collection with "
        ++ Py.str bundle_size ++ "+ templates")%string;
     product_metadata :=
       [ ("category", PStr category);
         ("template_count", PInt bundle_size);
         ("type", PStr "bundle") ] |}.

Definition bundle_price_req (category product_id : string) : PriceReq :=
  {| product := product_id;
     unit_amount := bundle_price category * 100;
     currency := "usd";
     recurring := None;
     price_metadata :=
       [ ("category", PStr category);
         ("pricing_tier", PStr "bundle") ] |}.

Definition _create_bundle_product (category : string) : M BundleRecord :=
  product <- stripe_Product_create (bundle_product_req category) ;;
  price <- stripe_Price_create
             (bundle_price_req category (product_obj_id product)) ;;
  ret {| bun_product_id := product_obj_id product;
         bun_price_id := price_obj_id price;
         bun_category := category;
         bun_amount := bundle_price category;
         bun_template_count := bundle_size |}.

(** *** [_create_vault_license_product] *)

Definition vault_product_req : ProductReq :=
  {| name := "Template Vault License - All 487 Templates";
     description := "Complete access to all 487 business templates + lifetime updates + exclusive consulting sessions";
     product_metadata :=
       [ ("template_count", PInt 487);
         ("type", PStr "vault_license");
         ("includes", PStr "all_templates,lifetime_updates,consulting") ] |}.

Definition vault_price_req (product_id : string) : PriceReq :=
  {| product := product_id;
     unit_amount := 99700;
     currency := "usd";
     recurring := None;
     price_metadata :=
       [ ("pricing_tier", PStr "vault");
         ("value_proposition", PStr "complete_access") ] |}.

Definition _create_vault_license_product : M VaultRecord :=
  product <- stripe_Product_create vault_product_req ;;
  price <- stripe_Price_create (vault_price_req (product_obj_id product)) ;;
  ret {| vault_product_id := product_obj_id product;
         vault_price_id := price_obj_id price;
         vault_amount := 997;
         vault_template_count := 487;
         vault_includes :=
           ["all_templates"; "lifetime_updates"; "consulting_sessions"] |}.

(** *** [_create_subscription_product] *)

Definition amounts : list (string * Z) := [ ("monthly", 47); ("annual", 470) ].

Definition subscription_product_req (interval : string) : ProductReq :=
  {| name := ("Template Studio " ++ Py.title interval ++ " Subscription")%string;
     description := "10 new AI-generated templates monthly + template customization tools + priority support";
     product_metadata :=
       [ ("type", PStr "subscription");
         ("interval", PStr interval);
         ("templates_per_month", PInt 10) ] |}.

Definition subscription_price_req (interval : string) (amount : Z)
           (product_id : string) : PriceReq :=
  {| product := product_id;
     unit_amount := amount * 100;
     currency := "usd";
     recurring := Some (if String.eqb interval "monthly" then "month" else "year");
     price_metadata :=
       [ ("pricing_tier", PStr "subscription");
         ("templates_monthly", PInt 10) ] |}.

Definition _create_subscription_product (interval : string)
  : M SubscriptionRecord :=
  amount <- match Py.dict_get amounts interval with
            | Some a => ret a
            | None => raise (KeyError interval)
            end ;;
  product <- stripe_Product_create (subscription_product_req interval) ;;
  price <- stripe_Price_create
             (subscription_price_req interval amount (product_obj_id product)) ;;
  ret {| sub_product_id := product_obj_id product;
         sub_price_id := price_obj_id price;
         sub_interval := interval;
         sub_amount := amount;
         sub_templates_per_month := 10 |}.

(** *** [_create_enterprise_product] *)

Definition enterprise_product_req : ProductReq :=
  {| name := "Enterprise Template Development + Consulting";
     description := "Custom template creation + white-label licensing + dedicated support + implementation consulting";
     product_metadata :=
       [ ("type", PStr "enterprise");
         ("includes",
          PStr "custom_templates,white_label,consulting,implementation") ] |}.

(** The list the price loop iterates over. *)
Definition enterprise_tiers : list (string * Z) :=
  [ ("starter", 1997); ("growth", 2997); ("enterprise", 4997) ].

Definition enterprise_price_req (tier : string) (amount : Z)
           (product_id : string) : PriceReq :=
  {| product := product_id;
     unit_amount := amount * 100;
     currency := "usd";
     recurring := None;
     price_metadata :=
       [ ("pricing_tier", PStr ("enterprise_" ++ tier)%string);
         ("includes_consulting", PBool true) ] |}.

(** Body of the price loop: one [stripe.Price.create], one [prices.append]. *)
Definition enterprise_price_step (product_id : string) (ta : string * Z)
           (prices : list EnterprisePrice) : M (list EnterprisePrice) :=
  price <- stripe_Price_create
             (enterprise_price_req (fst ta) (snd ta) product_id) ;;
  ret (prices ++ [ {| ep_tier := fst ta;
                      ep_price_id := price_obj_id price;
                      ep_amount := snd ta |} ]).

Definition _create_enterprise_product : M EnterpriseRecord :=
  product <- stripe_Product_create enterprise_product_req ;;
  prices <- for_in enterprise_tiers
              (enterprise_price_step (product_obj_id product)) [] ;;
  ret {| ent_product_id := product_obj_id product;
         ent_pricing_tiers := prices;
         ent_type := "enterprise" |}.

(** *** [create_all_stripe_products] *)

Definition empty_results : Results :=
  {| individual_templates := [];
     bundles := [];
     subscriptions := [];
     enterprise := [];
     vault_license := None |}.

(** [results['individual_templates'].append(x)] and its siblings. *)
Definition append_individual (x : IndividualRecord) (r : Results) : Results :=
  mkResults (individual_templates r ++ [x]) (bundles r) (subscriptions r)
            (enterprise r) (vault_license r).
Definition append_bundle (x : BundleRecord) (r : Results) : Results :=
  mkResults (individual_templates r) (bundles r ++ [x]) (subscriptions r)
            (enterprise r) (vault_license r).
Definition append_enterprise (x : EnterpriseRecord) (r : Results) : Results :=
  mkResults (individual_templates r) (bundles r) (subscriptions r)
            (enterprise r ++ [x]) (vault_license r).
Definition set_subscriptions (xs : list SubscriptionRecord) (r : Results)
  : Results :=
  mkResults (individual_templates r) (bundles r) xs
            (enterprise r) (vault_license r).
Definition set_vault_license (x : VaultRecord) (r : Results) : Results :=
  mkResults (individual_templates r) (bundles r) (subscriptions r)
            (enterprise r) (Some x).

(** The ten bundle categories, the local list [categories]. *)
Definition categories : list string :=
  [ "Corporate & Enterprise"; "Financial Services"; "E-commerce & Retail";
    "Education & Training"; "Healthcare & Wellness"; "Community Impact";
    "Creative & Media"; "Construction & Real Estate"; "Technology & SaaS";
    "Research & Development" ].

Definition individual_step (i : Z) (results : Results) : M Results :=
  template_product <- _create_individual_template_product i ;;
  ret (append_individual template_product results).

Definition bundle_step (category : string) (results : Results) : M Results :=
  bundle_product <- _create_bundle_product category ;;
  ret (append_bundle bundle_product results).

Definition create_all_stripe_products : M Results :=
  let results := empty_results in
  results <- for_in (Py.range 1 488) individual_step results ;;
  results <- for_in categories bundle_step results ;;
  vault_product <- _create_vault_license_product ;;
  let results := set_vault_license vault_product results in
  monthly_sub <- _create_subscription_product "monthly" ;;
  annual_sub <- _create_subscription_product "annual" ;;
  let results := set_subscriptions [monthly_sub; annual_sub] results in
  enterprise_product <- _create_enterprise_product ;;
  let results := append_enterprise enterprise_product results in
  ret results.

End Engine.

Arguments StripeAPI S : clear implicits.
Arguments World S : clear implicits.
Arguments M S A : clear implicits.

(** ** Pricing table of the orchestrator ([TemplateOrchestrator._calculate_price_tier]) *)

Record PriceTier : Type := mkPriceTier {
  tier_individual : Z;
  tier_bundle : Z;
  tier_enterprise : Z
}.

Definition pricing_tiers : list (string * PriceTier) :=
  [ ("fintech",    mkPriceTier 49 299 1997);
    ("saas",       mkPriceTier 39 249 1497);
    ("ecommerce",  mkPriceTier 29 199 997);
    ("consulting", mkPriceTier 59 399 2497);
    ("default",    mkPriceTier 25 149 897) ].

(** [pricing_tiers.get(category.lower(), pricing_tiers["default"])]; the
    key ["default"] is in the literal, so the default argument evaluates. *)
Definition _calculate_price_tier (category : string) : PriceTier :=
  let default := match Py.dict_get pricing_tiers "default" with
                 | Some t => t
                 | None => mkPriceTier 0 0 0
                 end in
  match Py.dict_get pricing_tiers (Py.lower category) with
  | Some t => t
  | None => default
  end.

(** ** A test double for the SDK *)

Module Mock.

(** The account counts the objects created; ids are ["prod_<n>"] and
    ["price_<n>"]. [bad_product] and [bad_price] pick the requests that
    Stripe rejects. *)
Definition api (bad_product : ProductReq -> bool) (bad_price : PriceReq -> bool)
  : StripeAPI N :=
  {| Product_create := fun req n =>
       if bad_product req then (inl (StripeError "api_error"), n)
       else (inr (mkProduct ("prod_" ++ Py.str_nat n)%string), N.succ n);
     Price_create := fun req n =>
       if bad_price req then (inl (StripeError "api_error"), n)
       else (inr (mkPrice ("price_" ++ Py.str_nat n)%string), N.succ n) |}.

(** Stripe accepts everything. *)
Definition accepting : StripeAPI N := api (fun _ => false) (fun _ => false).

(** Stripe rejects the product of template [k], and nothing else. *)
Definition is_template (k : Z) (req : ProductReq) : bool :=
  match Py.dict_get (product_metadata req) "template_id" with
  | Some (PInt z) => z =? k
  | _ => false
  end.
Definition fails_on_template (k : Z) : StripeAPI N :=
  api (is_template k) (fun _ => false).

Definition fresh : World N := mkWorld 0%N [].

End Mock.

(** ** Vocabulary of the statements *)

Notation "x <- m ;; k" := (bind m (fun x => k))
  (at level 61, m at next level, right associativity).

(** [id] lies in the inclusive band of the item [p]. *)
Definition matches (id : Z) (p : (Z * Z) * string) : Prop :=
  fst (fst p) <= id <= snd (fst p).

(** Number of configured bands holding [id]. *)
Definition match_count (id : Z) : nat :=
  List.length (filter (fun p => in_range (fst p) id) category_mapping).

(** Two bands share no id. *)
Definition disjoint (p q : (Z * Z) * string) : Prop :=
  forall id, ~ (matches id p /\ matches id q).

(** Product ids Stripe handed out along a trace, in call order. *)
Fixpoint product_ids (tr : list event) : list string :=
  match tr with
  | [] => []
  | EvProduct _ (inr p) :: tr' => product_obj_id p :: product_ids tr'
  | _ :: tr' => product_ids tr'
  end.

(** Amounts, in cents, of the prices requested along a trace. *)
Definition sent_amounts (tr : list event) : list Z :=
  map unit_amount (price_reqs tr).

(** Product ids of the records of a [results] dict, taken in the order in
    which the generator fills the keys: 'individual_templates', 'bundles',
    'vault_license', 'subscriptions', 'enterprise'. This is the order of
    creation, not the order of the keys of the dict, for which see
    [dict_order_product_ids]. *)
Definition result_product_ids (r : Results) : list string :=
  map ind_product_id (individual_templates r)
  ++ map bun_product_id (bundles r)
  ++ match vault_license r with Some v => [vault_product_id v] | None => [] end
  ++ map sub_product_id (subscriptions r)
  ++ map ent_product_id (enterprise r).

(** An SDK none of whose calls ever raises. *)
Definition reliable {S} (api : StripeAPI S) : Prop :=
  (forall req s, exists p s', Product_create api req s = (inr p, s')) /\
  (forall req s, exists p s', Price_create api req s = (inr p, s')).

(** [m] returns from every world; the value [a] it returns and the calls
    [tr] it adds to the trace, none of which failed, satisfy [Q]. *)
Definition returns {S A} (m : M S A) (Q : A -> list event -> Prop) : Prop :=
  forall w, exists a s' tr,
    m w = (Ok a, mkWorld s' (events w ++ tr)) /\
    Forall succeeded tr /\ Q a tr.



(** Every record a run returns carries the amount (or amounts) [v]. *)
Definition priced {S A V} (amt : A -> V) (v : V) (run : outcome A * World S)
  : Prop :=
  match fst run with
  | Ok a => amt a = v
  | Raise _ => True
  end.

(** Two runs that both return agree on the amount. *)
Definition same_amount {A V} (amt : A -> V) (o1 o2 : outcome A) : Prop :=
  match o1, o2 with
  | Ok a1, Ok a2 => amt a1 = amt a2
  | _, _ => True
  end.

(** [m] invoked [n] times in a row, the results collected in order. *)
Definition invoke_times {S A} (n : nat) (m : M S A) : M S (list A) :=
  for_in (seq 0 n) (fun _ acc => a <- m ;; ret (acc ++ [a])) [].

(** State of the first loop of [create_all_stripe_products] once the ids
    [done] are processed: the records, and the calls [tr] made for them. *)
Definition individuals_done (done : list Z) (r : Results) (tr : list event)
  : Prop :=
  map ind_template_id (individual_templates r) = done /\
  map ind_amount (individual_templates r) = map base_price done /\
  bundles r = [] /\ vault_license r = None /\
  subscriptions r = [] /\ enterprise r = [] /\
  map ind_product_id (individual_templates r) = product_ids tr /\
  product_reqs tr = map individual_product_req done /\
  sent_amounts tr = map (fun i => base_price i * 100) done.

(** State of the second loop once the categories [done] are processed,
    [r0] being the results the loop started from and [tr] its own calls. *)
Definition bundles_done (r0 : Results) (done : list string) (r : Results)
           (tr : list event) : Prop :=
  individual_templates r = individual_templates r0 /\
  map bun_category (bundles r) = done /\
  map bun_amount (bundles r) = map bundle_price done /\
  vault_license r = None /\
  subscriptions r = [] /\ enterprise r = [] /\
  map bun_product_id (bundles r) = product_ids tr /\
  product_reqs tr = map bundle_product_req done /\
  sent_amounts tr = map (fun c => bundle_price c * 100) done.

(** What a complete run leaves behind: the records under each key of
    [results], and the calls [tr] it made. *)
Definition complete_catalog (r : Results) (tr : list event) : Prop :=
  map ind_template_id (individual_templates r) = Py.range 1 488 /\
  map ind_amount (individual_templates r) = map base_price (Py.range 1 488) /\
  map bun_category (bundles r) = categories /\
  map bun_amount (bundles r) = map bundle_price categories /\
  (exists v, vault_license r = Some v /\ vault_amount v = 997) /\
  map sub_interval (subscriptions r) = ["monthly"; "annual"] /\
  map sub_amount (subscriptions r) = [47; 470] /\
  (exists e, enterprise r = [e] /\
             map ep_amount (ent_pricing_tiers e) = [1997; 2997; 4997]) /\
  result_product_ids r = product_ids tr /\
  product_reqs tr =
    map individual_product_req (Py.range 1 488)
    ++ map bundle_product_req categories
    ++ [ vault_product_req;
         subscription_product_req "monthly";
         subscription_product_req "annual";
         enterprise_product_req ] /\
  sent_amounts tr =
    map (fun i => base_price i * 100) (Py.range 1 488)
    ++ map (fun c => bundle_price c * 100) categories
    ++ [ 99700; 4700; 47000; 199700; 299700; 499700 ].

(** * The rest of the code *)

From Stdlib Require Import DecimalN DecimalPos.

(** ** Exceptions and a state-and-exception monad for the entry points

    The scripts' entry points talk to more collaborators than the two
    calls above: Stripe webhooks, S3, the OpenAI client, the clock, standard
    output. Whatever a run can touch is a world [W]; a method is a function
    from the world to a result and the world it leaves. *)

(** Exceptions seen above the product and price layer. [Boto3Error msg] and
    [OpenAIError msg] stand for any [Exception] those libraries raise, [msg]
    being what [str(e)] gives. *)
Inductive exc : Type :=
| Core (e : exn)
| Boto3Error (msg : string)
| OpenAIError (msg : string)
| IndexError (msg : string)
| NameError (msg : string).

Inductive result (A : Type) : Type :=
| Return (a : A)
| Throw (e : exc).
Arguments Return {A} a.
Arguments Throw {A} e.

Definition ST (W A : Type) : Type := W -> result A * W.

Definition st_ret {W A} (a : A) : ST W A := fun w => (Return a, w).

Definition st_throw {W A} (e : exc) : ST W A := fun w => (Throw e, w).

Definition st_bind {W A B} (m : ST W A) (k : A -> ST W B) : ST W B :=
  fun w =>
    match m w with
    | (Return a, w') => k a w'
    | (Throw e, w') => (Throw e, w')
    end.

Notation "'let*' x ':=' m 'in' k" := (st_bind m (fun x => k))
  (at level 10, x name, m at level 100, k at level 200).

(** [try: m / except Exception as e: handler(e)]; every [exc] is an
    [Exception]. *)
Definition try_except {W A} (m : ST W A) (handler : exc -> ST W A) : ST W A :=
  fun w =>
    match m w with
    | (Return a, w') => (Return a, w')
    | (Throw e, w') => handler e w'
    end.

(** [for x in xs: body], the body updating the loop's local state. *)
Fixpoint for_each {W A St} (xs : list A) (body : A -> St -> ST W St) (st : St)
  : ST W St :=
  match xs with
  | [] => st_ret st
  | x :: xs' => let* st' := body x st in for_each xs' body st'
  end.

(** [str(e)] as an f-string renders a caught exception. A [KeyError] shows
    the repr of its key, which for a key without quotes or escapes is the
    key between single quotes. *)
Definition str_exc (e : exc) : string :=
  match e with
  | Core (StripeError reason) => reason
  | Core (KeyError key) => ("'" ++ key ++ "'")%string
  | Boto3Error msg | OpenAIError msg | IndexError msg | NameError msg => msg
  end.

(** Evaluating a global name in a module: the names the module binds (its
    imports, classes and functions) resolve, any other raises [NameError],
    unless it is a builtin, which [os] is not. *)
Definition global_name {W} (bound : list string) (n : string) : ST W unit :=
  if existsb (String.eqb n) bound then st_ret tt
  else st_throw (NameError ("name '" ++ n ++ "' is not defined")%string).

(** ** [stripe-integration.py]: webhooks, digital delivery, download links *)

Module Monetization.

(** Keyword arguments of [stripe.WebhookEndpoint.create] and the [.id] of
    what it returns. *)
Record WebhookReq : Type := mkWebhookReq {
  url : string;
  enabled_events : list string
}.
Record Webhook : Type := mkWebhook { webhook_obj_id : string }.

(** Keyword arguments of [s3_client.put_object]. *)
Record PutReq : Type := mkPutReq {
  Bucket : string;
  Key : string;
  Body : string
}.

(** Arguments of [s3_client.generate_presigned_url]. *)
Record PresignReq : Type := mkPresignReq {
  ClientMethod : string;
  Params_Bucket : string;
  Params_Key : string;
  ExpiresIn : Z
}.

(** One call made besides product and price creation, with its answer. *)
Inductive cloud_call : Type :=
| CallClient (service : string) (res : string + unit)
| CallWebhook (req : WebhookReq) (res : exn + Webhook)
| CallPut (req : PutReq) (res : string + unit)
| CallPresign (req : PresignReq) (res : string + string).

(** The dicts the methods return. *)
Record WebhookSetup : Type := mkWebhookSetup {
  webhook_ids : list string;
  status : string
}.
Record DeliveryConfig : Type := mkDeliveryConfig {
  bucket : string;
  url_expiry : Z;
  access_control : string
}.
Record Setup : Type := mkSetup {
  products : Results;
  webhooks : WebhookSetup;
  delivery : DeliveryConfig
}.

(** The price entries of [self.pricing_tiers]; the [commission] floats, which
    no method reads, are left out. *)
Inductive tier_price : Type :=
| price_range (lo hi : Z)
| price (amount : Z)
| intervals (monthly annual : Z).

Definition pricing_tiers : list (string * tier_price) :=
  [ ("individual", price_range 5 50);
    ("bundle", price_range 99 299);
    ("vault", price 997);
    ("enterprise", price_range 1497 4997);
    ("subscription", intervals 47 470) ].

(** [amount] is what the entry [tier] of the configuration allows. *)
Definition allowed (tier : string) (amount : Z) : bool :=
  match Py.dict_get pricing_tiers tier with
  | Some (price_range lo hi) => (lo <=? amount) && (amount <=? hi)
  | Some (price a) => amount =? a
  | Some (intervals m a) => (amount =? m) || (amount =? a)
  | None => false
  end.

(** [self.bucket_name]. *)
Definition bucket_name : string := "iza-os-templates".

(** An element of the list [webhook_endpoints]. *)
Record Endpoint : Type := mkEndpoint {
  endpoint_url : string;
  endpoint_events : list string
}.

Definition webhook_endpoints : list Endpoint :=
  [ {| endpoint_url :=
         "https://marketplace.iza-os.com/webhooks/stripe/payment-success";
       endpoint_events :=
         ["payment_intent.succeeded"; "checkout.session.completed"] |};
    {| endpoint_url :=
         "https://marketplace.iza-os.com/webhooks/stripe/subscription";
       endpoint_events :=
         ["customer.subscription.created"; "customer.subscription.updated";
          "customer.subscription.deleted"] |};
    {| endpoint_url :=
         "https://marketplace.iza-os.com/webhooks/stripe/refunds";
       endpoint_events :=
         ["charge.dispute.created"; "payment_intent.payment_failed"] |} ].

(** The request [setup_webhooks] makes for an endpoint. *)
Definition webhook_req (endpoint : Endpoint) : WebhookReq :=
  {| url := endpoint_url endpoint;
     enabled_events := endpoint_events endpoint |}.

(** The request [setup_digital_delivery] makes for a folder. *)
Definition put_req (folder : string) : PutReq :=
  {| Bucket := bucket_name; Key := folder; Body := "" |}.

Definition folders : list string :=
  [ "templates/individual/"; "templates/bundles/"; "templates/vault/";
    "customization-tools/"; "documentation/"; "bonus-materials/" ].

(** The key of the package a download link points to. *)
Definition package_key (customer_id stamp : string) : string :=
  ("packages/" ++ customer_id ++ "_" ++ stamp ++ ".zip")%string.

(** The texts [warp_setup_monetization] prints, as the source file spells
    them. *)
Definition msg_start : string := "ðŸš€ Setting up complete monetization system...".
Definition msg_products : string := "ðŸ’³ Creating Stripe products...".
Definition msg_created : string := "âœ… Created ".
Definition msg_vault_and_subscriptions : string := "âœ… Created vault license and subscriptions".
Definition msg_webhooks : string := "ðŸ”— Setting up webhooks...".
Definition msg_delivery : string := "ðŸ“¦ Setting up digital delivery...".
Definition msg_bucket : string := "âœ… S3 bucket configured: ".
Definition msg_complete : string := "ðŸŽ‰ Monetization system complete!".

Section Platform.

(** [S] is the state of everything outside the process (the Stripe account,
    the bucket, the clock), [DT] the type of [datetime] values. *)
Context {S DT : Type}.

Record CloudAPI : Type := mkCloudAPI {
  boto3_client : string -> S -> (string + unit) * S;
  WebhookEndpoint_create : WebhookReq -> S -> (exn + Webhook) * S;
  put_object : PutReq -> S -> (string + unit) * S;
  generate_presigned_url : PresignReq -> S -> (string + string) * S;
  datetime_now : S -> DT * S;
  strftime : DT -> string -> string
}.

Variable stripe : StripeAPI S.
Variable cloud : CloudAPI.

(** The world of a run: the product and price layer's world, the other
    calls made so far, and the lines printed so far. *)
Record Host : Type := mkHost {
  core : World S;
  cloud_calls : list cloud_call;
  stdout : list string
}.

(** A method of the product and price layer, run inside the host. *)
Definition lift {A} (m : M S A) : ST Host A :=
  fun h =>
    let (o, w') := m (core h) in
    let h' := mkHost w' (cloud_calls h) (stdout h) in
    match o with
    | Ok a => (Return a, h')
    | Raise e => (Throw (Core e), h')
    end.

(** A call of a collaborator: it moves the outside state and is logged. *)
Definition external {R Err} (run : S -> (Err + R) * S)
           (log : Err + R -> cloud_call) (wrap : Err -> exc) : ST Host R :=
  fun h =>
    let (res, s') := run (account (core h)) in
    let h' := mkHost (mkWorld s' (events (core h)))
                     (cloud_calls h ++ [log res]) (stdout h) in
    match res with
    | inr r => (Return r, h')
    | inl e => (Throw (wrap e), h')
    end.

Definition print (line : string) : ST Host unit :=
  fun h => (Return tt, mkHost (core h) (cloud_calls h) (stdout h ++ [line])).

(** [MonetizationEngine()]: the two [os.getenv] reads cannot raise and the
    key they yield only reaches the SDK; [boto3.client('s3')] can raise. *)
Definition MonetizationEngine_init : ST Host unit :=
  external (boto3_client cloud "s3") (CallClient "s3") Boto3Error.

Definition stripe_WebhookEndpoint_create (req : WebhookReq) : ST Host Webhook :=
  external (WebhookEndpoint_create cloud req) (CallWebhook req) Core.

Definition s3_put_object (req : PutReq) : ST Host unit :=
  external (put_object cloud req) (CallPut req) Boto3Error.

Definition s3_generate_presigned_url (req : PresignReq) : ST Host string :=
  external (generate_presigned_url cloud req) (CallPresign req) Boto3Error.

(** [datetime.now()]; reading the clock is not logged. *)
Definition now : ST Host DT :=
  fun h =>
    let (d, s') := datetime_now cloud (account (core h)) in
    (Return d, mkHost (mkWorld s' (events (core h))) (cloud_calls h) (stdout h)).

(** *** [setup_webhooks] *)

Definition webhook_step (endpoint : Endpoint) (created_webhooks : list string)
  : ST Host (list string) :=
  let* webhook := stripe_WebhookEndpoint_create (webhook_req endpoint) in
  st_ret (created_webhooks ++ [webhook_obj_id webhook]).

Definition setup_webhooks : ST Host WebhookSetup :=
  let* created_webhooks := for_each webhook_endpoints webhook_step [] in
  st_ret {| webhook_ids := created_webhooks; status := "configured" |}.

(** *** [setup_digital_delivery] *)

Definition folder_step (folder : string) (_ : unit) : ST Host unit :=
  try_except
    (s3_put_object (put_req folder))
    (fun e => print ("Folder " ++ folder ++ " may already exist: "
                     ++ str_exc e)%string).

Definition setup_digital_delivery : ST Host DeliveryConfig :=
  let* _ := for_each folders folder_step tt in
  st_ret {| bucket := bucket_name;
            url_expiry := 3600;
            access_control := "authenticated_customers_only" |}.

(** *** [generate_download_link] *)

Definition generate_download_link (customer_id product_type : string)
           (template_ids : list Z) : ST Host string :=
  let* d := now in
  let package_key := package_key customer_id (strftime cloud d "%Y%m%d_%H%M%S") in
  s3_generate_presigned_url
    {| ClientMethod := "get_object";
       Params_Bucket := bucket_name;
       Params_Key := package_key;
       ExpiresIn := 3600 |}.

(** *** [warp_setup_monetization] *)

Definition warp_setup_monetization : ST Host Setup :=
  let* _ := print msg_start in
  let* _ := MonetizationEngine_init in
  let* _ := print msg_products in
  let* products := lift (create_all_stripe_products stripe) in
  let* _ := print (msg_created
                   ++ Py.str (Z.of_nat (List.length (individual_templates products)))
                   ++ " individual templates")%string in
  let* _ := print (msg_created
                   ++ Py.str (Z.of_nat (List.length (bundles products)))
                   ++ " category bundles")%string in
  let* _ := print msg_vault_and_subscriptions in
  let* _ := print msg_webhooks in
  let* webhooks := setup_webhooks in
  let* _ := print (msg_created
                   ++ Py.str (Z.of_nat (List.length (webhook_ids webhooks)))
                   ++ " webhooks")%string in
  let* _ := print msg_delivery in
  let* delivery := setup_digital_delivery in
  let* _ := print (msg_bucket ++ bucket delivery)%string in
  let* _ := print msg_complete in
  st_ret {| products := products; webhooks := webhooks; delivery := delivery |}.

End Platform.

Arguments CloudAPI S DT : clear implicits.
Arguments Host S : clear implicits.

End Monetization.

(** A test double for the other collaborators, on the account of [Mock]:
    [bad_hook] and [bad_put] pick the requests that are refused, the clock
    ticks at every reading and a date prints as its tick. *)
Module MockCloud.

Definition api (bad_hook : Monetization.WebhookReq -> bool)
           (bad_put : Monetization.PutReq -> bool)
  : Monetization.CloudAPI N N :=
  {| Monetization.boto3_client := fun _ n => (inr tt, n);
     Monetization.WebhookEndpoint_create := fun req n =>
       if bad_hook req then (inl (StripeError "api_error"), n)
       else (inr (Monetization.mkWebhook ("we_" ++ Py.str_nat n)%string),
             N.succ n);
     Monetization.put_object := fun req n =>
       if bad_put req then (inl "BucketAlreadyOwnedByYou", n) else (inr tt, n);
     Monetization.generate_presigned_url := fun req n =>
       (inr ("https://s3.amazonaws.com/" ++ Monetization.Params_Bucket req
             ++ "/" ++ Monetization.Params_Key req)%string, n);
     Monetization.datetime_now := fun n => (n, N.succ n);
     Monetization.strftime := fun d _ => Py.str_nat d |}.

Definition accepting : Monetization.CloudAPI N N :=
  api (fun _ => false) (fun _ => false).

(** S3 refuses every folder. *)
Definition s3_refusing : Monetization.CloudAPI N N :=
  api (fun _ => false) (fun _ => true).

Definition fresh : Monetization.Host N := Monetization.mkHost Mock.fresh [] [].

End MockCloud.

(** ** [template-orchestrator.py] *)

Module Orchestrator.

(** Arguments of [chat.completions.create], each message a role and a
    content, and what the source reads of the answer: the [message.content]
    of its choices. *)
Record ChatReq : Type := mkChatReq {
  model : string;
  messages : list (string * string)
}.
Record Choice : Type := mkChoice { message_content : option string }.

(** The dict [_generate_single_template] builds. The methods below take a
    template as a dict; the templates of this file all come from there. *)
Record Template : Type := mkTemplate {
  tpl_id : string;
  tpl_category : string;
  tpl_generated_at : string;
  tpl_content : option string;
  tpl_price_tier : PriceTier;
  tpl_monetization_ready : bool
}.

(** The dict [deploy_template_to_marketplace] returns. *)
Record Deployment : Type := mkDeployment {
  dep_template_id : string;
  dep_marketplace_url : string;
  dep_stripe_product_id : string;
  dep_pricing : PriceTier;
  dep_deployed_at : string;
  dep_status : string
}.

(** The dict [_create_marketing_campaign] returns. *)
Record Campaign : Type := mkCampaign {
  camp_template_id : string;
  camp_campaign_type : string;
  camp_channels : list string;
  camp_budget : string;
  camp_duration : string;
  camp_target_audience : string
}.

(** The f-string [prompt], around the category. *)
Definition prompt_before : string := "
        Generate a comprehensive business template for category: ".
Definition prompt_after : string := "
        
        Include:
        1. Business model overview
        2. Revenue streams (3-5 specific methods)
        3. Target market analysis
        4. Operational workflow (step-by-step)
        5. Technology stack requirements
        6. Financial projections (6-month)
        7. Marketing strategy
        8. Risk assessment
        9. Success metrics
        10. Implementation timeline
        
        Make it actionable and monetizable. Format as structured JSON.
        ".
Definition prompt (category : string) : string :=
  (prompt_before ++ category ++ prompt_after)%string.

Definition system_message : string := "You are a business template generator creating actionable, profitable business models.".

(** The request [_generate_single_template] sends for a category. *)
Definition chat_req (category : string) : ChatReq :=
  {| model := "gpt-4";
     messages := [ ("system", system_message); ("user", prompt category) ] |}.

(** The texts the entry points print, as the source file spells them. *)
Definition msg_generating : string := "ðŸš€ Generating ".
Definition msg_deployed : string := "âœ… Deployed: ".
Definition msg_generated : string := "ðŸŽ‰ Generated ".
Definition msg_status : string := "ðŸ”„ IZA OS Integration Status:".
Definition msg_tick : string := "âœ…".

(** The names the module binds by the time an entry point runs: its
    imports, its class and its two functions. [os] is not imported. *)
Definition module_names : list string :=
  [ "asyncio"; "json"; "Dict"; "List"; "Optional"; "datetime"; "openai";
    "Path"; "TemplateOrchestrator"; "warp_generate_templates";
    "warp_sync_template_data" ].

(** The dicts of the four [_check_*_integration] methods. *)
Definition _check_financial_integration : metadata :=
  [ ("status", PStr "connected"); ("stripe_configured", PBool true);
    ("payment_webhooks", PBool true); ("subscription_management", PBool true) ].
Definition _check_sales_integration : metadata :=
  [ ("status", PStr "connected"); ("crm_integration", PBool true);
    ("conversion_tracking", PBool true); ("lead_scoring", PBool true) ].
Definition _check_marketing_integration : metadata :=
  [ ("status", PStr "connected"); ("campaign_automation", PBool true);
    ("content_generation", PBool true); ("social_media_integration", PBool true) ].
Definition _check_operations_integration : metadata :=
  [ ("status", PStr "connected"); ("template_delivery", PBool true);
    ("customer_support", PBool true); ("quality_assurance", PBool true) ].

(** How an f-string renders a value of a status dict. *)
Definition str_pyval (v : pyval) : string :=
  match v with
  | PInt z => Py.str z
  | PStr s => s
  | PBool true => "True"
  | PBool false => "False"
  end.

Section Desk.

(** [E] is the state of everything outside the process (the OpenAI
    account, the clock, the environment variables), [DT] the type of
    [datetime] values. *)
Context {E DT : Type}.

Record API : Type := mkAPI {
  AsyncOpenAI : option string -> E -> (string + unit) * E;
  chat_completions_create : ChatReq -> E -> (string + list Choice) * E;
  datetime_now : E -> DT * E;
  strftime : DT -> string -> string;
  isoformat : DT -> string;
  getenv : string -> E -> option string
}.

Variable api : API.

(** The world of a run: the outside, the chat calls made so far with their
    answers, the lines printed so far, and [self.generated_today] of the
    orchestrator at work. *)
Record Desk : Type := mkDesk {
  outside : E;
  chat_log : list (ChatReq * (string + list Choice));
  stdout : list string;
  generated_today : Z
}.

Definition print (line : string) : ST Desk unit :=
  fun d => (Return tt,
            mkDesk (outside d) (chat_log d) (stdout d ++ [line])
                   (generated_today d)).

(** [datetime.now()]. *)
Definition now : ST Desk DT :=
  fun d =>
    let (t, e') := datetime_now api (outside d) in
    (Return t, mkDesk e' (chat_log d) (stdout d) (generated_today d)).

(** [os.getenv(name)], once [os] resolves. *)
Definition os_getenv (name : string) : ST Desk (option string) :=
  fun d => (Return (getenv api name (outside d)), d).

(** [await self.openai_client.chat.completions.create(...)]. *)
Definition openai_chat_completions_create (req : ChatReq)
  : ST Desk (list Choice) :=
  fun d =>
    let (res, e') := chat_completions_create api req (outside d) in
    let d' := mkDesk e' (chat_log d ++ [(req, res)]) (stdout d)
                     (generated_today d) in
    match res with
    | inr choices => (Return choices, d')
    | inl msg => (Throw (OpenAIError msg), d')
    end.

(** [TemplateOrchestrator(config)]: builds the client from
    [config.get('openai_key')], which can raise, and starts the counter
    at 0. *)
Definition TemplateOrchestrator_init (openai_key : option string)
  : ST Desk unit :=
  fun d =>
    let (res, e') := AsyncOpenAI api openai_key (outside d) in
    match res with
    | inr _ => (Return tt, mkDesk e' (chat_log d) (stdout d) 0)
    | inl msg => (Throw (OpenAIError msg),
                  mkDesk e' (chat_log d) (stdout d) (generated_today d))
    end.

(** [self.generated_today += 1]. *)
Definition count_generated : ST Desk unit :=
  fun d => (Return tt,
            mkDesk (outside d) (chat_log d) (stdout d) (generated_today d + 1)).

(** [choices[0]]. *)
Definition first_choice (choices : list Choice) : ST Desk Choice :=
  match choices with
  | c :: _ => st_ret c
  | [] => st_throw (IndexError "list index out of range")
  end.

(** *** [_generate_single_template] *)

Definition _generate_single_template (category : string) (index : Z)
  : ST Desk Template :=
  let* response := openai_chat_completions_create (chat_req category) in
  let* t1 := now in
  let id := (category ++ "_" ++ Py.str index ++ "_"
             ++ strftime api t1 "%Y%m%d")%string in
  let* t2 := now in
  let generated_at := isoformat api t2 in
  let* choice := first_choice response in
  st_ret {| tpl_id := id;
            tpl_category := category;
            tpl_generated_at := generated_at;
            tpl_content := message_content choice;
            tpl_price_tier := _calculate_price_tier category;
            tpl_monetization_ready := true |}.

(** *** [generate_template_batch] *)

Definition batch_step (category : string) (i : Z) (templates : list Template)
  : ST Desk (list Template) :=
  let* template := _generate_single_template category i in
  let templates := templates ++ [template] in
  let* _ := count_generated in
  st_ret templates.

Definition generate_template_batch (category : string) (count : Z)
  : ST Desk (list Template) :=
  for_each (Py.range 0 count) (batch_step category) [].

(** *** [integrate_with_iza_agents] *)

Definition integrate_with_iza_agents : ST Desk (list (string * metadata)) :=
  st_ret [ ("financial_core", _check_financial_integration);
           ("sales_core", _check_sales_integration);
           ("marketing_core", _check_marketing_integration);
           ("operations_core", _check_operations_integration) ].

(** *** [deploy_template_to_marketplace] and [_create_marketing_campaign] *)

Definition _create_marketing_campaign (template : Template) : ST Desk Campaign :=
  st_ret {| camp_template_id := tpl_id template;
            camp_campaign_type := "product_launch";
            camp_channels := ["twitter"; "linkedin"; "email"; "reddit"];
            camp_budget := "$100";
            camp_duration := "7_days";
            camp_target_audience :=
              (tpl_category template ++ "_entrepreneurs")%string |}.

Definition deploy_template_to_marketplace (template : Template)
  : ST Desk Deployment :=
  let* t := now in
  let deployment_result :=
    {| dep_template_id := tpl_id template;
       dep_marketplace_url :=
         ("https://marketplace.iza-os.com/templates/" ++ tpl_id template)%string;
       dep_stripe_product_id := ("prod_" ++ tpl_id template)%string;
       dep_pricing := tpl_price_tier template;
       dep_deployed_at := isoformat api t;
       dep_status := "live" |} in
  let* _ := _create_marketing_campaign template in
  st_ret deployment_result.

(** *** The entry points [warp_generate_templates], [warp_sync_template_data] *)

Definition deploy_step (template : Template) (_ : unit) : ST Desk unit :=
  let* deployment := deploy_template_to_marketplace template in
  print (msg_deployed ++ dep_marketplace_url deployment)%string.

Definition warp_generate_templates (category : string) (count : Z)
  : ST Desk (list Template) :=
  let* _ := global_name module_names "os" in
  let* openai_key := os_getenv "OPENAI_API_KEY" in
  let* _ := TemplateOrchestrator_init openai_key in
  let* _ := print (msg_generating ++ Py.str count ++ " templates for "
                   ++ category ++ "...")%string in
  let* templates := generate_template_batch category count in
  let* _ := for_each templates deploy_step tt in
  let* _ := print (msg_generated
                   ++ Py.str (Z.of_nat (List.length templates))
                   ++ " templates successfully!")%string in
  st_ret templates.

Definition status_step (entry : string * metadata) (_ : unit) : ST Desk unit :=
  let* status := match Py.dict_get (snd entry) "status" with
                 | Some v => st_ret v
                 | None => st_throw (Core (KeyError "status"))
                 end in
  print ("  " ++ fst entry ++ ": " ++ msg_tick ++ " " ++ str_pyval status)%string.

Definition warp_sync_template_data : ST Desk (list (string * metadata)) :=
  let* _ := global_name module_names "os" in
  let* openai_key := os_getenv "OPENAI_API_KEY" in
  let* _ := TemplateOrchestrator_init openai_key in
  let* integration_status := integrate_with_iza_agents in
  let* _ := print msg_status in
  let* _ := for_each integration_status status_step tt in
  st_ret integration_status.

End Desk.

Arguments API E DT : clear implicits.
Arguments Desk E : clear implicits.

End Orchestrator.

(** A test double for the orchestrator's collaborators: the outside is a
    tick counter, the model answers with [answer] (a list of choices) unless
    [bad_chat] refuses the request, dates print as eight characters. *)
Module MockOpenAI.

Definition api (answer : list Orchestrator.Choice)
           (bad_chat : Orchestrator.ChatReq -> bool)
  : Orchestrator.API N N :=
  {| Orchestrator.AsyncOpenAI := fun _ n => (inr tt, n);
     Orchestrator.chat_completions_create := fun req n =>
       if bad_chat req then (inl "rate_limit_exceeded", n)
       else (inr answer, N.succ n);
     Orchestrator.datetime_now := fun n => (n, N.succ n);
     Orchestrator.strftime := fun _ _ => "20250115";
     Orchestrator.isoformat := fun d =>
       ("2025-01-15T09:30:00." ++ Py.str_nat d)%string;
     Orchestrator.getenv := fun _ _ => None |}.

Definition answering : Orchestrator.API N N :=
  api [Orchestrator.mkChoice (Some "{}")] (fun _ => false).

(** The model answers, with no choice in its answer. *)
Definition speechless : Orchestrator.API N N := api [] (fun _ => false).

Definition fresh : Orchestrator.Desk N := Orchestrator.mkDesk 0%N [] [] 0.

End MockOpenAI.

(** ** Vocabulary of the statements about the rest of the code *)

(** The calls [setup_digital_delivery] makes when S3 gives [answers] to the
    folders [fs], and the lines it prints. *)
Definition put_trace (fs : list string) (answers : list (string + unit))
  : list Monetization.cloud_call :=
  map (fun fa => Monetization.CallPut (Monetization.put_req (fst fa)) (snd fa))
      (combine fs answers).

Definition put_warnings (fs : list string) (answers : list (string + unit))
  : list string :=
  flat_map (fun fa =>
              match snd fa with
              | inl msg => [("Folder " ++ fst fa ++ " may already exist: "
                             ++ msg)%string]
              | inr _ => []
              end)
           (combine fs answers).

(** The calls [setup_webhooks] makes when Stripe answers [hooks] to the
    endpoints [es]. *)
Definition webhook_trace (es : list Monetization.Endpoint)
           (hooks : list Monetization.Webhook) : list Monetization.cloud_call :=
  map (fun eh => Monetization.CallWebhook (Monetization.webhook_req (fst eh))
                                          (inr (snd eh)))
      (combine es hooks).

(** Stripe never refuses to create a webhook endpoint. *)
Definition webhooks_reliable {S DT} (cloud : Monetization.CloudAPI S DT) : Prop :=
  forall req s, exists wh s',
    Monetization.WebhookEndpoint_create cloud req s = (inr wh, s').

(** [boto3.client('s3')] never raises. *)
Definition s3_client_available {S DT} (cloud : Monetization.CloudAPI S DT)
  : Prop :=
  forall s, exists s', Monetization.boto3_client cloud "s3" s = (inr tt, s').

(** Reading a decimal rendering back: digits, leading zeros allowed, after
    an optional minus sign. *)
Definition decode_nat (s : string) : option N :=
  option_map N.of_uint (NilEmpty.uint_of_string s).

Definition decode_int (s : string) : option Z :=
  match s with
  | String c s' =>
      if Ascii.eqb c "-" then option_map (fun n => - Z.of_N n) (decode_nat s')
      else option_map Z.of_N (decode_nat s)
  | EmptyString => None
  end.

(** Every price request of the trace names a product that Stripe handed
    out before that request was made: the ids handed out along the calls
    [pre] that come before it. *)
Definition attached (tr : list event) : Prop :=
  forall pre q res post,
    tr = pre ++ EvPrice q res :: post -> In (product q) (product_ids pre).

(** The same, read along the trace, [seen] being the ids handed out so
    far. *)
Fixpoint attached_from (seen : list string) (tr : list event) : Prop :=
  match tr with
  | [] => True
  | EvProduct _ (inr p) :: tr' => attached_from (product_obj_id p :: seen) tr'
  | EvProduct _ (inl _) :: tr' => attached_from seen tr'
  | EvPrice q _ :: tr' => In (product q) seen /\ attached_from seen tr'
  end.

(** The trace is what the SDK answered, call after call: from the account
    [s], each logged request was put to the SDK in the state the previous
    call left, the logged answer is the SDK's, and the last call leaves the
    account [s']. *)
Inductive faithful {S : Type} (api : StripeAPI S)
  : S -> list event -> S -> Prop :=
| faithful_nil s :
    faithful api s [] s
| faithful_product s req res s1 tr s' :
    Product_create api req s = (res, s1) ->
    faithful api s1 tr s' ->
    faithful api s (EvProduct req res :: tr) s'
| faithful_price s req res s1 tr s' :
    Price_create api req s = (res, s1) ->
    faithful api s1 tr s' ->
    faithful api s (EvPrice req res :: tr) s'.

(** Whatever [m] does, the calls it adds to the trace are calls it made to
    the SDK, and the account it leaves is the one they lead to. *)
Definition honest {S A} (api : StripeAPI S) (m : M S A) : Prop :=
  forall w, exists tr,
    events (snd (m w)) = events w ++ tr
    /\ faithful api (account w) tr (account (snd (m w))).

(** Product ids of the records of a [results] dict, read in the order of
    its keys: 'individual_templates', 'bundles', 'subscriptions',
    'enterprise', 'vault_license'. *)
Definition dict_order_product_ids (r : Results) : list string :=
  map ind_product_id (individual_templates r)
  ++ map bun_product_id (bundles r)
  ++ map sub_product_id (subscriptions r)
  ++ map ent_product_id (enterprise r)
  ++ match vault_license r with Some v => [vault_product_id v] | None => [] end.

(** The product each price request of a trace is for, in call order. *)
Definition price_products (tr : list event) : list string :=
  map product (price_reqs tr).

(** Every character of the text is an ASCII character; on such text
    [Py.len] and [Py.lower] are Python's [len] and [str.lower]. *)
Fixpoint ascii_text (s : string) : bool :=
  match s with
  | EmptyString => true
  | String c s' => (nat_of_ascii c <? 128)%nat && ascii_text s'
  end.

(** Whatever [m] does, the calls it adds to the trace satisfy [P]. *)
Definition traced {S A} (P : list event -> Prop) (m : M S A) : Prop :=
  forall w, exists tr, events (snd (m w)) = events w ++ tr /\ P tr.

(** The product requests of one complete run of the generator. *)
Definition catalog_products : list ProductReq :=
  map individual_product_req (Py.range 1 488)
  ++ map bundle_product_req categories
  ++ [ vault_product_req;
       subscription_product_req "monthly";
       subscription_product_req "annual";
       enterprise_product_req ].

(** Number of inventory ids the category mapper assigns to [category]. *)
Definition templates_in (category : string) : nat :=
  List.length (filter (fun id => String.eqb (_get_category_for_template id)
                                            category)
                      (Py.range 1 488)).

(** The model always answers, with at least one choice. *)
Definition answering {E DT} (api : Orchestrator.API E DT) : Prop :=
  forall req e, exists c cs e',
    Orchestrator.chat_completions_create api req e = (inr (c :: cs), e').

(** [template] is what [_generate_single_template] makes for [category]
    and [index]: the id spells the category, the index and a date stamp,
    the price tier is the category's. *)
Definition made_for {E DT} (api : Orchestrator.API E DT) (category : string)
           (index : Z) (template : Orchestrator.Template) : Prop :=
  (exists t, Orchestrator.tpl_id template =
             (category ++ "_" ++ Py.str index ++ "_"
              ++ Orchestrator.strftime api t "%Y%m%d")%string)
  /\ Orchestrator.tpl_category template = category
  /\ Orchestrator.tpl_price_tier template = _calculate_price_tier category
  /\ Orchestrator.tpl_monetization_ready template = true.

(** A chat call that gave a template: the model answered with a choice. *)
Definition usable (call : Orchestrator.ChatReq * (string + list Orchestrator.Choice))
  : bool :=
  match snd call with
  | inr (_ :: _) => true
  | _ => false
  end.

(** * Properties *)

(** ** The category mapper *)

Lemma in_range_true (r : Z * Z) (id : Z) :
  in_range r id = true <-> fst r <= id <= snd r.
Proof.
  unfold in_range. rewrite andb_true_iff, !Z.leb_le. tauto.
Qed.

Lemma in_range_false (r : Z * Z) (id : Z) :
  in_range r id = false <-> ~ (fst r <= id <= snd r).
Proof.
  rewrite <- in_range_true. destruct (in_range r id); split; intros; congruence.
Qed.

(** The scan stops at the first band holding [id]. *)
Lemma scan_items_Some items id c :
  scan_items items id = Some c <->
  exists pre r post,
    items = pre ++ (r, c) :: post /\
    matches id (r, c) /\
    Forall (fun p => ~ matches id p) pre.
Proof.
  induction items as [| [r0 c0] rest IH]; simpl.
  - split; [discriminate |].
    intros (pre & r & post & E & _). destruct pre; discriminate.
  - destruct (in_range r0 id) eqn:Hr.
    + apply in_range_true in Hr. split.
      * intros [= <-]. exists [], r0, rest. repeat split; auto; try apply Hr.
      * intros (pre & r & post & E & Hm & Hpre).
        destruct pre as [| p pre]; simpl in E.
        -- now inversion E.
        -- inversion E; subst. inversion Hpre; subst.
           exfalso. apply H1. exact Hr.
    + apply in_range_false in Hr. rewrite IH. split.
      * intros (pre & r & post & E & Hm & Hpre).
        exists ((r0, c0) :: pre), r, post. subst rest.
        repeat split; auto; try apply Hm.
      * intros (pre & r & post & E & Hm & Hpre).
        destruct pre as [| p pre]; simpl in E.
        -- inversion E; subst. exfalso. apply Hr. exact Hm.
        -- inversion E; subst. inversion Hpre; subst.
           exists pre, r, post. auto.
Qed.

(** The scan runs to its end exactly when no band holds [id]. *)
Lemma scan_items_None items id :
  scan_items items id = None <-> Forall (fun p => ~ matches id p) items.
Proof.
  induction items as [| [r0 c0] rest IH]; simpl.
  - split; auto.
  - destruct (in_range r0 id) eqn:Hr.
    + apply in_range_true in Hr. split; [discriminate |].
      intros H. inversion H; subst. exfalso. apply H2. exact Hr.
    + apply in_range_false in Hr. rewrite IH. split.
      * intros H. constructor; auto.
      * intros H. now inversion H.
Qed.

(** Outside [1, 487] the scan of the configured bands finds nothing. *)
Lemma scan_outside id :
  id < 1 \/ 487 < id -> scan_items category_mapping id = None.
Proof.
  intros H. apply scan_items_None. unfold category_mapping, matches.
  repeat constructor; simpl; lia.
Qed.

Lemma In_range id lo hi : lo <= id < hi -> In id (Py.range lo hi).
Proof.
  intros H. unfold Py.range. apply in_map_iff.
  exists (Z.to_nat (id - lo)). split; [lia |].
  apply in_seq. lia.
Qed.

(** Inside [1, 487] exactly one band holds [id] and the scan finds it. *)
Lemma scan_inside id :
  1 <= id <= 487 ->
  match_count id = 1%nat /\ scan_items category_mapping id <> None.
Proof.
  intros H.
  assert (Hall : forallb (fun i =>
             Nat.eqb (match_count i) 1
             && match scan_items category_mapping i with
                | Some _ => true | None => false end)
           (Py.range 1 488) = true) by (vm_compute; reflexivity).
  rewrite forallb_forall in Hall.
  specialize (Hall id (In_range id 1 488 ltac:(lia))).
  apply andb_true_iff in Hall. destruct Hall as [Hc Hs].
  apply Nat.eqb_eq in Hc. split; [exact Hc |].
  destruct (scan_items category_mapping id); congruence.
Qed.

(** No category is itself called 'Miscellaneous'. *)
Lemma scan_never_fallback id :
  scan_items category_mapping id <> Some "Miscellaneous".
Proof.
  intros H. apply scan_items_Some in H.
  destruct H as (pre & r & post & E & _).
  assert (Hin : In (r, "Miscellaneous") category_mapping)
    by (rewrite E; apply in_elt).
  unfold category_mapping in Hin. simpl in Hin.
  repeat (destruct Hin as [Hin | Hin]; [discriminate |]). exact Hin.
Qed.

(** C1: the lookup returns the category of the first configured band, in
    declared order, whose bounds enclose the id (lower <= id <= upper), and
    exactly 'Miscellaneous' when no band encloses it; 61, 5 and 500 map to
    'Financial Services', 'Corporate & Enterprise' and 'Miscellaneous'. *)
Theorem category_lookup_first_match :
  (forall id : Z,
      (exists pre r c post,
          category_mapping = pre ++ (r, c) :: post /\
          fst r <= id <= snd r /\
          Forall (fun p => ~ matches id p) pre /\
          _get_category_for_template id = c)
      \/ (Forall (fun p => ~ matches id p) category_mapping /\
          _get_category_for_template id = "Miscellaneous"))
  /\ _get_category_for_template 61 = "Financial Services"
  /\ _get_category_for_template 5 = "Corporate & Enterprise"
  /\ _get_category_for_template 500 = "Miscellaneous".
Proof.
  split; [| repeat split; reflexivity].
  intros id. unfold _get_category_for_template.
  destruct (scan_items category_mapping id) as [c |] eqn:Hs.
  - left. apply scan_items_Some in Hs.
    destruct Hs as (pre & r & post & E & Hm & Hpre).
    exists pre, r, c, post. repeat split; auto; apply Hm.
  - right. apply scan_items_None in Hs. split; auto.
Qed.

(** C4: the ten configured bands are the ones listed, no two of them share
    an id, an id is enclosed by some band exactly when it lies in [1, 487],
    every such id is enclosed by exactly one band, and 'Miscellaneous' is
    returned exactly for the ids outside [1, 487]. *)
Theorem configured_ranges_partition_inventory :
  map fst category_mapping =
    [ (1, 60); (61, 132); (133, 192); (193, 252); (253, 272);
      (273, 312); (313, 372); (373, 432); (433, 467); (468, 487) ]
  /\ ForallOrdPairs disjoint category_mapping
  /\ (forall id, Exists (matches id) category_mapping <-> 1 <= id <= 487)
  /\ (forall id, 1 <= id <= 487 -> match_count id = 1%nat)
  /\ (forall id, _get_category_for_template id = "Miscellaneous"
                 <-> ~ (1 <= id <= 487)).
Proof.
  split; [reflexivity |]. split; [| split; [| split]].
  - unfold category_mapping, disjoint, matches.
    repeat constructor; simpl; lia.
  - intros id. split.
    + intros H. apply Exists_exists in H. destruct H as (p & Hin & Hm).
      unfold category_mapping in Hin. simpl in Hin. unfold matches in Hm.
      repeat (destruct Hin as [<- | Hin]; [simpl in Hm; lia |]).
      contradiction.
    + intros H. destruct (scan_inside id H) as [_ Hs].
      destruct (scan_items category_mapping id) as [c |] eqn:E; [| congruence].
      apply scan_items_Some in E. destruct E as (pre & r & post & E & Hm & _).
      apply Exists_exists. exists (r, c). split; [| exact Hm].
      rewrite E. apply in_elt.
  - intros id H. apply (scan_inside id H).
  - intros id. unfold _get_category_for_template. split.
    + intros H Hin. destruct (scan_inside id Hin) as [_ Hs].
      destruct (scan_items category_mapping id) as [c |] eqn:E; [| congruence].
      subst c. exact (scan_never_fallback id E).
    + intros H. rewrite scan_outside by lia. reflexivity.
Qed.

(** The statement above, instantiated at template 200. *)
Lemma configured_ranges_witness :
  1 <= 200 <= 487 /\ match_count 200 = 1%nat.
Proof.
  split; [lia |].
  apply (proj1 (proj2 (proj2 (proj2 configured_ranges_partition_inventory)))).
  lia.
Defined.

(** ** Reading a trace *)

Lemma product_reqs_app tr1 tr2 :
  product_reqs (tr1 ++ tr2) = product_reqs tr1 ++ product_reqs tr2.
Proof.
  induction tr1 as [| [req res | req res] tr1 IH]; simpl; congruence.
Qed.

Lemma price_reqs_app tr1 tr2 :
  price_reqs (tr1 ++ tr2) = price_reqs tr1 ++ price_reqs tr2.
Proof.
  induction tr1 as [| [req res | req res] tr1 IH]; simpl; congruence.
Qed.

Lemma product_ids_app tr1 tr2 :
  product_ids (tr1 ++ tr2) = product_ids tr1 ++ product_ids tr2.
Proof.
  induction tr1 as [| [req [e | p] | req res] tr1 IH]; simpl; congruence.
Qed.

Lemma sent_amounts_app tr1 tr2 :
  sent_amounts (tr1 ++ tr2) = sent_amounts tr1 ++ sent_amounts tr2.
Proof.
  unfold sent_amounts. now rewrite price_reqs_app, map_app.
Qed.

(** ** Reasoning rules of the engine's monad *)

Section Rules.

Context {S : Type}.
Variable api : StripeAPI S.

(** *** Runs against an SDK that never raises *)

Lemma returns_ret {A} (a : A) (Q : A -> list event -> Prop) :
  Q a [] -> returns (S := S) (ret a) Q.
Proof.
  intros HQ [s evs]. exists a, s, []. simpl. rewrite app_nil_r. auto.
Qed.

Lemma returns_bind {A B} (m : M S A) (k : A -> M S B) Q1 Q :
  returns m Q1 ->
  (forall a tr1, Q1 a tr1 -> returns (k a) (fun b tr2 => Q b (tr1 ++ tr2))) ->
  returns (x <- m ;; k x) Q.
Proof.
  intros Hm Hk w.
  destruct (Hm w) as (a & s1 & tr1 & E1 & F1 & H1).
  destruct (Hk a tr1 H1 (mkWorld s1 (events w ++ tr1)))
    as (b & s2 & tr2 & E2 & F2 & H2).
  exists b, s2, (tr1 ++ tr2). unfold bind. rewrite E1, E2. simpl.
  rewrite app_assoc. repeat split; auto. apply Forall_app; auto.
Qed.

Lemma returns_ret_bind {A B} (a : A) (k : A -> M S B) Q :
  returns (k a) Q -> returns (x <- ret a ;; k x) Q.
Proof. intros H w. exact (H w). Qed.

Lemma returns_weaken {A} (m : M S A) (Q Q' : A -> list event -> Prop) :
  returns m Q -> (forall a tr, Q a tr -> Q' a tr) -> returns m Q'.
Proof.
  intros Hm HQ w. destruct (Hm w) as (a & s1 & tr & E & F & H).
  exists a, s1, tr. auto.
Qed.

Lemma returns_Product_create req :
  reliable api ->
  returns (stripe_Product_create api req)
          (fun p tr => tr = [EvProduct req (inr p)]).
Proof.
  intros [Hp _] w. destruct (Hp req (account w)) as (p & s' & E).
  exists p, s', [EvProduct req (inr p)].
  unfold stripe_Product_create. rewrite E.
  repeat split; auto. repeat constructor.
Qed.

Lemma returns_Price_create req :
  reliable api ->
  returns (stripe_Price_create api req)
          (fun p tr => tr = [EvPrice req (inr p)]).
Proof.
  intros [_ Hp] w. destruct (Hp req (account w)) as (p & s' & E).
  exists p, s', [EvPrice req (inr p)].
  unfold stripe_Price_create. rewrite E.
  repeat split; auto. repeat constructor.
Qed.

(** A loop keeps an invariant that relates the items done so far, the
    loop state and the calls made so far. *)
Lemma returns_for_in_from {A St} (body : A -> St -> M S St)
      (Inv : list A -> St -> list event -> Prop) :
  (forall done x st tr,
      Inv done st tr ->
      returns (body x st) (fun st' tr' => Inv (done ++ [x]) st' (tr ++ tr'))) ->
  forall xs done st tr0,
    Inv done st tr0 ->
    returns (for_in xs body st) (fun st' tr => Inv (done ++ xs) st' (tr0 ++ tr)).
Proof.
  intros Hbody. induction xs as [| x xs IH]; intros done st tr0 HI; simpl.
  - apply returns_ret. now rewrite !app_nil_r.
  - eapply returns_bind; [apply (Hbody done x st tr0 HI) |].
    intros st' tr1 HI'. simpl in HI'.
    eapply returns_weaken; [apply (IH (done ++ [x]) st' (tr0 ++ tr1) HI') |].
    intros st'' tr2. simpl. now rewrite <- !app_assoc.
Qed.

Lemma returns_for_in {A St} (body : A -> St -> M S St)
      (Inv : list A -> St -> list event -> Prop) xs st :
  Inv [] st [] ->
  (forall done x st tr,
      Inv done st tr ->
      returns (body x st) (fun st' tr' => Inv (done ++ [x]) st' (tr ++ tr'))) ->
  returns (for_in xs body st) (Inv xs).
Proof.
  intros H0 Hbody.
  apply (returns_for_in_from body Inv Hbody xs [] st [] H0).
Qed.

(** *** Runs against any SDK: the first failure ends the run *)






End Rules.


(** ** The provisioning steps, one by one *)

Section Steps.

Context {S : Type}.
Variable api : StripeAPI S.

(** Every step stops at the first call that fails. *)







(** Against an SDK that never raises, every step returns the record the
    source builds from the two objects Stripe answered with. *)

Hypothesis api_reliable : reliable api.

Lemma returns_individual id :
  returns (_create_individual_template_product api id)
    (fun r tr => exists p pr,
         r = {| ind_product_id := product_obj_id p;
                ind_price_id := price_obj_id pr;
                ind_template_id := id;
                ind_amount := base_price id;
                ind_stripe_url :=
                  ("https://buy.stripe.com/test_" ++ price_obj_id pr)%string |}
         /\ tr = [ EvProduct (individual_product_req id) (inr p);
                   EvPrice (individual_price_req id (product_obj_id p))
                           (inr pr) ]).
Proof.
  unfold _create_individual_template_product.
  eapply returns_bind; [apply returns_Product_create, api_reliable |].
  intros p tr1 ->.
  eapply returns_bind; [apply returns_Price_create, api_reliable |].
  intros pr tr2 ->.
  apply returns_ret. exists p, pr. split; reflexivity.
Qed.

Lemma returns_bundle category :
  returns (_create_bundle_product api category)
    (fun r tr => exists p pr,
         r = {| bun_product_id := product_obj_id p;
                bun_price_id := price_obj_id pr;
                bun_category := category;
                bun_amount := bundle_price category;
                bun_template_count := 48 |}
         /\ tr = [ EvProduct (bundle_product_req category) (inr p);
                   EvPrice (bundle_price_req category (product_obj_id p))
                           (inr pr) ]).
Proof.
  unfold _create_bundle_product.
  eapply returns_bind; [apply returns_Product_create, api_reliable |].
  intros p tr1 ->.
  eapply returns_bind; [apply returns_Price_create, api_reliable |].
  intros pr tr2 ->.
  apply returns_ret. exists p, pr. split; reflexivity.
Qed.

Lemma returns_vault :
  returns (_create_vault_license_product api)
    (fun r tr => exists p pr,
         r = {| vault_product_id := product_obj_id p;
                vault_price_id := price_obj_id pr;
                vault_amount := 997;
                vault_template_count := 487;
                vault_includes :=
                  ["all_templates"; "lifetime_updates"; "consulting_sessions"] |}
         /\ tr = [ EvProduct vault_product_req (inr p);
                   EvPrice (vault_price_req (product_obj_id p)) (inr pr) ]).
Proof.
  unfold _create_vault_license_product.
  eapply returns_bind; [apply returns_Product_create, api_reliable |].
  intros p tr1 ->.
  eapply returns_bind; [apply returns_Price_create, api_reliable |].
  intros pr tr2 ->.
  apply returns_ret. exists p, pr. split; reflexivity.
Qed.

Lemma returns_subscription interval amount :
  Py.dict_get amounts interval = Some amount ->
  returns (_create_subscription_product api interval)
    (fun r tr => exists p pr,
         r = {| sub_product_id := product_obj_id p;
                sub_price_id := price_obj_id pr;
                sub_interval := interval;
                sub_amount := amount;
                sub_templates_per_month := 10 |}
         /\ tr = [ EvProduct (subscription_product_req interval) (inr p);
                   EvPrice (subscription_price_req interval amount
                                                   (product_obj_id p))
                           (inr pr) ]).
Proof.
  intros H. unfold _create_subscription_product. rewrite H.
  apply returns_ret_bind.
  eapply returns_bind; [apply returns_Product_create, api_reliable |].
  intros p tr1 ->.
  eapply returns_bind; [apply returns_Price_create, api_reliable |].
  intros pr tr2 ->.
  apply returns_ret. exists p, pr. split; reflexivity.
Qed.

Lemma returns_enterprise_price_step product_id ta prices :
  returns (enterprise_price_step api product_id ta prices)
    (fun st tr => exists pr,
         st = prices ++ [ mkEnterprisePrice (fst ta) (price_obj_id pr) (snd ta) ]
         /\ tr = [ EvPrice (enterprise_price_req (fst ta) (snd ta) product_id)
                           (inr pr) ]).
Proof.
  unfold enterprise_price_step.
  eapply returns_bind; [apply returns_Price_create, api_reliable |].
  intros pr tr ->. apply returns_ret. exists pr. split; reflexivity.
Qed.

Lemma returns_enterprise :
  returns (_create_enterprise_product api)
    (fun r tr => exists p pr1 pr2 pr3,
         r = {| ent_product_id := product_obj_id p;
                ent_pricing_tiers :=
                  [ mkEnterprisePrice "starter" (price_obj_id pr1) 1997;
                    mkEnterprisePrice "growth" (price_obj_id pr2) 2997;
                    mkEnterprisePrice "enterprise" (price_obj_id pr3) 4997 ];
                ent_type := "enterprise" |}
         /\ tr = [ EvProduct enterprise_product_req (inr p);
                   EvPrice (enterprise_price_req "starter" 1997
                                                 (product_obj_id p)) (inr pr1);
                   EvPrice (enterprise_price_req "growth" 2997
                                                 (product_obj_id p)) (inr pr2);
                   EvPrice (enterprise_price_req "enterprise" 4997
                                                 (product_obj_id p)) (inr pr3) ]).
Proof.
  unfold _create_enterprise_product, enterprise_tiers.
  eapply returns_bind; [apply returns_Product_create, api_reliable |].
  intros p tr1 ->. simpl for_in.
  eapply returns_bind with (Q1 := fun st tr => exists q1 q2 q3,
      st = [ mkEnterprisePrice "starter" (price_obj_id q1) 1997;
             mkEnterprisePrice "growth" (price_obj_id q2) 2997;
             mkEnterprisePrice "enterprise" (price_obj_id q3) 4997 ]
      /\ tr = [ EvPrice (enterprise_price_req "starter" 1997
                                              (product_obj_id p)) (inr q1);
                EvPrice (enterprise_price_req "growth" 2997
                                              (product_obj_id p)) (inr q2);
                EvPrice (enterprise_price_req "enterprise" 4997
                                              (product_obj_id p)) (inr q3) ]).
  - eapply returns_bind; [apply returns_enterprise_price_step |].
    intros st1 tr (pr1 & -> & ->).
    eapply returns_bind; [apply returns_enterprise_price_step |].
    intros st2 tr (pr2 & -> & ->).
    eapply returns_bind; [apply returns_enterprise_price_step |].
    intros st3 tr (pr3 & -> & ->).
    apply returns_ret. exists pr1, pr2, pr3. split; reflexivity.
  - intros prices tr (pr1 & pr2 & pr3 & -> & ->). apply returns_ret.
    exists p, pr1, pr2, pr3. split; reflexivity.
Qed.

End Steps.

(** ** The whole catalog *)

Section Catalog.

Context {S : Type}.
Variable api : StripeAPI S.
Hypothesis api_reliable : reliable api.

Lemma returns_individual_loop xs :
  returns (for_in xs (individual_step api) empty_results)
          (individuals_done xs).
Proof.
  apply returns_for_in.
  - unfold individuals_done. simpl. repeat split; reflexivity.
  - intros done x st tr HI. unfold individual_step.
    eapply returns_bind; [apply returns_individual, api_reliable |].
    intros r0 tr' (p & pr & -> & ->). apply returns_ret.
    destruct HI as (H1 & H2 & H3 & H4 & H5 & H6 & H7 & H8 & H9).
    unfold individuals_done. simpl.
    rewrite !map_app, product_ids_app, product_reqs_app, sent_amounts_app.
    simpl. rewrite H1, H2, H7, H8, H9. repeat split; auto.
Qed.

Lemma returns_bundle_loop xs r0 :
  bundles r0 = [] -> vault_license r0 = None ->
  subscriptions r0 = [] -> enterprise r0 = [] ->
  returns (for_in xs (bundle_step api) r0) (bundles_done r0 xs).
Proof.
  intros B0 V0 S0 E0. apply returns_for_in.
  - unfold bundles_done. rewrite B0. repeat split; auto.
  - intros done x st tr HI. unfold bundle_step.
    eapply returns_bind; [apply returns_bundle, api_reliable |].
    intros b tr' (p & pr & -> & ->). apply returns_ret.
    destruct HI as (H1 & H2 & H3 & H4 & H5 & H6 & H7 & H8 & H9).
    unfold bundles_done. simpl.
    rewrite !map_app, product_ids_app, product_reqs_app, sent_amounts_app.
    simpl. rewrite H2, H3, H7, H8, H9. repeat split; auto.
Qed.

(** Against an SDK that never raises, the generator returns, and what it
    returns and what it asked of Stripe is the complete catalog. *)
Lemma returns_create_all :
  returns (create_all_stripe_products api) complete_catalog.
Proof.
  unfold create_all_stripe_products.
  eapply returns_bind; [apply returns_individual_loop |].
  intros r1 tr1 (I1 & I2 & I3 & I4 & I5 & I6 & I7 & I8 & I9).
  eapply returns_bind; [apply (returns_bundle_loop categories r1); auto |].
  intros r2 tr2 (B1 & B2 & B3 & B4 & B5 & B6 & B7 & B8 & B9).
  eapply returns_bind; [apply returns_vault, api_reliable |].
  intros v tr3 (vp & vpr & -> & ->).
  eapply returns_bind;
    [apply (returns_subscription api api_reliable "monthly" 47 eq_refl) |].
  intros ms tr4 (mp & mpr & -> & ->).
  eapply returns_bind;
    [apply (returns_subscription api api_reliable "annual" 470 eq_refl) |].
  intros an tr5 (ap & apr & -> & ->).
  eapply returns_bind; [apply returns_enterprise, api_reliable |].
  intros en tr6 (ep & q1 & q2 & q3 & -> & ->).
  apply returns_ret.
  unfold complete_catalog, result_product_ids. simpl.
  rewrite !product_ids_app, !product_reqs_app, !sent_amounts_app. simpl.
  rewrite B1, I1, I2, B2, B3, B6, B7, B8, B9, I7, I8, I9. simpl.
  repeat split; eauto.
Qed.

End Catalog.

(** ** The test double behaves as announced *)

Lemma mock_reliable : reliable Mock.accepting.
Proof.
  split; intros req n; eexists; eexists; reflexivity.
Qed.

(** ** What a step returns, against any SDK *)

Section Returned.

Context {S : Type}.
Variable api : StripeAPI S.

Lemma individual_returned id w r w' :
  _create_individual_template_product api id w = (Ok r, w') ->
  ind_template_id r = id /\ ind_amount r = base_price id.
Proof.
  unfold _create_individual_template_product, bind, ret,
    stripe_Product_create, stripe_Price_create.
  destruct (Product_create api _ _) as [[e | p] s1]; simpl; [discriminate |].
  destruct (Price_create api _ _) as [[e | pr] s2]; simpl; [discriminate |].
  intros [= <- _]. split; reflexivity.
Qed.

Lemma bundle_returned category w r w' :
  _create_bundle_product api category w = (Ok r, w') ->
  bun_category r = category /\ bun_amount r = bundle_price category.
Proof.
  unfold _create_bundle_product, bind, ret,
    stripe_Product_create, stripe_Price_create.
  destruct (Product_create api _ _) as [[e | p] s1]; simpl; [discriminate |].
  destruct (Price_create api _ _) as [[e | pr] s2]; simpl; [discriminate |].
  intros [= <- _]. split; reflexivity.
Qed.

Lemma vault_returned w r w' :
  _create_vault_license_product api w = (Ok r, w') ->
  vault_amount r = 997 /\ sent_amounts (skipn (List.length (events w)) (events w')) = [99700].
Proof.
  unfold _create_vault_license_product, bind, ret,
    stripe_Product_create, stripe_Price_create.
  destruct (Product_create api _ _) as [[e | p] s1]; simpl; [discriminate |].
  destruct (Price_create api _ _) as [[e | pr] s2]; simpl; [discriminate |].
  intros [= <- <-]. split; [reflexivity |]. simpl.
  rewrite <- app_assoc, skipn_app, skipn_all, Nat.sub_diag. reflexivity.
Qed.

Lemma subscription_returned interval w r w' :
  _create_subscription_product api interval w = (Ok r, w') ->
  sub_interval r = interval /\
  Py.dict_get amounts interval = Some (sub_amount r).
Proof.
  unfold _create_subscription_product, bind, ret, raise,
    stripe_Product_create, stripe_Price_create.
  destruct (Py.dict_get amounts interval) as [a |]; [| discriminate].
  destruct (Product_create api _ _) as [[e | p] s1]; simpl; [discriminate |].
  destruct (Price_create api _ _) as [[e | pr] s2]; simpl; [discriminate |].
  intros [= <- _]. split; reflexivity.
Qed.

Lemma enterprise_returned w r w' :
  _create_enterprise_product api w = (Ok r, w') ->
  map ep_tier (ent_pricing_tiers r) = ["starter"; "growth"; "enterprise"] /\
  map ep_amount (ent_pricing_tiers r) = [1997; 2997; 4997].
Proof.
  unfold _create_enterprise_product, enterprise_tiers, enterprise_price_step,
    for_in, bind, ret, stripe_Product_create, stripe_Price_create.
  destruct (Product_create api _ _) as [[e | p] s1]; simpl; [discriminate |].
  destruct (Price_create api _ _) as [[e | pr1] s2]; simpl; [discriminate |].
  destruct (Price_create api _ _) as [[e | pr2] s3]; simpl; [discriminate |].
  destruct (Price_create api _ _) as [[e | pr3] s4]; simpl; [discriminate |].
  intros [= <- _]. split; reflexivity.
Qed.

End Returned.

Lemma amounts_values interval a :
  Py.dict_get amounts interval = Some a ->
  (interval = "monthly" /\ a = 47) \/ (interval = "annual" /\ a = 470).
Proof.
  unfold amounts, Py.dict_get.
  destruct (String.eqb_spec "monthly" interval) as [<- |];
    [intros [= <-]; auto |].
  destruct (String.eqb_spec "annual" interval) as [<- |];
    [intros [= <-]; auto | discriminate].
Qed.

Lemma dict_get_In {V} (d : list (string * V)) k v :
  Py.dict_get d k = Some v -> exists k', In (k', v) d.
Proof.
  induction d as [| [k0 v0] d IH]; simpl; [discriminate |].
  destruct (String.eqb k0 k).
  - intros [= <-]. eauto.
  - intros H. destruct (IH H) as [k' Hin]. eauto.
Qed.

Lemma price_tier_nonneg category :
  0 <= tier_individual (_calculate_price_tier category) /\
  0 <= tier_bundle (_calculate_price_tier category) /\
  0 <= tier_enterprise (_calculate_price_tier category).
Proof.
  unfold _calculate_price_tier.
  destruct (Py.dict_get pricing_tiers (Py.lower category)) as [t |] eqn:E.
  - apply dict_get_In in E. destruct E as [k Hin].
    unfold pricing_tiers in Hin. simpl in Hin.
    repeat (destruct Hin as [[= _ <-] | Hin]; [simpl; lia |]).
    contradiction.
  - simpl. lia.
Qed.

Lemma base_price_bounds id : 25 <= base_price id <= 49.
Proof.
  unfold base_price. pose proof (Z.mod_pos_bound id 25 ltac:(lia)). lia.
Qed.

Lemma bundle_price_lower category : 199 <= bundle_price category.
Proof. unfold bundle_price, Py.len. lia. Qed.

(** ** The trace is what the SDK answered *)

Lemma faithful_app {S : Type} (api : StripeAPI S) s tr1 s1 tr2 s2 :
  faithful api s tr1 s1 -> faithful api s1 tr2 s2 ->
  faithful api s (tr1 ++ tr2) s2.
Proof.
  intros H1 H2. induction H1; simpl; auto.
  - eapply faithful_product; eauto.
  - eapply faithful_price; eauto.
Qed.

Section Honest.

Context {S : Type}.
Variable api : StripeAPI S.

Lemma honest_ret {A} (a : A) : honest api (ret a).
Proof.
  intros w. exists []. simpl. rewrite app_nil_r. split; [reflexivity |].
  constructor.
Qed.

Lemma honest_raise {A} (e : exn) : honest (A := A) api (raise e).
Proof.
  intros w. exists []. simpl. rewrite app_nil_r. split; [reflexivity |].
  constructor.
Qed.

Lemma honest_bind {A B} (m : M S A) (k : A -> M S B) :
  honest api m -> (forall a, honest api (k a)) -> honest api (x <- m ;; k x).
Proof.
  intros Hm Hk w. destruct (Hm w) as (tr1 & E1 & F1). unfold bind.
  destruct (m w) as [[a | e] w1]; simpl in *.
  - destruct (Hk a w1) as (tr2 & E2 & F2).
    exists (tr1 ++ tr2). split; [now rewrite E2, E1, app_assoc |].
    eapply faithful_app; eauto.
  - exists tr1. auto.
Qed.

Lemma honest_Product_create req : honest api (stripe_Product_create api req).
Proof.
  intros w. unfold stripe_Product_create.
  destruct (Product_create api req (account w)) as [res s1] eqn:E.
  exists [EvProduct req res]. destruct res; simpl;
    (split; [reflexivity |]); (eapply faithful_product; [exact E | constructor]).
Qed.

Lemma honest_Price_create req : honest api (stripe_Price_create api req).
Proof.
  intros w. unfold stripe_Price_create.
  destruct (Price_create api req (account w)) as [res s1] eqn:E.
  exists [EvPrice req res]. destruct res; simpl;
    (split; [reflexivity |]); (eapply faithful_price; [exact E | constructor]).
Qed.

Lemma honest_for_in {A St} (body : A -> St -> M S St) xs :
  (forall x st, honest api (body x st)) ->
  forall st, honest api (for_in xs body st).
Proof.
  intros Hbody. induction xs as [| x xs IH]; intros st; simpl.
  - apply honest_ret.
  - apply honest_bind; auto.
Qed.

Lemma honest_create_all : honest api (create_all_stripe_products api).
Proof.
  unfold create_all_stripe_products, individual_step, bundle_step,
    _create_individual_template_product, _create_bundle_product,
    _create_vault_license_product, _create_subscription_product,
    _create_enterprise_product, enterprise_price_step.
  cbn [Py.dict_get amounts String.eqb Ascii.eqb Bool.eqb].
  repeat first
    [ apply honest_ret
    | apply honest_raise
    | apply honest_Product_create
    | apply honest_Price_create
    | apply honest_bind; [| intros ?]
    | apply honest_for_in; intros ? ? ].
Qed.

(** What a run that returns says of its value and trace, together with
    the SDK calls behind the trace. *)
Lemma returns_faithful {A} (m : M S A) (Q : A -> list event -> Prop) :
  returns m Q -> honest api m ->
  forall w, exists a s' tr,
    m w = (Ok a, mkWorld s' (events w ++ tr))
    /\ Forall succeeded tr /\ Q a tr /\ faithful api (account w) tr s'.
Proof.
  intros Hr Hh w. destruct (Hr w) as (a & s' & tr & E & Hs & HQ).
  destruct (Hh w) as (tr' & E' & F). rewrite E in E', F. simpl in E', F.
  apply app_inv_head in E'. subst tr'. exists a, s', tr. auto.
Qed.

End Honest.

Lemma returns_and {S A} (m : M S A) (Q1 Q2 : A -> list event -> Prop) :
  returns m Q1 -> returns m Q2 -> returns m (fun a tr => Q1 a tr /\ Q2 a tr).
Proof.
  intros H1 H2 w. destruct (H1 w) as (a & s' & tr & E & F & HQ1).
  destruct (H2 w) as (a' & s'' & tr' & E' & _ & HQ2).
  rewrite E in E'. injection E' as <- _ E'. apply app_inv_head in E'.
  subst tr'. exists a, s', tr. auto.
Qed.

(** ** Which product each price is for *)

Lemma price_products_app tr1 tr2 :
  price_products (tr1 ++ tr2) = price_products tr1 ++ price_products tr2.
Proof. unfold price_products. now rewrite price_reqs_app, map_app. Qed.

Section Prices.

Context {S : Type}.
Variable api : StripeAPI S.
Hypothesis api_reliable : reliable api.

(** In both loops every product gets one price, its own. *)
Lemma returns_individual_loop_prices xs r0 :
  returns (for_in xs (individual_step api) r0)
          (fun _ tr => price_products tr = product_ids tr).
Proof.
  apply returns_for_in with
    (Inv := fun (_ : list Z) (_ : Results) tr =>
              price_products tr = product_ids tr).
  - reflexivity.
  - intros done x st tr HI. unfold individual_step.
    eapply returns_bind; [apply returns_individual, api_reliable |].
    intros r tr' (p & pr & -> & ->). apply returns_ret.
    rewrite app_nil_r, price_products_app, product_ids_app, HI. reflexivity.
Qed.

Lemma returns_bundle_loop_prices xs r0 :
  returns (for_in xs (bundle_step api) r0)
          (fun _ tr => price_products tr = product_ids tr).
Proof.
  apply returns_for_in with
    (Inv := fun (_ : list string) (_ : Results) tr =>
              price_products tr = product_ids tr).
  - reflexivity.
  - intros done x st tr HI. unfold bundle_step.
    eapply returns_bind; [apply returns_bundle, api_reliable |].
    intros r tr' (p & pr & -> & ->). apply returns_ret.
    rewrite app_nil_r, price_products_app, product_ids_app, HI. reflexivity.
Qed.

(** Over a whole run every product but the last gets one price; the last
    one, the enterprise product, gets three. *)
Lemma returns_create_all_prices :
  returns (create_all_stripe_products api)
    (fun _ tr => exists pre p,
         product_ids tr = pre ++ [p]
         /\ price_products tr = pre ++ [p; p; p]).
Proof.
  unfold create_all_stripe_products.
  eapply returns_bind; [apply returns_individual_loop_prices |].
  intros r1 tr1 I.
  eapply returns_bind; [apply returns_bundle_loop_prices |].
  intros r2 tr2 B.
  eapply returns_bind; [apply returns_vault, api_reliable |].
  intros v tr3 (vp & vpr & -> & ->).
  eapply returns_bind;
    [apply (returns_subscription api api_reliable "monthly" 47 eq_refl) |].
  intros ms tr4 (mp & mpr & -> & ->).
  eapply returns_bind;
    [apply (returns_subscription api api_reliable "annual" 470 eq_refl) |].
  intros an tr5 (ap & apr & -> & ->).
  eapply returns_bind; [apply returns_enterprise, api_reliable |].
  intros en tr6 (ep & q1 & q2 & q3 & -> & ->).
  apply returns_ret.
  exists (product_ids tr1 ++ product_ids tr2
          ++ [product_obj_id vp; product_obj_id mp; product_obj_id ap]),
         (product_obj_id ep).
  rewrite !price_products_app, !product_ids_app, I, B. cbn.
  rewrite <- !app_assoc. split; reflexivity.
Qed.

End Prices.

(** ** Per-item provisioning *)

(** C5: for every id (so for every id of the inventory), against an SDK
    that answers, the per-item step prices the item at 25 + (id mod 25),
    puts one product request to the SDK whose metadata holds the id, the
    category given by the category mapper and the tier tag, then puts one
    price request to the SDK for the product it got, with the price in
    cents, makes no other call, and returns a record holding the two
    identifiers the SDK answered with. *)
Theorem individual_step_provisions_once
        {S : Type} (api : StripeAPI S) (Hrel : reliable api)
        (id : Z) (w : World S) :
  exists p s1 pr s2,
    Product_create api (individual_product_req id) (account w) = (inr p, s1)
    /\ Price_create api (individual_price_req id (product_obj_id p)) s1
       = (inr pr, s2)
    /\ _create_individual_template_product api id w =
      (Ok {| ind_product_id := product_obj_id p;
             ind_price_id := price_obj_id pr;
             ind_template_id := id;
             ind_amount := 25 + id mod 25;
             ind_stripe_url :=
               ("https://buy.stripe.com/test_" ++ price_obj_id pr)%string |},
       mkWorld s2
         (events w ++
          [ EvProduct (individual_product_req id) (inr p);
            EvPrice (individual_price_req id (product_obj_id p)) (inr pr) ]))
    /\ product_metadata (individual_product_req id) =
         [ ("template_id", PInt id);
           ("category", PStr (_get_category_for_template id));
           ("type", PStr "individual_template") ]
    /\ price_metadata (individual_price_req id (product_obj_id p)) =
         [ ("template_id", PInt id); ("pricing_tier", PStr "individual") ]
    /\ product (individual_price_req id (product_obj_id p)) = product_obj_id p
    /\ unit_amount (individual_price_req id (product_obj_id p)) =
         (25 + id mod 25) * 100.
Proof.
  destruct Hrel as [Hproduct Hprice].
  destruct (Hproduct (individual_product_req id) (account w))
    as (p & s1 & E1).
  destruct (Hprice (individual_price_req id (product_obj_id p)) s1)
    as (pr & s2 & E2).
  exists p, s1, pr, s2. split; [exact E1 |]. split; [exact E2 |].
  split; [| repeat split; reflexivity].
  unfold _create_individual_template_product, bind, ret,
    stripe_Product_create, stripe_Price_create.
  rewrite E1. cbn [account events]. rewrite E2.
  rewrite <- app_assoc. reflexivity.
Qed.

(** The statement above on the test double, for template 61. *)
Lemma individual_step_witness :
  reliable Mock.accepting /\
  exists r w',
    _create_individual_template_product Mock.accepting 61 Mock.fresh = (Ok r, w')
    /\ ind_amount r = 36 /\ ind_product_id r = "prod_0"
    /\ ind_price_id r = "price_1" /\ List.length (events w') = 2%nat.
Proof.
  split; [exact mock_reliable |].
  destruct (individual_step_provisions_once Mock.accepting mock_reliable 61
                                            Mock.fresh)
    as (p & s1 & pr & s2 & E1 & E2 & E & _).
  eexists; eexists. split; [exact E |].
  vm_compute in E1. injection E1 as <- <-.
  vm_compute in E2. injection E2 as <- <-.
  repeat split; reflexivity.
Defined.

(** C10: the individual price 25 + (id mod 25) lies in [25, 49] for every
    integer id, both ends are reached, 50 is not; any record the per-item
    step returns carries such an amount, and Stripe is asked for 2500 to
    4900 cents. *)
Theorem individual_price_between_25_and_49 :
  (forall id : Z, 25 <= base_price id <= 49 /\ base_price id <> 50)
  /\ base_price 0 = 25 /\ base_price 24 = 49 /\ base_price (-1) = 49
  /\ (forall (S : Type) (api : StripeAPI S) (id : Z) (w : World S),
         match fst (_create_individual_template_product api id w) with
         | Ok r => 25 <= ind_amount r <= 49
         | Raise _ => True
         end)
  /\ (forall (id : Z) (product_id : string),
         2500 <= unit_amount (individual_price_req id product_id) <= 4900).
Proof.
  split; [| split; [| split; [| split; [| split]]]]; try reflexivity.
  - intros id. pose proof (base_price_bounds id). lia.
  - intros S api id w.
    destruct (_create_individual_template_product api id w) as [[r | e] w'] eqn:E;
      simpl; [| exact I].
    apply individual_returned in E. destruct E as [_ ->].
    apply base_price_bounds.
  - intros id product_id. simpl. pose proof (base_price_bounds id). lia.
Qed.

(** ** The category mapper as a function *)

(** C9: the lookup is a function of the id alone and is defined on every
    integer: it always yields one of the ten configured category names or
    'Miscellaneous', also for ids below 1 and above 487; and the per-item
    step that uses it has asked nothing of Stripe by the time it sends the
    product request that carries the category. *)
Theorem category_lookup_total :
  (forall id : Z,
      In (_get_category_for_template id)
         (map snd category_mapping ++ ["Miscellaneous"]))
  /\ _get_category_for_template 0 = "Miscellaneous"
  /\ _get_category_for_template (-7) = "Miscellaneous"
  /\ _get_category_for_template 488 = "Miscellaneous"
  /\ _get_category_for_template (2 ^ 64) = "Miscellaneous"
  /\ (forall (S : Type) (api : StripeAPI S) (id : Z) (w : World S),
         exists res tr,
           events (snd (_create_individual_template_product api id w)) =
             events w ++ EvProduct (individual_product_req id) res :: tr
           /\ Py.dict_get (product_metadata (individual_product_req id))
                          "category"
              = Some (PStr (_get_category_for_template id))).
Proof.
  split; [| split; [| split; [| split; [| split]]]]; try reflexivity.
  - intros id. unfold _get_category_for_template.
    destruct (scan_items category_mapping id) as [c |] eqn:E.
    + apply scan_items_Some in E. destruct E as (pre & r & post & E & _).
      apply in_or_app. left. apply in_map_iff. exists (r, c).
      split; [reflexivity |]. rewrite E. apply in_elt.
    + apply in_or_app. right. left. reflexivity.
  - intros S api id w.
    unfold _create_individual_template_product, bind, ret,
      stripe_Product_create, stripe_Price_create.
    destruct (Product_create api _ _) as [[e | p] s1]; simpl.
    + exists (inl e), []. split; reflexivity.
    + destruct (Price_create api _ _) as [[e | pr] s2]; simpl;
        eexists; eexists; (split; [| reflexivity]);
        rewrite <- app_assoc; reflexivity.
Qed.

(** ** Catalog generation *)

(** C3, as the code has it: against an SDK that never raises, the generator
    returns 487 individual records carrying the ids 1, 2, ..., 487 in that
    order, ten bundle records in the order the categories are listed, one
    vault licence, the monthly then the annual subscription and one
    enterprise product, 501 records, none dropped, none merged, each
    holding the product id Stripe answered with. Under each key the records
    are in the order of creation. Across the keys they are not: the
    products are created items, bundles, vault, subscriptions, enterprise,
    and the dict returned lists items, bundles, subscriptions, enterprise,
    vault. *)
Theorem catalog_complete_grouped_by_key
        {S : Type} (api : StripeAPI S) (Hrel : reliable api) (w : World S) :
  exists r s' tr v e,
    create_all_stripe_products api w = (Ok r, mkWorld s' (events w ++ tr))
    /\ faithful api (account w) tr s'
    /\ Forall succeeded tr
    /\ List.length (individual_templates r) = 487%nat
    /\ map ind_template_id (individual_templates r) = map Z.of_nat (seq 1 487)
    /\ List.length (bundles r) = 10%nat
    /\ map bun_category (bundles r) = categories
    /\ vault_license r = Some v
    /\ map sub_interval (subscriptions r) = ["monthly"; "annual"]
    /\ enterprise r = [e]
    /\ product_reqs tr = catalog_products
    /\ product_ids tr =
         map ind_product_id (individual_templates r)
         ++ map bun_product_id (bundles r)
         ++ [vault_product_id v]
         ++ map sub_product_id (subscriptions r)
         ++ [ent_product_id e]
    /\ dict_order_product_ids r =
         map ind_product_id (individual_templates r)
         ++ map bun_product_id (bundles r)
         ++ map sub_product_id (subscriptions r)
         ++ [ent_product_id e]
         ++ [vault_product_id v]
    /\ List.length (dict_order_product_ids r) = 501%nat.
Proof.
  destruct (returns_faithful api (create_all_stripe_products api)
              complete_catalog (returns_create_all api Hrel)
              (honest_create_all api) w)
    as (r & s' & tr & E & Hs
        & (C1 & C2 & C3 & C4 & (v & C5 & _) & C6 & C7 & (e & C8 & _)
           & C9 & C10 & C11)
        & Hf).
  exists r, s', tr, v, e.
  assert (L1 : List.length (individual_templates r) = 487%nat).
  { rewrite <- (length_map ind_template_id), C1. reflexivity. }
  assert (L2 : List.length (bundles r) = 10%nat).
  { rewrite <- (length_map bun_category), C3. reflexivity. }
  assert (L3 : List.length (subscriptions r) = 2%nat).
  { rewrite <- (length_map sub_interval), C6. reflexivity. }
  assert (D : dict_order_product_ids r =
              map ind_product_id (individual_templates r)
              ++ map bun_product_id (bundles r)
              ++ map sub_product_id (subscriptions r)
              ++ [ent_product_id e]
              ++ [vault_product_id v]).
  { unfold dict_order_product_ids. rewrite C5, C8. reflexivity. }
  split; [exact E |]. split; [exact Hf |]. split; [exact Hs |].
  split; [exact L1 |].
  split; [rewrite C1; vm_compute; reflexivity |].
  split; [exact L2 |]. split; [exact C3 |]. split; [exact C5 |].
  split; [exact C6 |]. split; [exact C8 |]. split; [exact C10 |].
  split.
  { rewrite <- C9. unfold result_product_ids. rewrite C5, C8. reflexivity. }
  split; [exact D |].
  rewrite D, !length_app, !length_map, L1, L2, L3. reflexivity.
Qed.

(** The statement above on the test double, from an empty account. *)
Lemma catalog_grouped_witness :
  reliable Mock.accepting /\
  exists r w',
    create_all_stripe_products Mock.accepting Mock.fresh = (Ok r, w')
    /\ List.length (individual_templates r) = 487%nat
    /\ List.length (bundles r) = 10%nat
    /\ List.length (dict_order_product_ids r) = 501%nat.
Proof.
  split; [exact mock_reliable |].
  destruct (catalog_complete_grouped_by_key Mock.accepting mock_reliable
                                            Mock.fresh)
    as (r & s' & tr & v & e & E & _ & _ & L1 & _ & L2 & _ & _ & _ & _ & _ & _
        & _ & L).
  eexists; eexists. split; [exact E |]. auto.
Defined.

(** C3 fails on the code as far as the order across tiers goes: on the test
    double the vault licence is the 498th product created, before the two
    subscriptions and the enterprise product, and the dict returned holds
    it last, after them; the records returned are thus not in the order in
    which the entries were processed. *)
Lemma vault_record_is_returned_last :
  exists r w',
    create_all_stripe_products Mock.accepting Mock.fresh = (Ok r, w')
    /\ skipn 497 (product_ids (events w'))
       = ["prod_994"; "prod_996"; "prod_998"; "prod_1000"]
    /\ skipn 497 (dict_order_product_ids r)
       = ["prod_996"; "prod_998"; "prod_1000"; "prod_994"]
    /\ firstn 497 (dict_order_product_ids r)
       = firstn 497 (product_ids (events w'))
    /\ dict_order_product_ids r <> product_ids (events w').
Proof.
  destruct (create_all_stripe_products Mock.accepting Mock.fresh)
    as [o w'] eqn:E.
  assert (O : exists r, o = Ok r
                /\ skipn 497 (product_ids (events w'))
                   = ["prod_994"; "prod_996"; "prod_998"; "prod_1000"]
                /\ skipn 497 (dict_order_product_ids r)
                   = ["prod_996"; "prod_998"; "prod_1000"; "prod_994"]
                /\ firstn 497 (dict_order_product_ids r)
                   = firstn 497 (product_ids (events w'))).
  { pose proof (f_equal fst E) as E1. pose proof (f_equal snd E) as E2.
    cbn [fst snd] in E1, E2. subst o w'.
    destruct (fst (create_all_stripe_products Mock.accepting Mock.fresh))
      as [r | x] eqn:R.
    - exists r. split; [reflexivity |].
      assert (R' : r = match fst (create_all_stripe_products Mock.accepting
                                                              Mock.fresh) with
                       | Ok r0 => r0
                       | Raise _ => r
                       end) by (rewrite R; reflexivity).
      clear R E. split; [vm_compute; reflexivity |].
      split; rewrite R'; vm_compute; reflexivity.
    - exfalso. vm_compute in R. discriminate R. }
  destruct O as (r & -> & T1 & T2 & T3).
  exists r, w'. split; [reflexivity |]. split; [exact T1 |].
  split; [exact T2 |]. split; [exact T3 |].
  intros H. rewrite H in T2. rewrite T1 in T2. discriminate T2.
Qed.

(** C6, as the code has it: against an SDK that never raises, the bundle
    step prices a category of ASCII name, as the ten declared ones are, at
    199 + 10 * len(category), puts one product request to the SDK, then
    one price request for the product it got, and returns the two ids the
    SDK answered with. Over a whole run the products requested are the 487
    items and then one product per declared tier entry: one per bundle
    category, in the order listed, the vault, the monthly and the annual
    subscription and the enterprise product, fourteen and not 487. Prices
    are not one per entry: every product gets one price, but for the
    enterprise product, the last, which gets three, so that the fourteen
    entries make sixteen price requests, carrying the bundle prices, 997,
    47, 470 and 1997, 2997, 4997, in cents. *)
Theorem tier_entries_one_product_each
        {S : Type} (api : StripeAPI S) (Hrel : reliable api) :
  (forall (category : string) (w : World S),
      ascii_text category = true ->
      exists p s1 pr s2,
        Product_create api (bundle_product_req category) (account w)
          = (inr p, s1)
        /\ Price_create api (bundle_price_req category (product_obj_id p)) s1
           = (inr pr, s2)
        /\ _create_bundle_product api category w =
          (Ok {| bun_product_id := product_obj_id p;
                 bun_price_id := price_obj_id pr;
                 bun_category := category;
                 bun_amount := 199 + 10 * Py.len category;
                 bun_template_count := 48 |},
           mkWorld s2
             (events w ++
              [ EvProduct (bundle_product_req category) (inr p);
                EvPrice (bundle_price_req category (product_obj_id p))
                        (inr pr) ]))
        /\ product (bundle_price_req category (product_obj_id p))
           = product_obj_id p
        /\ unit_amount (bundle_price_req category (product_obj_id p)) =
             (199 + 10 * Py.len category) * 100)
  /\ forallb ascii_text categories = true
  /\ (forall w : World S,
         exists r s' tr v e,
           create_all_stripe_products api w
             = (Ok r, mkWorld s' (events w ++ tr))
           /\ faithful api (account w) tr s'
           /\ Forall succeeded tr
           /\ vault_license r = Some v
           /\ enterprise r = [e]
           /\ product_reqs tr =
                map individual_product_req (Py.range 1 488)
                ++ map bundle_product_req categories
                ++ [ vault_product_req;
                     subscription_product_req "monthly";
                     subscription_product_req "annual";
                     enterprise_product_req ]
           /\ List.length (skipn 487 (product_reqs tr)) = 14%nat
           /\ sent_amounts tr =
                map (fun i => (25 + i mod 25) * 100) (Py.range 1 488)
                ++ map (fun c => (199 + 10 * Py.len c) * 100) categories
                ++ [ 99700; 4700; 47000; 199700; 299700; 499700 ]
           /\ price_products tr =
                map ind_product_id (individual_templates r)
                ++ map bun_product_id (bundles r)
                ++ [vault_product_id v]
                ++ map sub_product_id (subscriptions r)
                ++ [ent_product_id e; ent_product_id e; ent_product_id e]
           /\ List.length (skipn 487 (price_reqs tr)) = 16%nat).
Proof.
  split; [| split; [reflexivity |]].
  - intros category w _.
    destruct Hrel as [Hproduct Hprice].
    destruct (Hproduct (bundle_product_req category) (account w))
      as (p & s1 & E1).
    destruct (Hprice (bundle_price_req category (product_obj_id p)) s1)
      as (pr & s2 & E2).
    exists p, s1, pr, s2. split; [exact E1 |]. split; [exact E2 |].
    assert (B : bundle_price category = 199 + 10 * Py.len category)
      by (unfold bundle_price; lia).
    split; [| split; [reflexivity |]].
    + unfold _create_bundle_product, bind, ret,
        stripe_Product_create, stripe_Price_create.
      rewrite E1. cbn [account events]. rewrite E2.
      rewrite <- app_assoc, B. reflexivity.
    + cbn [unit_amount bundle_price_req]. rewrite B. reflexivity.
  - intros w.
    destruct (returns_faithful api (create_all_stripe_products api) _
                (returns_and _ _ _ (returns_create_all api Hrel)
                             (returns_create_all_prices api Hrel))
                (honest_create_all api) w)
      as (r & s' & tr & E & Hs
          & ((_ & _ & _ & _ & (v & C5 & _) & _ & _ & (e & C8 & _)
              & C9 & C10 & C11)
             & (pre & q & P1 & P2))
          & Hf).
    exists r, s', tr, v, e.
    split; [exact E |]. split; [exact Hf |]. split; [exact Hs |].
    split; [exact C5 |]. split; [exact C8 |]. split; [exact C10 |].
    split; [rewrite C10; vm_compute; reflexivity |].
    assert (A : sent_amounts tr =
                map (fun i => (25 + i mod 25) * 100) (Py.range 1 488)
                ++ map (fun c => (199 + 10 * Py.len c) * 100) categories
                ++ [ 99700; 4700; 47000; 199700; 299700; 499700 ]).
    { rewrite C11. apply f_equal. apply (f_equal (fun l => l ++ _)).
      apply map_ext. intros c. unfold bundle_price. lia. }
    split; [exact A |]. split.
    + unfold result_product_ids in C9. rewrite C5, C8, P1 in C9.
      cbn [map] in C9.
      replace (map ind_product_id (individual_templates r)
               ++ map bun_product_id (bundles r)
               ++ [vault_product_id v]
               ++ map sub_product_id (subscriptions r)
               ++ [ent_product_id e])
        with ((map ind_product_id (individual_templates r)
               ++ map bun_product_id (bundles r)
               ++ [vault_product_id v]
               ++ map sub_product_id (subscriptions r))
              ++ [ent_product_id e]) in C9
        by (rewrite <- !app_assoc; reflexivity).
      apply app_inj_tail in C9. destruct C9 as [<- <-].
      rewrite P2, <- !app_assoc. reflexivity.
    + apply (f_equal (fun l => List.length (skipn 487 l))) in A.
      unfold sent_amounts in A. rewrite skipn_map, length_map in A.
      rewrite A. vm_compute. reflexivity.
Qed.

(** The statement above on the test double, for the first bundle. *)
Lemma tier_entries_witness :
  reliable Mock.accepting /\
  ascii_text "Corporate & Enterprise" = true /\
  exists r w',
    _create_bundle_product Mock.accepting "Corporate & Enterprise" Mock.fresh
      = (Ok r, w')
    /\ bun_amount r = 419.
Proof.
  split; [exact mock_reliable |]. split; [reflexivity |].
  destruct (proj1 (tier_entries_one_product_each Mock.accepting mock_reliable)
                  "Corporate & Enterprise" Mock.fresh eq_refl)
    as (p & s1 & pr & s2 & _ & _ & E & _).
  eexists; eexists. split; [exact E |]. reflexivity.
Defined.

(** C6 fails on the code as far as the enterprise entry goes: on the test
    double its step asks Stripe for one product and then for three prices
    of that product, four calls where the vault step makes two; over the
    whole run the fourteen tier entries make sixteen price requests. *)
Lemma enterprise_entry_gets_three_prices :
  (exists r w',
      _create_enterprise_product Mock.accepting Mock.fresh = (Ok r, w')
      /\ List.length (product_reqs (events w')) = 1%nat
      /\ List.length (price_reqs (events w')) = 3%nat
      /\ price_products (events w') = ["prod_0"; "prod_0"; "prod_0"]
      /\ sent_amounts (events w') = [199700; 299700; 499700])
  /\ (exists r w',
         _create_vault_license_product Mock.accepting Mock.fresh = (Ok r, w')
         /\ List.length (product_reqs (events w')) = 1%nat
         /\ List.length (price_reqs (events w')) = 1%nat)
  /\ List.length
       (skipn 487
          (product_reqs
             (events (snd (create_all_stripe_products Mock.accepting
                                                      Mock.fresh)))))
     = 14%nat
  /\ List.length
       (skipn 487
          (price_reqs
             (events (snd (create_all_stripe_products Mock.accepting
                                                      Mock.fresh)))))
     = 16%nat.
Proof.
  split; [| split; [| split]].
  - eexists; eexists. split; [reflexivity |]. repeat split; reflexivity.
  - eexists; eexists. split; [reflexivity |]. repeat split; reflexivity.
  - vm_compute. reflexivity.
  - vm_compute. reflexivity.
Qed.

(** Invoking the vault step [n] times in a row. *)
Lemma returns_vault_times {S : Type} (api : StripeAPI S) (n : nat) :
  reliable api ->
  returns (invoke_times n (_create_vault_license_product api))
    (fun rs tr =>
       List.length rs = n /\
       Forall (fun r => vault_amount r = 997) rs /\
       sent_amounts tr = repeat 99700 n).
Proof.
  intros Hrel. unfold invoke_times.
  eapply returns_weaken.
  - apply returns_for_in with
      (Inv := fun (done : list nat) rs tr =>
                List.length rs = List.length done /\
                Forall (fun r => vault_amount r = 997) rs /\
                sent_amounts tr = repeat 99700 (List.length done)).
    + simpl. auto.
    + intros done x rs tr (L & F & A).
      eapply returns_bind; [apply returns_vault, Hrel |].
      intros v tr' (p & pr & -> & ->). apply returns_ret.
      rewrite !length_app, sent_amounts_app, repeat_app, L, A. simpl.
      repeat split; auto. apply Forall_app. split; auto.
  - intros rs tr (L & F & A). rewrite length_seq in L, A. auto.
Qed.

(** C7: the vault step knows one price: whatever the SDK and the state of
    the account, a record it returns has amount 997, and against an SDK
    that never raises, [n] invocations in a row return [n] records of
    amount 997 and ask Stripe for 99700 cents each time. *)
Theorem vault_amount_fixed
        {S : Type} (api : StripeAPI S) (Hrel : reliable api)
        (n : nat) (w : World S) :
  (exists rs s' tr,
      invoke_times n (_create_vault_license_product api) w =
        (Ok rs, mkWorld s' (events w ++ tr))
      /\ List.length rs = n
      /\ Forall (fun r => vault_amount r = 997) rs
      /\ sent_amounts tr = repeat 99700 n)
  /\ (forall (S' : Type) (api' : StripeAPI S') (w0 : World S'),
         priced vault_amount 997 (_create_vault_license_product api' w0)).
Proof.
  split.
  - destruct (returns_vault_times api n Hrel w)
      as (rs & s' & tr & E & _ & L & F & A).
    exists rs, s', tr. auto.
  - intros S' api' w0. unfold priced.
    destruct (_create_vault_license_product api' w0) as [[r | e] w'] eqn:E;
      simpl; [| exact I].
    apply vault_returned in E. apply E.
Qed.

(** The statement above on the test double, for three invocations. *)
Lemma vault_amount_witness :
  reliable Mock.accepting /\
  exists rs w',
    invoke_times 3 (_create_vault_license_product Mock.accepting) Mock.fresh
      = (Ok rs, w')
    /\ map vault_amount rs = [997; 997; 997].
Proof.
  split; [exact mock_reliable |].
  destruct (proj1 (vault_amount_fixed Mock.accepting mock_reliable 3 Mock.fresh))
    as (rs & s' & tr & E & _).
  exists rs. eexists. split; [exact E |].
  vm_compute in E. injection E as <- _ _. reflexivity.
Defined.

(** ** Pricing rules *)

Lemma priced_same {S1 S2 A V} (amt : A -> V) (v : V)
      (run1 : outcome A * World S1) (run2 : outcome A * World S2) :
  priced amt v run1 -> priced amt v run2 ->
  same_amount amt (fst run1) (fst run2).
Proof.
  unfold priced, same_amount.
  destruct (fst run1), (fst run2); auto. congruence.
Qed.

Lemma priced_individual {S} (api : StripeAPI S) id w :
  priced ind_amount (25 + id mod 25)
         (_create_individual_template_product api id w).
Proof.
  unfold priced.
  destruct (_create_individual_template_product api id w) as [[r | e] w'] eqn:E;
    cbn [fst]; [| exact I].
  apply individual_returned in E. apply E.
Qed.

Lemma priced_bundle {S} (api : StripeAPI S) category w :
  priced bun_amount (199 + 10 * Py.len category)
         (_create_bundle_product api category w).
Proof.
  unfold priced.
  destruct (_create_bundle_product api category w) as [[r | e] w'] eqn:E;
    cbn [fst]; [| exact I].
  apply bundle_returned in E. destruct E as [_ ->]. unfold bundle_price. lia.
Qed.

Lemma priced_vault {S} (api : StripeAPI S) w :
  priced vault_amount 997 (_create_vault_license_product api w).
Proof.
  unfold priced.
  destruct (_create_vault_license_product api w) as [[r | e] w'] eqn:E;
    cbn [fst]; [| exact I].
  apply vault_returned in E. apply E.
Qed.

Lemma priced_subscription {S} (api : StripeAPI S) interval w :
  priced (fun r => Some (sub_amount r)) (Py.dict_get amounts interval)
         (_create_subscription_product api interval w).
Proof.
  unfold priced.
  destruct (_create_subscription_product api interval w) as [[r | e] w'] eqn:E;
    cbn [fst]; [| exact I].
  apply subscription_returned in E. destruct E as [_ ->]. reflexivity.
Qed.

Lemma priced_enterprise {S} (api : StripeAPI S) w :
  priced (fun r => map ep_amount (ent_pricing_tiers r)) [1997; 2997; 4997]
         (_create_enterprise_product api w).
Proof.
  unfold priced.
  destruct (_create_enterprise_product api w) as [[r | e] w'] eqn:E;
    cbn [fst]; [| exact I].
  apply enterprise_returned in E. apply E.
Qed.

(** C8: the amount of a record never depends on the SDK or on the state of
    the account, only on the step's input: individual 25 + (id mod 25),
    bundle 199 + 10 * len(category), vault 997, subscription 47 or 470 by
    interval, enterprise 1997, 2997 and 4997; so two runs on the same input
    that both return agree on the amount; and every amount, the entries of
    the orchestrator's price table included, is at least 0. *)
Theorem pricing_rules_deterministic_nonnegative
        (S1 S2 : Type) (api1 : StripeAPI S1) (api2 : StripeAPI S2)
        (w1 : World S1) (w2 : World S2) :
  (forall id : Z,
      priced ind_amount (25 + id mod 25)
             (_create_individual_template_product api1 id w1)
      /\ same_amount ind_amount
           (fst (_create_individual_template_product api1 id w1))
           (fst (_create_individual_template_product api2 id w2))
      /\ 0 <= 25 + id mod 25)
  /\ (forall category : string,
         priced bun_amount (199 + 10 * Py.len category)
                (_create_bundle_product api1 category w1)
         /\ same_amount bun_amount
              (fst (_create_bundle_product api1 category w1))
              (fst (_create_bundle_product api2 category w2))
         /\ 0 <= 199 + 10 * Py.len category)
  /\ (priced vault_amount 997 (_create_vault_license_product api1 w1)
      /\ same_amount vault_amount
           (fst (_create_vault_license_product api1 w1))
           (fst (_create_vault_license_product api2 w2))
      /\ 0 <= 997)
  /\ (forall interval : string,
         match fst (_create_subscription_product api1 interval w1) with
         | Ok r => (interval = "monthly" /\ sub_amount r = 47)
                   \/ (interval = "annual" /\ sub_amount r = 470)
         | Raise _ => True
         end
         /\ same_amount sub_amount
              (fst (_create_subscription_product api1 interval w1))
              (fst (_create_subscription_product api2 interval w2)))
  /\ (priced (fun r => map ep_amount (ent_pricing_tiers r))
             [1997; 2997; 4997] (_create_enterprise_product api1 w1)
      /\ same_amount (fun r => map ep_amount (ent_pricing_tiers r))
           (fst (_create_enterprise_product api1 w1))
           (fst (_create_enterprise_product api2 w2))
      /\ Forall (fun a => 0 <= a) [1997; 2997; 4997])
  /\ (forall category : string,
         0 <= tier_individual (_calculate_price_tier category)
         /\ 0 <= tier_bundle (_calculate_price_tier category)
         /\ 0 <= tier_enterprise (_calculate_price_tier category)).
Proof.
  split; [| split; [| split; [| split; [| split]]]].
  - intros id. split; [apply priced_individual |]. split.
    + eapply priced_same; apply priced_individual.
    + pose proof (Z.mod_pos_bound id 25 ltac:(lia)). lia.
  - intros category. split; [apply priced_bundle |]. split.
    + eapply priced_same; apply priced_bundle.
    + unfold Py.len. lia.
  - split; [apply priced_vault |]. split; [| lia].
    eapply priced_same; apply priced_vault.
  - intros interval. split.
    + pose proof (priced_subscription api1 interval w1) as P.
      unfold priced in P.
      destruct (fst (_create_subscription_product api1 interval w1));
        [| exact I].
      symmetry in P. apply amounts_values in P. exact P.
    + pose proof (priced_same _ _ _ _
                    (priced_subscription api1 interval w1)
                    (priced_subscription api2 interval w2)) as P.
      unfold same_amount in *.
      destruct (fst (_create_subscription_product api1 interval w1)),
               (fst (_create_subscription_product api2 interval w2)); auto.
      now injection P.
  - split; [apply priced_enterprise |]. split.
    + eapply priced_same; apply priced_enterprise.
    + repeat constructor; lia.
  - apply price_tier_nonneg.
Qed.

(** ** Failure of a Stripe call *)



(** * Properties of the rest of the code *)

(** ** Strings *)

Lemma append_nil_r (s : string) : (s ++ "")%string = s.
Proof. induction s; simpl; congruence. Qed.

Lemma append_assoc (a b c : string) :
  ((a ++ b) ++ c)%string = (a ++ (b ++ c))%string.
Proof. induction a; simpl; congruence. Qed.

Lemma append_length (a b : string) :
  String.length (a ++ b) = (String.length a + String.length b)%nat.
Proof. induction a; simpl; congruence. Qed.

Lemma append_inv_head (a b c : string) :
  (a ++ b)%string = (a ++ c)%string -> b = c.
Proof. induction a; simpl; intros H; [exact H | injection H; auto]. Qed.

(** Two concatenations that agree and whose heads have the same length
    agree part by part. *)
Lemma append_eq_same_length (a b c d : string) :
  (a ++ b)%string = (c ++ d)%string ->
  String.length a = String.length c ->
  a = c /\ b = d.
Proof.
  revert c. induction a as [| x a IH]; intros [| y c] H L; simpl in *;
    try discriminate.
  - auto.
  - injection H as -> H. injection L as L.
    destruct (IH c H L) as [-> ->]. auto.
Qed.

Lemma append_inv_tail (a b c : string) :
  (a ++ c)%string = (b ++ c)%string -> a = b.
Proof.
  intros H. apply (append_eq_same_length a c b c H).
  apply (f_equal String.length) in H. rewrite !append_length in H. lia.
Qed.

(** ** Running the state-and-exception monad *)

Lemma st_bind_return {W A B} (m : ST W A) (k : A -> ST W B) w a w' :
  m w = (Return a, w') -> st_bind m k w = k a w'.
Proof. intros H. unfold st_bind. now rewrite H. Qed.

Lemma st_bind_throw {W A B} (m : ST W A) (k : A -> ST W B) w e w' :
  m w = (Throw e, w') -> st_bind m k w = (Throw e, w').
Proof. intros H. unfold st_bind. now rewrite H. Qed.

(** ** Digital delivery *)

Lemma put_warnings_cons f fs (res : string + unit) answers :
  put_warnings (f :: fs) (res :: answers) =
  put_warnings [f] [res] ++ put_warnings fs answers.
Proof.
  unfold put_warnings. cbn [combine flat_map]. now rewrite app_nil_r.
Qed.

Section Delivery.

Context {S DT : Type}.
Variable cloud : Monetization.CloudAPI S DT.

Lemma folder_step_run (f : string) (h : Monetization.Host S) :
  exists res s',
    Monetization.folder_step cloud f tt h =
      (Return tt,
       Monetization.mkHost
         (mkWorld s' (events (Monetization.core h)))
         (Monetization.cloud_calls h
          ++ [Monetization.CallPut (Monetization.put_req f) res])
         (Monetization.stdout h ++ put_warnings [f] [res])).
Proof.
  unfold Monetization.folder_step, try_except, Monetization.s3_put_object,
    Monetization.external, Monetization.print.
  destruct (Monetization.put_object cloud (Monetization.put_req f)
                                    (account (Monetization.core h)))
    as [[msg | []] s1].
  - exists (inl msg), s1. reflexivity.
  - exists (inr tt), s1. cbn. rewrite app_nil_r. reflexivity.
Qed.

Lemma folder_loop (fs : list string) :
  forall h : Monetization.Host S,
  exists answers s',
    List.length answers = List.length fs /\
    for_each fs (Monetization.folder_step cloud) tt h =
      (Return tt,
       Monetization.mkHost
         (mkWorld s' (events (Monetization.core h)))
         (Monetization.cloud_calls h ++ put_trace fs answers)
         (Monetization.stdout h ++ put_warnings fs answers)).
Proof.
  induction fs as [| f fs IH]; intros h.
  - exists [], (account (Monetization.core h)).
    destruct h as [[s evs] calls out]. simpl. rewrite !app_nil_r. auto.
  - destruct (folder_step_run f h) as (res & s1 & E1).
    cbn [for_each]. rewrite (st_bind_return _ _ _ _ _ E1).
    match goal with
    | |- context [for_each fs _ tt ?h1] =>
        destruct (IH h1) as (answers & s' & L & E)
    end.
    exists (res :: answers), s'. split; [simpl; lia |].
    rewrite E. cbn [Monetization.core Monetization.cloud_calls
                    Monetization.stdout events].
    rewrite (put_warnings_cons f fs res answers).
    change (put_trace (f :: fs) (res :: answers))
      with ([Monetization.CallPut (Monetization.put_req f) res]
            ++ put_trace fs answers).
    rewrite <- !app_assoc. reflexivity.
Qed.

End Delivery.

Lemma setup_digital_delivery_run
      {S DT : Type} (cloud : Monetization.CloudAPI S DT)
      (h : Monetization.Host S) :
  exists answers s',
    List.length answers = 6%nat /\
    Monetization.setup_digital_delivery cloud h =
      (Return {| Monetization.bucket := "iza-os-templates";
                 Monetization.url_expiry := 3600;
                 Monetization.access_control := "authenticated_customers_only" |},
       Monetization.mkHost
         (mkWorld s' (events (Monetization.core h)))
         (Monetization.cloud_calls h ++ put_trace Monetization.folders answers)
         (Monetization.stdout h ++ put_warnings Monetization.folders answers)).
Proof.
  destruct (folder_loop cloud Monetization.folders h) as (answers & s' & L & E).
  exists answers, s'. split; [exact L |].
  unfold Monetization.setup_digital_delivery.
  rewrite (st_bind_return _ _ _ _ _ E). reflexivity.
Qed.

(** X1: [setup_digital_delivery] cannot fail on S3: whatever S3 answers,
    it asks once for each of the six folders, in the order listed, with
    the engine's bucket and an empty body, prints one warning for each
    refusal, carries on, and returns the delivery configuration; it makes
    no other call and creates nothing in Stripe. *)
Theorem digital_delivery_survives_s3_failures
        {S DT : Type} (cloud : Monetization.CloudAPI S DT)
        (h : Monetization.Host S) :
  exists answers s',
    List.length answers = 6%nat /\
    Monetization.setup_digital_delivery cloud h =
      (Return {| Monetization.bucket := "iza-os-templates";
                 Monetization.url_expiry := 3600;
                 Monetization.access_control := "authenticated_customers_only" |},
       Monetization.mkHost
         (mkWorld s' (events (Monetization.core h)))
         (Monetization.cloud_calls h ++ put_trace Monetization.folders answers)
         (Monetization.stdout h ++ put_warnings Monetization.folders answers))
    /\ put_trace Monetization.folders answers =
         map (fun fa => Monetization.CallPut
                          {| Monetization.Bucket := "iza-os-templates";
                             Monetization.Key := fst fa;
                             Monetization.Body := "" |} (snd fa))
             (combine
                [ "templates/individual/"; "templates/bundles/";
                  "templates/vault/"; "customization-tools/";
                  "documentation/"; "bonus-materials/" ] answers)
    /\ List.length (put_warnings Monetization.folders answers) =
         List.length (filter (fun a : string + unit =>
                                match a with inl _ => true | inr _ => false end)
                             answers).
Proof.
  destruct (setup_digital_delivery_run cloud h) as (answers & s' & L & E).
  exists answers, s'. split; [exact L |]. split; [exact E |].
  split; [reflexivity |].
  unfold Monetization.folders.
  do 7 (destruct answers as [| ? answers]; try discriminate L).
  repeat match goal with a : (string + unit)%type |- _ => destruct a end;
    reflexivity.
Qed.

(** ** Webhooks *)

Section Webhooks.

Context {S DT : Type}.
Variable cloud : Monetization.CloudAPI S DT.

Lemma webhook_step_run (ep : Monetization.Endpoint) (acc : list string)
      (h : Monetization.Host S) :
  match Monetization.WebhookEndpoint_create
          cloud (Monetization.webhook_req ep) (account (Monetization.core h))
  with
  | (inr wh, s1) =>
      Monetization.webhook_step cloud ep acc h =
        (Return (acc ++ [Monetization.webhook_obj_id wh]),
         Monetization.mkHost
           (mkWorld s1 (events (Monetization.core h)))
           (Monetization.cloud_calls h
            ++ [Monetization.CallWebhook (Monetization.webhook_req ep) (inr wh)])
           (Monetization.stdout h))
  | (inl e0, s1) =>
      Monetization.webhook_step cloud ep acc h =
        (Throw (Core e0),
         Monetization.mkHost
           (mkWorld s1 (events (Monetization.core h)))
           (Monetization.cloud_calls h
            ++ [Monetization.CallWebhook (Monetization.webhook_req ep) (inl e0)])
           (Monetization.stdout h))
  end.
Proof.
  unfold Monetization.webhook_step, st_bind,
    Monetization.stripe_WebhookEndpoint_create, Monetization.external.
  destruct (Monetization.WebhookEndpoint_create
              cloud (Monetization.webhook_req ep)
              (account (Monetization.core h))) as [[e0 | wh] s1]; reflexivity.
Qed.

(** The loop of [setup_webhooks] from any point: [hooks] are the
    endpoints Stripe created before the loop ended. *)
Lemma webhook_loop (es : list Monetization.Endpoint) :
  forall (acc : list string) (h : Monetization.Host S),
  exists hooks s',
    match fst (for_each es (Monetization.webhook_step cloud) acc h) with
    | Return ids =>
        List.length hooks = List.length es /\
        ids = acc ++ map Monetization.webhook_obj_id hooks /\
        snd (for_each es (Monetization.webhook_step cloud) acc h) =
          Monetization.mkHost
            (mkWorld s' (events (Monetization.core h)))
            (Monetization.cloud_calls h ++ webhook_trace es hooks)
            (Monetization.stdout h)
    | Throw e =>
        exists e0 ep,
          e = Core e0 /\
          nth_error es (List.length hooks) = Some ep /\
          snd (for_each es (Monetization.webhook_step cloud) acc h) =
            Monetization.mkHost
              (mkWorld s' (events (Monetization.core h)))
              (Monetization.cloud_calls h ++ webhook_trace es hooks
               ++ [Monetization.CallWebhook (Monetization.webhook_req ep)
                                            (inl e0)])
              (Monetization.stdout h)
    end.
Proof.
  induction es as [| ep es IH]; intros acc h.
  - exists [], (account (Monetization.core h)).
    destruct h as [[s evs] calls out]. simpl.
    rewrite !app_nil_r. auto.
  - cbn [for_each]. pose proof (webhook_step_run ep acc h) as R.
    destruct (Monetization.WebhookEndpoint_create
                cloud (Monetization.webhook_req ep)
                (account (Monetization.core h))) as [[e0 | wh] s1].
    + rewrite (st_bind_throw _ _ _ _ _ R).
      exists [], s1. cbn. exists e0, ep. auto.
    + rewrite (st_bind_return _ _ _ _ _ R).
      match goal with
      | |- context [for_each es _ ?acc1 ?h1] =>
          destruct (IH acc1 h1) as (hooks & s' & H)
      end.
      exists (wh :: hooks), s'.
      match goal with
      | |- context [for_each es ?b ?acc1 ?h1] =>
          destruct (for_each es b acc1 h1) as [[ids | e] h2]
      end; cbn [fst snd] in *.
      * destruct H as (L & -> & ->). cbn.
        rewrite <- !app_assoc. auto.
      * destruct H as (e1 & ep1 & -> & N & ->). exists e1, ep1. cbn.
        rewrite <- !app_assoc. auto.
Qed.

End Webhooks.

(** X2: whatever Stripe does, [setup_webhooks] asks for the three endpoints
    in the order they are listed and stops at the first refusal: a run that
    returns hands back, in that order, the ids Stripe gave, with status
    'configured'; a run that raises re-raises Stripe's exception, returns no
    id, and leaves the endpoints created before it in place. Nothing is
    printed and no product or price is created. *)
Theorem setup_webhooks_in_order_fail_stop
        {S DT : Type} (cloud : Monetization.CloudAPI S DT)
        (h : Monetization.Host S) :
  exists hooks s',
    match fst (Monetization.setup_webhooks cloud h) with
    | Return r =>
        List.length hooks = 3%nat /\
        r = {| Monetization.webhook_ids :=
                 map Monetization.webhook_obj_id hooks;
               Monetization.status := "configured" |} /\
        snd (Monetization.setup_webhooks cloud h) =
          Monetization.mkHost
            (mkWorld s' (events (Monetization.core h)))
            (Monetization.cloud_calls h
             ++ webhook_trace Monetization.webhook_endpoints hooks)
            (Monetization.stdout h)
    | Throw e =>
        exists e0 ep,
          e = Core e0 /\
          (List.length hooks < 3)%nat /\
          nth_error Monetization.webhook_endpoints (List.length hooks) = Some ep /\
          snd (Monetization.setup_webhooks cloud h) =
            Monetization.mkHost
              (mkWorld s' (events (Monetization.core h)))
              (Monetization.cloud_calls h
               ++ webhook_trace Monetization.webhook_endpoints hooks
               ++ [Monetization.CallWebhook (Monetization.webhook_req ep)
                                            (inl e0)])
              (Monetization.stdout h)
    end.
Proof.
  destruct (webhook_loop cloud Monetization.webhook_endpoints [] h)
    as (hooks & s' & H).
  exists hooks, s'. unfold Monetization.setup_webhooks, st_bind.
  destruct (for_each Monetization.webhook_endpoints
                     (Monetization.webhook_step cloud) [] h)
    as [[ids | e] h1]; cbn [fst snd] in *.
  - destruct H as (L & -> & ->). cbn [st_ret fst snd app].
    split; [exact L |]. split; reflexivity.
  - destruct H as (e0 & ep & -> & N & ->). exists e0, ep.
    split; [reflexivity |]. split; [| split; [exact N | reflexivity]].
    apply (proj1 (nth_error_Some Monetization.webhook_endpoints _)).
    congruence.
Qed.

Lemma webhook_loop_reliable
      {S DT : Type} (cloud : Monetization.CloudAPI S DT)
      (Hrel : webhooks_reliable cloud) (es : list Monetization.Endpoint) :
  forall (acc : list string) (h : Monetization.Host S),
  exists hooks s',
    List.length hooks = List.length es /\
    for_each es (Monetization.webhook_step cloud) acc h =
      (Return (acc ++ map Monetization.webhook_obj_id hooks),
       Monetization.mkHost
         (mkWorld s' (events (Monetization.core h)))
         (Monetization.cloud_calls h ++ webhook_trace es hooks)
         (Monetization.stdout h)).
Proof.
  induction es as [| ep es IH]; intros acc h.
  - exists [], (account (Monetization.core h)).
    destruct h as [[s evs] calls out]. simpl. rewrite !app_nil_r. auto.
  - cbn [for_each]. pose proof (webhook_step_run cloud ep acc h) as R.
    destruct (Hrel (Monetization.webhook_req ep)
                   (account (Monetization.core h))) as (wh & s1 & E).
    rewrite E in R. rewrite (st_bind_return _ _ _ _ _ R).
    match goal with
    | |- context [for_each es _ ?acc1 ?h1] =>
        destruct (IH acc1 h1) as (hooks & s' & L & E')
    end.
    exists (wh :: hooks), s'. split; [simpl; lia |].
    rewrite E'. cbn. rewrite <- !app_assoc. reflexivity.
Qed.

Lemma setup_webhooks_reliable_run
      {S DT : Type} (cloud : Monetization.CloudAPI S DT)
      (Hrel : webhooks_reliable cloud) (h : Monetization.Host S) :
  exists hooks s',
    List.length hooks = 3%nat /\
    Monetization.setup_webhooks cloud h =
      (Return {| Monetization.webhook_ids :=
                   map Monetization.webhook_obj_id hooks;
                 Monetization.status := "configured" |},
       Monetization.mkHost
         (mkWorld s' (events (Monetization.core h)))
         (Monetization.cloud_calls h
          ++ webhook_trace Monetization.webhook_endpoints hooks)
         (Monetization.stdout h)).
Proof.
  destruct (webhook_loop_reliable cloud Hrel Monetization.webhook_endpoints [] h)
    as (hooks & s' & L & E).
  exists hooks, s'. split; [exact L |].
  unfold Monetization.setup_webhooks.
  rewrite (st_bind_return _ _ _ _ _ E). reflexivity.
Qed.

(** X3: when Stripe creates every endpoint it is asked for,
    [setup_webhooks] returns: three ids, those Stripe gave to the
    payment-success, subscription and refunds endpoints, in that order. *)
Theorem setup_webhooks_returns_three_ids
        {S DT : Type} (cloud : Monetization.CloudAPI S DT)
        (Hrel : webhooks_reliable cloud) (h : Monetization.Host S) :
  exists wh1 wh2 wh3 h',
    Monetization.setup_webhooks cloud h =
      (Return {| Monetization.webhook_ids :=
                   [ Monetization.webhook_obj_id wh1;
                     Monetization.webhook_obj_id wh2;
                     Monetization.webhook_obj_id wh3 ];
                 Monetization.status := "configured" |}, h')
    /\ Monetization.cloud_calls h' =
         Monetization.cloud_calls h ++
         [ Monetization.CallWebhook
             {| Monetization.url :=
                  "https://marketplace.iza-os.com/webhooks/stripe/payment-success";
                Monetization.enabled_events :=
                  ["payment_intent.succeeded"; "checkout.session.completed"] |}
             (inr wh1);
           Monetization.CallWebhook
             {| Monetization.url :=
                  "https://marketplace.iza-os.com/webhooks/stripe/subscription";
                Monetization.enabled_events :=
                  ["customer.subscription.created";
                   "customer.subscription.updated";
                   "customer.subscription.deleted"] |}
             (inr wh2);
           Monetization.CallWebhook
             {| Monetization.url :=
                  "https://marketplace.iza-os.com/webhooks/stripe/refunds";
                Monetization.enabled_events :=
                  ["charge.dispute.created"; "payment_intent.payment_failed"] |}
             (inr wh3) ].
Proof.
  destruct (setup_webhooks_reliable_run cloud Hrel h) as (hooks & s' & L & E).
  do 4 (destruct hooks as [| ? hooks]; try discriminate L).
  eexists; eexists; eexists; eexists. split; [exact E |]. reflexivity.
Qed.

Lemma mock_webhooks_reliable : webhooks_reliable MockCloud.accepting.
Proof. intros req n. eexists; eexists; reflexivity. Qed.

(** The statement above on the test double. *)
Lemma setup_webhooks_witness :
  webhooks_reliable MockCloud.accepting /\
  exists r h',
    Monetization.setup_webhooks MockCloud.accepting MockCloud.fresh
      = (Return r, h') /\
    List.length (Monetization.webhook_ids r) = 3%nat.
Proof.
  split; [exact mock_webhooks_reliable |].
  destruct (setup_webhooks_returns_three_ids MockCloud.accepting
              mock_webhooks_reliable MockCloud.fresh)
    as (wh1 & wh2 & wh3 & h' & E & _).
  eexists; eexists. split; [exact E |]. reflexivity.
Defined.

(** ** The entry point [warp_setup_monetization] *)

Lemma catalog_sizes (r : Results) (tr : list event) :
  complete_catalog r tr ->
  List.length (individual_templates r) = 487%nat /\
  List.length (bundles r) = 10%nat.
Proof.
  intros (C1 & _ & C3 & _). split.
  - rewrite <- (length_map ind_template_id), C1. reflexivity.
  - rewrite <- (length_map bun_category), C3. reflexivity.
Qed.

(** X4: with an S3 client, a Stripe that creates what it is asked and an S3
    that may refuse any folder, [warp_setup_monetization] returns: it
    asks for the S3 client, creates the catalog in Stripe, the requests for
    its 501 products in the order of the catalog, then creates the three
    webhooks, whose ids it returns, then asks S3 for the six folders, and
    makes no other call; it prints its progress lines with the counts 487,
    10 and 3, the warnings for the folders S3 refused coming between the
    delivery banner and the bucket line. *)
Theorem warp_setup_completes_despite_s3
        {S DT : Type} (stripe : StripeAPI S) (cloud : Monetization.CloudAPI S DT)
        (Hclient : s3_client_available cloud)
        (Hstripe : reliable stripe)
        (Hhooks : webhooks_reliable cloud)
        (h : Monetization.Host S) :
  exists setup h' answers tr hooks s1 s2,
    Monetization.warp_setup_monetization stripe cloud h = (Return setup, h')
    /\ List.length (individual_templates (Monetization.products setup)) = 487%nat
    /\ List.length (bundles (Monetization.products setup)) = 10%nat
    /\ List.length (Monetization.webhook_ids (Monetization.webhooks setup)) = 3%nat
    /\ Monetization.bucket (Monetization.delivery setup) = "iza-os-templates"
    /\ List.length answers = 6%nat
    /\ Monetization.stdout h' =
         Monetization.stdout h
         ++ [ Monetization.msg_start;
              Monetization.msg_products;
              (Monetization.msg_created ++ "487 individual templates")%string;
              (Monetization.msg_created ++ "10 category bundles")%string;
              Monetization.msg_vault_and_subscriptions;
              Monetization.msg_webhooks;
              (Monetization.msg_created ++ "3 webhooks")%string;
              Monetization.msg_delivery ]
         ++ put_warnings Monetization.folders answers
         ++ [ (Monetization.msg_bucket ++ "iza-os-templates")%string;
              Monetization.msg_complete ]
    /\ Monetization.boto3_client cloud "s3" (account (Monetization.core h))
       = (inr tt, s1)
    /\ events (Monetization.core h') = events (Monetization.core h) ++ tr
    /\ faithful stripe s1 tr s2
    /\ Forall succeeded tr
    /\ complete_catalog (Monetization.products setup) tr
    /\ product_reqs tr = catalog_products
    /\ List.length hooks = 3%nat
    /\ Monetization.webhook_ids (Monetization.webhooks setup)
       = map Monetization.webhook_obj_id hooks
    /\ Monetization.cloud_calls h' =
         Monetization.cloud_calls h
         ++ [Monetization.CallClient "s3" (inr tt)]
         ++ webhook_trace Monetization.webhook_endpoints hooks
         ++ put_trace Monetization.folders answers.
Proof.
  unfold Monetization.warp_setup_monetization.
  unfold st_bind at 1. unfold Monetization.print at 1. cbn [fst snd].
  unfold st_bind at 1.
  unfold Monetization.MonetizationEngine_init, Monetization.external.
  cbn [Monetization.core Monetization.cloud_calls Monetization.stdout].
  destruct (Hclient (account (Monetization.core h))) as (s1 & E1). rewrite E1.
  unfold st_bind at 1. unfold Monetization.print at 1.
  unfold st_bind at 1. unfold Monetization.lift.
  cbn [Monetization.core Monetization.cloud_calls Monetization.stdout].
  destruct (returns_faithful stripe (create_all_stripe_products stripe)
              complete_catalog (returns_create_all stripe Hstripe)
              (honest_create_all stripe)
              (mkWorld s1 (events (Monetization.core h))))
    as (r & s2 & tr & E2 & Hs & C & Hf).
  cbn [account events] in E2, Hf.
  rewrite E2. destruct (catalog_sizes r tr C) as [L1 L2].
  do 4 (unfold st_bind at 1; unfold Monetization.print at 1).
  cbn [Monetization.core Monetization.cloud_calls Monetization.stdout].
  rewrite L1, L2.
  unfold st_bind at 1.
  match goal with
  | |- context [Monetization.setup_webhooks cloud ?hx] =>
      destruct (setup_webhooks_reliable_run cloud Hhooks hx)
        as (hooks & s3 & L3 & E3); rewrite E3
  end.
  do 2 (unfold st_bind at 1; unfold Monetization.print at 1).
  cbn [Monetization.core Monetization.cloud_calls Monetization.stdout
       Monetization.webhook_ids].
  rewrite length_map, L3.
  unfold st_bind at 1.
  match goal with
  | |- context [Monetization.setup_digital_delivery cloud ?hx] =>
      destruct (setup_digital_delivery_run cloud hx)
        as (answers & s4 & L4 & E4); rewrite E4
  end.
  do 2 (unfold st_bind at 1; unfold Monetization.print at 1).
  cbn [Monetization.core Monetization.cloud_calls Monetization.stdout
       Monetization.bucket st_ret].
  eexists; eexists; exists answers, tr, hooks, s1, s2.
  split; [reflexivity |].
  cbn [Monetization.products Monetization.webhooks Monetization.delivery
       Monetization.webhook_ids Monetization.bucket Monetization.stdout
       Monetization.core Monetization.cloud_calls events].
  split; [exact L1 |]. split; [exact L2 |].
  split; [rewrite length_map; exact L3 |]. split; [reflexivity |].
  split; [exact L4 |].
  split; [rewrite <- !app_assoc; reflexivity |].
  split; [reflexivity |]. split; [reflexivity |]. split; [exact Hf |].
  split; [exact Hs |]. split; [exact C |].
  split; [apply C |]. split; [exact L3 |]. split; [reflexivity |].
  rewrite <- !app_assoc. reflexivity.
Qed.

Lemma mock_client_available bad_hook bad_put :
  s3_client_available (MockCloud.api bad_hook bad_put).
Proof. intros n. exists n. reflexivity. Qed.

Lemma mock_hooks_reliable bad_put :
  webhooks_reliable (MockCloud.api (fun _ => false) bad_put).
Proof. intros req n. eexists; eexists; reflexivity. Qed.

(** The statement above on the test doubles, S3 refusing every folder. *)
Lemma warp_setup_witness :
  s3_client_available MockCloud.s3_refusing /\
  reliable Mock.accepting /\
  webhooks_reliable MockCloud.s3_refusing /\
  exists setup h',
    Monetization.warp_setup_monetization Mock.accepting MockCloud.s3_refusing
                                         MockCloud.fresh
      = (Return setup, h')
    /\ List.length (Monetization.webhook_ids (Monetization.webhooks setup))
       = 3%nat.
Proof.
  split; [apply mock_client_available |].
  split; [exact mock_reliable |].
  split; [apply mock_hooks_reliable |].
  destruct (warp_setup_completes_despite_s3
              Mock.accepting MockCloud.s3_refusing
              (mock_client_available _ _) mock_reliable
              (mock_hooks_reliable _) MockCloud.fresh)
    as (setup & h' & answers & tr & hooks & s1 & s2 & E & _ & _ & L & _).
  exists setup, h'. auto.
Defined.

(** X5: when the catalog cannot be created, [warp_setup_monetization]
    stops there: it re-raises the exception of the product and price
    layer, has printed its first two lines only, and has asked for no
    webhook and no folder. *)
Theorem warp_setup_stops_when_catalog_fails
        {S DT : Type} (stripe : StripeAPI S) (cloud : Monetization.CloudAPI S DT)
        (h : Monetization.Host S) (s1 : S) (e : exn) (w' : World S)
        (Hclient : Monetization.boto3_client cloud "s3"
                     (account (Monetization.core h)) = (inr tt, s1))
        (Hfail : create_all_stripe_products
                   stripe (mkWorld s1 (events (Monetization.core h)))
                 = (Raise e, w')) :
  Monetization.warp_setup_monetization stripe cloud h =
    (Throw (Core e),
     Monetization.mkHost
       w'
       (Monetization.cloud_calls h ++ [Monetization.CallClient "s3" (inr tt)])
       (Monetization.stdout h
        ++ [Monetization.msg_start; Monetization.msg_products])).
Proof.
  unfold Monetization.warp_setup_monetization.
  unfold st_bind at 1. unfold Monetization.print at 1. cbn [fst snd].
  unfold st_bind at 1.
  unfold Monetization.MonetizationEngine_init, Monetization.external.
  cbn [Monetization.core Monetization.cloud_calls Monetization.stdout].
  rewrite Hclient.
  unfold st_bind at 1. unfold Monetization.print at 1.
  unfold st_bind at 1. unfold Monetization.lift.
  cbn [Monetization.core Monetization.cloud_calls Monetization.stdout].
  rewrite Hfail. rewrite <- app_assoc. reflexivity.
Qed.

(** The statement above on the test doubles, Stripe refusing template 3. *)
Lemma warp_setup_stops_witness :
  exists e w',
    Monetization.boto3_client MockCloud.accepting "s3"
      (account (Monetization.core MockCloud.fresh)) = (inr tt, 0%N)
    /\ create_all_stripe_products (Mock.fails_on_template 3) (mkWorld 0%N [])
       = (Raise e, w')
    /\ Monetization.cloud_calls
         (snd (Monetization.warp_setup_monetization
                 (Mock.fails_on_template 3) MockCloud.accepting
                 MockCloud.fresh))
       = [Monetization.CallClient "s3" (inr tt)].
Proof.
  destruct (create_all_stripe_products (Mock.fails_on_template 3)
                                       (mkWorld 0%N [])) as [[r | e] w'] eqn:E.
  - exfalso. vm_compute in E. discriminate E.
  - exists e, w'. split; [reflexivity |]. split; [reflexivity |].
    rewrite (warp_setup_stops_when_catalog_fails
               (Mock.fails_on_template 3) MockCloud.accepting
               MockCloud.fresh 0%N e w' eq_refl E).
    reflexivity.
Defined.

(** ** Download links *)

(** X6: the package key of a download link determines the customer: two
    links made with time stamps of the same length, as one [strftime]
    format gives, have the same key only for the same customer and the
    same stamp. *)
Theorem package_key_identifies_customer
        (customer1 customer2 stamp1 stamp2 : string)
        (Hlen : String.length stamp1 = String.length stamp2)
        (Hkey : Monetization.package_key customer1 stamp1 =
                Monetization.package_key customer2 stamp2) :
  customer1 = customer2 /\ stamp1 = stamp2.
Proof.
  unfold Monetization.package_key in Hkey.
  apply append_inv_head in Hkey.
  rewrite <- !append_assoc in Hkey.
  apply append_inv_tail in Hkey.
  assert (L : String.length (customer1 ++ "_") = String.length (customer2 ++ "_")).
  { apply (f_equal String.length) in Hkey. rewrite !append_length in *. lia. }
  destruct (append_eq_same_length _ _ _ _ Hkey L) as [Hc Hs].
  apply append_inv_tail in Hc. auto.
Qed.

(** The statement above at one customer and one stamp. *)
Lemma package_key_witness :
  String.length "20250115_093000" = String.length "20250115_093000" /\
  Monetization.package_key "cus_42" "20250115_093000" =
  Monetization.package_key "cus_42" "20250115_093000" /\
  "cus_42" = "cus_42".
Proof.
  split; [reflexivity |]. split; [reflexivity |].
  apply (package_key_identifies_customer
           "cus_42" "cus_42" "20250115_093000" "20250115_093000"
           eq_refl eq_refl).
Defined.

(** X7: [generate_download_link] reads the clock once and asks S3 to sign
    one 'get_object' link, valid for 3600 seconds, for the key
    'packages/<customer>_<stamp>.zip' in the engine's bucket; it returns the
    link or re-raises S3's exception, uploads nothing, and the key it signs
    is never one of the keys [setup_digital_delivery] writes, the only keys
    this module puts to the bucket. The product type and the template ids
    play no part. *)
Theorem download_link_signs_one_unwritten_key
        {S DT : Type} (cloud : Monetization.CloudAPI S DT)
        (h : Monetization.Host S) (customer_id product_type : string)
        (template_ids : list Z) :
  exists d s1 res s2 req,
    Monetization.datetime_now cloud (account (Monetization.core h)) = (d, s1)
    /\ req = {| Monetization.ClientMethod := "get_object";
                Monetization.Params_Bucket := "iza-os-templates";
                Monetization.Params_Key :=
                  ("packages/" ++ customer_id ++ "_"
                   ++ Monetization.strftime cloud d "%Y%m%d_%H%M%S"
                   ++ ".zip")%string;
                Monetization.ExpiresIn := 3600 |}
    /\ Monetization.generate_presigned_url cloud req s1 = (res, s2)
    /\ Monetization.generate_download_link
         cloud customer_id product_type template_ids h =
       (match res with
        | inr link => Return link
        | inl msg => Throw (Boto3Error msg)
        end,
        Monetization.mkHost
          (mkWorld s2 (events (Monetization.core h)))
          (Monetization.cloud_calls h ++ [Monetization.CallPresign req res])
          (Monetization.stdout h))
    /\ existsb (fun folder =>
                  String.eqb (Monetization.Key (Monetization.put_req folder))
                             (Monetization.Params_Key req))
               Monetization.folders = false.
Proof.
  unfold Monetization.generate_download_link, st_bind, Monetization.now,
    Monetization.s3_generate_presigned_url, Monetization.external.
  destruct (Monetization.datetime_now cloud (account (Monetization.core h)))
    as [d s1].
  cbn [Monetization.core Monetization.cloud_calls Monetization.stdout
       account events].
  destruct (Monetization.generate_presigned_url cloud _ s1) as [res s2] eqn:E.
  exists d, s1, res, s2. eexists. split; [reflexivity |].
  split; [reflexivity |]. split; [exact E |].
  split; [destruct res; reflexivity | reflexivity].
Qed.

(** ** Prices against the engine's own configuration *)

Lemma forallb_through_map {A B} (f : B -> bool) (g : A -> B) (l : list A) :
  forallb (fun x => f (g x)) l = forallb f (map g l).
Proof. induction l; simpl; congruence. Qed.

(** X8: every amount the individual, vault, subscription and enterprise
    steps charge is one the engine's [pricing_tiers] configuration allows:
    25 + (id mod 25) lies in the individual range (5, 50) for every id, the
    vault amount is the configured 997, the subscription amounts are the
    configured 47 and 470, and the enterprise amounts lie in
    (1497, 4997). *)
Theorem charged_amounts_within_configuration :
  (forall id : Z, Monetization.allowed "individual" (base_price id) = true)
  /\ (forall (S : Type) (api : StripeAPI S) (w : World S),
         match fst (_create_vault_license_product api w) with
         | Ok r => Monetization.allowed "vault" (vault_amount r) = true
         | Raise _ => True
         end)
  /\ (forall (S : Type) (api : StripeAPI S) (interval : string) (w : World S),
         match fst (_create_subscription_product api interval w) with
         | Ok r => Monetization.allowed "subscription" (sub_amount r) = true
         | Raise _ => True
         end)
  /\ (forall (S : Type) (api : StripeAPI S) (w : World S),
         match fst (_create_enterprise_product api w) with
         | Ok r => forallb (fun p => Monetization.allowed "enterprise" (ep_amount p))
                           (ent_pricing_tiers r) = true
         | Raise _ => True
         end).
Proof.
  split; [| split; [| split]].
  - intros id. pose proof (base_price_bounds id) as B.
    unfold Monetization.allowed. cbn [Py.dict_get Monetization.pricing_tiers].
    change (String.eqb "individual" "individual") with true. cbv iota.
    apply andb_true_iff. rewrite !Z.leb_le. lia.
  - intros S api w.
    destruct (_create_vault_license_product api w) as [[r | e] w'] eqn:E;
      cbn [fst]; [| exact I].
    apply vault_returned in E. destruct E as [-> _]. reflexivity.
  - intros S api interval w.
    destruct (_create_subscription_product api interval w) as [[r | e] w'] eqn:E;
      cbn [fst]; [| exact I].
    apply subscription_returned in E. destruct E as [_ E].
    apply amounts_values in E. destruct E as [[_ ->] | [_ ->]]; reflexivity.
  - intros S api w.
    destruct (_create_enterprise_product api w) as [[r | e] w'] eqn:E;
      cbn [fst]; [| exact I].
    apply enterprise_returned in E. destruct E as [_ E].
    rewrite (forallb_through_map (Monetization.allowed "enterprise") ep_amount).
    rewrite E. reflexivity.
Qed.

(** X9: bundles are the exception: for a category name written in ASCII,
    the bundle price fits the configured bundle range (99, 299) exactly
    when the name has at most 10 characters; the ten declared categories
    are written in ASCII and every one of them is longer, so every bundle
    of the catalog is priced above the configured maximum, from 359 to
    459. *)
Theorem bundle_prices_exceed_configuration :
  (forall category : string,
      ascii_text category = true ->
      Monetization.allowed "bundle" (bundle_price category)
      = (Py.len category <=? 10))
  /\ forallb ascii_text categories = true
  /\ forallb (fun c => negb (Monetization.allowed "bundle" (bundle_price c)))
             categories = true
  /\ forallb (fun c => (359 <=? bundle_price c) && (bundle_price c <=? 459))
             categories = true.
Proof.
  split; [| split; [| split]; reflexivity].
  intros category _. unfold Monetization.allowed.
  cbn [Py.dict_get Monetization.pricing_tiers].
  change (String.eqb "individual" "bundle") with false.
  change (String.eqb "bundle" "bundle") with true. cbv iota.
  unfold bundle_price. pose proof (Zle_0_nat (String.length category)) as P.
  fold (Py.len category) in P.
  destruct (Z.leb_spec (Py.len category) 10).
  - apply andb_true_iff. rewrite !Z.leb_le. lia.
  - apply andb_false_iff. right. apply Z.leb_gt. lia.
Qed.

(** The statement above for a name of ten characters, the longest that
    fits, and for one of eleven. *)
Lemma bundle_prices_witness :
  ascii_text "Healthcare" = true /\ ascii_text "Real Estate" = true /\
  Monetization.allowed "bundle" (bundle_price "Healthcare") = true /\
  Monetization.allowed "bundle" (bundle_price "Real Estate") = false.
Proof.
  split; [reflexivity |]. split; [reflexivity |]. split.
  - apply (proj1 bundle_prices_exceed_configuration "Healthcare" eq_refl).
  - apply (proj1 bundle_prices_exceed_configuration "Real Estate" eq_refl).
Defined.

(** ** More on the product and price layer *)

(** X10: a subscription interval other than 'monthly' and 'annual', in
    that exact spelling, makes [_create_subscription_product] raise
    [KeyError] on the interval before anything is asked of Stripe: the
    account and the trace are left as they were. *)
Theorem subscription_unknown_interval_raises
        {S : Type} (api : StripeAPI S) (interval : string) (w : World S)
        (Hm : interval <> "monthly") (Ha : interval <> "annual") :
  _create_subscription_product api interval w = (Raise (KeyError interval), w).
Proof.
  unfold _create_subscription_product, amounts, Py.dict_get.
  destruct (String.eqb_spec "monthly" interval) as [E |]; [congruence |].
  destruct (String.eqb_spec "annual" interval) as [E |]; [congruence |].
  reflexivity.
Qed.

(** The statement above for the capitalised spelling. *)
Lemma subscription_unknown_interval_witness :
  "Monthly" <> "monthly" /\ "Monthly" <> "annual" /\
  _create_subscription_product Mock.accepting "Monthly" Mock.fresh
    = (Raise (KeyError "Monthly"), Mock.fresh).
Proof.
  split; [discriminate |]. split; [discriminate |].
  apply (subscription_unknown_interval_raises Mock.accepting "Monthly"
                                              Mock.fresh);
    discriminate.
Defined.

(** X11: what Stripe is asked to charge is always one hundred times the
    amount the returned record reports: for the individual, bundle, vault
    and subscription steps the one price request carries 100 * amount, and
    the enterprise step's three price requests carry 100 times the three
    amounts of its record, in order. *)
Theorem records_report_what_is_charged
        {S : Type} (api : StripeAPI S) (Hrel : reliable api) (w : World S) :
  (forall id : Z,
      exists r w' tr,
        _create_individual_template_product api id w = (Ok r, w')
        /\ events w' = events w ++ tr
        /\ sent_amounts tr = [100 * ind_amount r])
  /\ (forall category : string,
         exists r w' tr,
           _create_bundle_product api category w = (Ok r, w')
           /\ events w' = events w ++ tr
           /\ sent_amounts tr = [100 * bun_amount r])
  /\ (exists r w' tr,
         _create_vault_license_product api w = (Ok r, w')
         /\ events w' = events w ++ tr
         /\ sent_amounts tr = [100 * vault_amount r])
  /\ (exists r w' tr,
         _create_subscription_product api "monthly" w = (Ok r, w')
         /\ events w' = events w ++ tr
         /\ sent_amounts tr = [100 * sub_amount r])
  /\ (exists r w' tr,
         _create_subscription_product api "annual" w = (Ok r, w')
         /\ events w' = events w ++ tr
         /\ sent_amounts tr = [100 * sub_amount r])
  /\ (exists r w' tr,
         _create_enterprise_product api w = (Ok r, w')
         /\ events w' = events w ++ tr
         /\ sent_amounts tr =
              map (fun p => 100 * ep_amount p) (ent_pricing_tiers r)).
Proof.
  split; [| split; [| split; [| split; [| split]]]].
  - intros id.
    destruct (returns_individual api Hrel id w)
      as (r & s' & tr & E & _ & p & pr & -> & ->).
    eexists; eexists; eexists. split; [exact E |]. split; [reflexivity |].
    unfold sent_amounts. cbn [price_reqs map unit_amount individual_price_req
                              ind_amount].
    f_equal. lia.
  - intros category.
    destruct (returns_bundle api Hrel category w)
      as (r & s' & tr & E & _ & p & pr & -> & ->).
    eexists; eexists; eexists. split; [exact E |]. split; [reflexivity |].
    unfold sent_amounts. cbn [price_reqs map unit_amount bundle_price_req
                              bun_amount].
    f_equal. lia.
  - destruct (returns_vault api Hrel w)
      as (r & s' & tr & E & _ & p & pr & -> & ->).
    eexists; eexists; eexists. split; [exact E |]. split; reflexivity.
  - destruct (returns_subscription api Hrel "monthly" 47 eq_refl w)
      as (r & s' & tr & E & _ & p & pr & -> & ->).
    eexists; eexists; eexists. split; [exact E |]. split; reflexivity.
  - destruct (returns_subscription api Hrel "annual" 470 eq_refl w)
      as (r & s' & tr & E & _ & p & pr & -> & ->).
    eexists; eexists; eexists. split; [exact E |]. split; reflexivity.
  - destruct (returns_enterprise api Hrel w)
      as (r & s' & tr & E & _ & p & q1 & q2 & q3 & -> & ->).
    eexists; eexists; eexists. split; [exact E |]. split; reflexivity.
Qed.

(** The statement above on the test double, for the vault licence. *)
Lemma records_report_witness :
  reliable Mock.accepting /\
  exists r w' tr,
    _create_vault_license_product Mock.accepting Mock.fresh = (Ok r, w')
    /\ events w' = events Mock.fresh ++ tr
    /\ sent_amounts tr = [100 * vault_amount r].
Proof.
  split; [exact mock_reliable |].
  exact (proj1 (proj2 (proj2 (records_report_what_is_charged
                                Mock.accepting mock_reliable Mock.fresh)))).
Defined.

Lemma attached_nil : attached [].
Proof. intros pre q res post H. destruct pre; discriminate. Qed.

Lemma attached_app tr1 tr2 :
  attached tr1 -> attached tr2 -> attached (tr1 ++ tr2).
Proof.
  intros H1 H2 pre q res post E.
  apply app_eq_app in E. destruct E as (l & [[E1 E2] | [E1 E2]]).
  - destruct l as [| e l]; simpl in E2.
    + exfalso. apply (H2 [] q res post). now rewrite <- E2.
    + injection E2 as <- E2. apply (H1 pre q res l). exact E1.
  - subst pre. rewrite product_ids_app. apply in_or_app. right.
    apply (H2 l q res post). exact E2.
Qed.

Lemma attached_from_split seen tr :
  attached_from seen tr ->
  forall pre q res post,
    tr = pre ++ EvPrice q res :: post ->
    In (product q) (product_ids pre) \/ In (product q) seen.
Proof.
  revert seen. induction tr as [| ev tr IH]; intros seen H pre q res post E.
  - destruct pre; discriminate.
  - destruct pre as [| ev' pre]; simpl in E.
    + injection E as -> _. simpl in H. right. apply H.
    + injection E as <- E. destruct ev as [req [e | p] | req r]; simpl in H.
      * destruct (IH seen H pre q res post E); auto.
      * destruct (IH _ H pre q res post E) as [Hin | [<- | Hin]];
          simpl; auto.
      * destruct H as [_ H]. destruct (IH seen H pre q res post E); auto.
Qed.

Lemma attached_from_start tr : attached_from [] tr -> attached tr.
Proof.
  intros H pre q res post E.
  destruct (attached_from_split [] tr H pre q res post E) as [Hin | []].
  exact Hin.
Qed.

Section Traced.

Context {S : Type}.
Variable P : list event -> Prop.
Hypothesis P_nil : P [].
Hypothesis P_app : forall tr1 tr2, P tr1 -> P tr2 -> P (tr1 ++ tr2).

Lemma traced_ret {A} (a : A) : traced (S := S) P (ret a).
Proof. intros w. exists []. simpl. now rewrite app_nil_r. Qed.

Lemma traced_raise {A} (e : exn) : traced (S := S) (A := A) P (raise e).
Proof. intros w. exists []. simpl. now rewrite app_nil_r. Qed.

Lemma traced_bind {A B} (m : M S A) (k : A -> M S B) :
  traced P m -> (forall a, traced P (k a)) -> traced P (x <- m ;; k x).
Proof.
  intros Hm Hk w. destruct (Hm w) as (tr1 & E1 & P1). unfold bind.
  destruct (m w) as [[a | e] w1]; simpl in *.
  - destruct (Hk a w1) as (tr2 & E2 & P2).
    exists (tr1 ++ tr2). split; [now rewrite E2, E1, app_assoc | auto].
  - exists tr1. auto.
Qed.

Lemma traced_for_in {A St} (body : A -> St -> M S St) xs :
  (forall x st, traced P (body x st)) ->
  forall st, traced P (for_in xs body st).
Proof.
  intros Hbody. induction xs as [| x xs IH]; intros st; simpl.
  - apply traced_ret.
  - apply traced_bind; auto.
Qed.

End Traced.

Ltac attached_trace :=
  first
    [ exists []; split; [now rewrite app_nil_r | exact attached_nil]
    | eexists; split;
      [ rewrite <- ?app_assoc; reflexivity
      | apply attached_from_start; simpl; auto 8 ] ].

Section Attached.

Context {S : Type}.
Variable api : StripeAPI S.

Lemma attached_individual id :
  traced attached (_create_individual_template_product api id).
Proof.
  intros w. unfold _create_individual_template_product, bind, ret,
    stripe_Product_create, stripe_Price_create.
  destruct (Product_create api _ _) as [[e | p] s1]; simpl;
    [attached_trace |].
  destruct (Price_create api _ _) as [[e | pr] s2]; simpl; attached_trace.
Qed.

Lemma attached_bundle category :
  traced attached (_create_bundle_product api category).
Proof.
  intros w. unfold _create_bundle_product, bind, ret,
    stripe_Product_create, stripe_Price_create.
  destruct (Product_create api _ _) as [[e | p] s1]; simpl;
    [attached_trace |].
  destruct (Price_create api _ _) as [[e | pr] s2]; simpl; attached_trace.
Qed.

Lemma attached_vault : traced attached (_create_vault_license_product api).
Proof.
  intros w. unfold _create_vault_license_product, bind, ret,
    stripe_Product_create, stripe_Price_create.
  destruct (Product_create api _ _) as [[e | p] s1]; simpl;
    [attached_trace |].
  destruct (Price_create api _ _) as [[e | pr] s2]; simpl; attached_trace.
Qed.

Lemma attached_subscription interval :
  traced attached (_create_subscription_product api interval).
Proof.
  intros w. unfold _create_subscription_product, bind, ret, raise,
    stripe_Product_create, stripe_Price_create.
  destruct (Py.dict_get amounts interval) as [a |]; simpl; [| attached_trace].
  destruct (Product_create api _ _) as [[e | p] s1]; simpl;
    [attached_trace |].
  destruct (Price_create api _ _) as [[e | pr] s2]; simpl; attached_trace.
Qed.

Lemma attached_enterprise : traced attached (_create_enterprise_product api).
Proof.
  intros w. unfold _create_enterprise_product, enterprise_tiers,
    enterprise_price_step, for_in, bind, ret,
    stripe_Product_create, stripe_Price_create.
  destruct (Product_create api _ _) as [[e | p] s1]; simpl;
    [attached_trace |].
  destruct (Price_create api _ _) as [[e | pr1] s2]; simpl;
    [attached_trace |].
  destruct (Price_create api _ _) as [[e | pr2] s3]; simpl;
    [attached_trace |].
  destruct (Price_create api _ _) as [[e | pr3] s4]; simpl; attached_trace.
Qed.

Lemma attached_create_all : traced attached (create_all_stripe_products api).
Proof.
  unfold create_all_stripe_products, individual_step, bundle_step.
  repeat first
    [ apply attached_individual
    | apply attached_bundle
    | apply attached_vault
    | apply attached_enterprise
    | apply attached_subscription
    | apply (traced_ret attached attached_nil)
    | apply (traced_bind attached attached_app); [| intros ?]
    | apply (traced_for_in attached attached_nil attached_app); intros ? ? ].
Qed.

End Attached.

(** X12: whatever Stripe does, and whether the run returns or raises, every
    price the generator asks for is for a product that Stripe handed out
    earlier in the same run: at each price request, the product id it names
    is among the ids Stripe returned in the calls made before it. *)
Theorem prices_attach_to_created_products
        {S : Type} (api : StripeAPI S) (w : World S) :
  exists tr,
    events (snd (create_all_stripe_products api w)) = events w ++ tr
    /\ forall pre q res post,
         tr = pre ++ EvPrice q res :: post ->
         In (product q) (product_ids pre).
Proof. exact (attached_create_all api w). Qed.

(** X13: the generator does not look at what the account already holds:
    run twice in a row against a Stripe that creates what it is asked, it
    returns twice and the second run repeats the 501 product requests and
    the 503 price amounts of the first, so every product then exists
    twice. *)
Theorem generator_is_not_idempotent
        {S : Type} (api : StripeAPI S) (Hrel : reliable api) (w : World S) :
  exists r1 r2 w' tr1 tr2,
    (r1 <- create_all_stripe_products api ;;
     r2 <- create_all_stripe_products api ;;
     ret (r1, r2)) w = (Ok (r1, r2), w')
    /\ events w' = events w ++ tr1 ++ tr2
    /\ product_reqs tr1 = catalog_products
    /\ product_reqs tr2 = catalog_products
    /\ sent_amounts tr1 = sent_amounts tr2
    /\ List.length (product_reqs tr1) = 501%nat
    /\ List.length (price_reqs tr1) = 503%nat
    /\ result_product_ids r1 = product_ids tr1
    /\ result_product_ids r2 = product_ids tr2.
Proof.
  destruct (returns_create_all api Hrel w)
    as (r1 & s1 & tr1 & E1 & _ & C1).
  destruct (returns_create_all api Hrel (mkWorld s1 (events w ++ tr1)))
    as (r2 & s2 & tr2 & E2 & _ & C2).
  exists r1, r2, (mkWorld s2 ((events w ++ tr1) ++ tr2)), tr1, tr2.
  unfold bind. rewrite E1, E2. cbn [events ret].
  destruct C1 as (_ & _ & _ & _ & _ & _ & _ & _ & I1 & P1 & A1).
  destruct C2 as (_ & _ & _ & _ & _ & _ & _ & _ & I2 & P2 & A2).
  split; [reflexivity |]. split; [now rewrite app_assoc |].
  split; [exact P1 |]. split; [exact P2 |]. split; [congruence |].
  split; [rewrite P1; vm_compute; reflexivity |].
  split; [| auto].
  rewrite <- (length_map unit_amount). fold (sent_amounts tr1).
  rewrite A1. vm_compute. reflexivity.
Qed.

(** The statement above on the test double. *)
Lemma generator_not_idempotent_witness :
  reliable Mock.accepting /\
  exists r1 r2 w',
    (r1 <- create_all_stripe_products Mock.accepting ;;
     r2 <- create_all_stripe_products Mock.accepting ;;
     ret (r1, r2)) Mock.fresh = (Ok (r1, r2), w')
    /\ List.length (events w') = 2008%nat.
Proof.
  split; [exact mock_reliable |].
  destruct (generator_is_not_idempotent Mock.accepting mock_reliable Mock.fresh)
    as (r1 & r2 & w' & tr1 & tr2 & E & _).
  exists r1, r2, w'. split; [exact E |].
  vm_compute in E. injection E as _ _ <-. reflexivity.
Defined.

(** ** Categories, bundles and product names *)

(** X14: every template of the inventory falls in a category for which a
    bundle is sold: for an id from 1 to 487 the category mapper answers one
    of the ten categories [create_all_stripe_products] makes bundles for,
    never 'Miscellaneous'; and each of those ten has at least one
    template. *)
Theorem every_template_category_has_a_bundle (id : Z) (Hid : 1 <= id <= 487) :
  In (_get_category_for_template id) categories
  /\ forallb (fun c => negb (Nat.eqb (templates_in c) 0)) categories = true.
Proof.
  split; [| vm_compute; reflexivity].
  assert (Hall : forallb (fun i =>
                   existsb (String.eqb (_get_category_for_template i)) categories)
                 (Py.range 1 488) = true) by (vm_compute; reflexivity).
  rewrite forallb_forall in Hall.
  specialize (Hall id (In_range id 1 488 ltac:(lia))).
  apply existsb_exists in Hall. destruct Hall as (c & Hin & Heq).
  apply String.eqb_eq in Heq. now rewrite Heq.
Qed.

(** The statement above for template 300. *)
Lemma template_category_witness :
  1 <= 300 <= 487 /\ In (_get_category_for_template 300) categories.
Proof.
  split; [lia |].
  apply (proj1 (every_template_category_has_a_bundle 300 ltac:(lia))).
Defined.

(** X15: a bundle record reports 48 templates whatever its category, and
    its description promises '48+ templates', while the category mapper
    gives the ten categories 60, 72, 60, 60, 20, 40, 60, 60, 35 and 20
    templates, 487 in all: four of the ten bundles hold fewer than the 48
    they report. *)
Theorem bundle_size_is_not_the_category_size :
  (forall (S : Type) (api : StripeAPI S) (category : string) (w : World S),
      match fst (_create_bundle_product api category w) with
      | Ok r => bun_template_count r = 48
      | Raise _ => True
      end)
  /\ (forall category : string,
         Py.dict_get (product_metadata (bundle_product_req category))
                     "template_count" = Some (PInt 48))
  /\ map templates_in categories = [60; 72; 60; 60; 20; 40; 60; 60; 35; 20]%nat
  /\ fold_right Nat.add 0%nat (map templates_in categories) = 487%nat
  /\ filter (fun c => Nat.ltb (templates_in c) 48) categories =
       [ "Healthcare & Wellness"; "Community Impact"; "Technology & SaaS";
         "Research & Development" ].
Proof.
  split; [| split; [| split; [| split]]]; try (vm_compute; reflexivity).
  - intros S api category w.
    unfold _create_bundle_product, bind, ret,
      stripe_Product_create, stripe_Price_create.
    destruct (Product_create api _ _) as [[e | p] s1]; simpl; [exact I |].
    destruct (Price_create api _ _) as [[e | pr] s2]; simpl; [exact I |].
    reflexivity.
Qed.

(** Leading zeros do not change what a rendering reads back to. *)
Lemma decode_nat_zeros (k : nat) (s : string) :
  decode_nat (Py.zeros k ++ s) = decode_nat s.
Proof.
  induction k as [| k IH]; [reflexivity |].
  unfold decode_nat in *. cbn [Py.zeros append NilEmpty.uint_of_string].
  destruct (NilEmpty.uint_of_string (Py.zeros k ++ s)) as [d |] eqn:E;
    destruct (NilEmpty.uint_of_string s) as [d' |] eqn:E';
    simpl in *; congruence.
Qed.

Lemma decode_nat_str_nat (n : N) : decode_nat (Py.str_nat n) = Some n.
Proof.
  destruct n as [| p]; [reflexivity |].
  unfold decode_nat, Py.str_nat.
  pose proof (DecimalN.Unsigned.of_to (Npos p)) as H.
  cbn [N.to_uint] in *.
  pose proof (DecimalPos.Unsigned.to_uint_nonnil p) as NN.
  assert (E : NilZero.string_of_uint (Pos.to_uint p)
              = NilEmpty.string_of_uint (Pos.to_uint p))
    by (destruct (Pos.to_uint p); [contradiction | reflexivity ..]).
  rewrite E, NilEmpty.usu. cbn [option_map]. now rewrite H.
Qed.

Lemma str_nat_starts_with_digit (n : N) :
  exists c s, Py.str_nat n = String c s /\ Ascii.eqb c "-" = false.
Proof.
  destruct n as [| p]; [exists "0"%char, ""; split; reflexivity |].
  unfold Py.str_nat. cbn [N.to_uint].
  pose proof (DecimalPos.Unsigned.to_uint_nonnil p) as NN.
  destruct (Pos.to_uint p); [contradiction | ..];
    eexists; eexists; (split; [reflexivity | reflexivity]).
Qed.

Lemma decode_int_unsigned (k : nat) (n : N) :
  decode_int (Py.zeros k ++ Py.str_nat n) = Some (Z.of_N n).
Proof.
  assert (D : decode_nat (Py.zeros k ++ Py.str_nat n) = Some n)
    by (rewrite decode_nat_zeros; apply decode_nat_str_nat).
  destruct k as [| k].
  - destruct (str_nat_starts_with_digit n) as (c & s & E & Hc).
    cbn [Py.zeros append] in *. rewrite E in *.
    unfold decode_int. rewrite Hc, D. reflexivity.
  - cbn [Py.zeros append] in *. unfold decode_int.
    change (Ascii.eqb "0" "-") with false. cbv iota. rewrite D. reflexivity.
Qed.

Lemma decode_int_signed (k : nat) (n : N) :
  decode_int ("-" ++ Py.zeros k ++ Py.str_nat n) = Some (- Z.of_N n).
Proof.
  cbn [append]. unfold decode_int.
  change (Ascii.eqb "-" "-") with true. cbv iota.
  rewrite decode_nat_zeros, decode_nat_str_nat. reflexivity.
Qed.

(** The zero-padded rendering of an id reads back to the id. *)
Lemma decode_format_03d (z : Z) : decode_int (Py.format_03d z) = Some z.
Proof.
  unfold Py.format_03d. destruct (Z.ltb_spec z 0) as [Hneg | Hpos].
  - rewrite decode_int_signed. f_equal. rewrite N2Z.inj_abs_N. lia.
  - cbn [append]. rewrite decode_int_unsigned. f_equal.
    rewrite N2Z.inj_abs_N. lia.
Qed.

(** The plain rendering of an integer reads back to the integer. *)
Lemma decode_str (z : Z) : decode_int (Py.str z) = Some z.
Proof.
  unfold Py.str. destruct (Z.ltb_spec z 0) as [Hneg | Hpos].
  - etransitivity; [exact (decode_int_signed 0 (Z.abs_N z)) |].
    f_equal. rewrite N2Z.inj_abs_N. lia.
  - etransitivity; [exact (decode_int_unsigned 0 (Z.abs_N z)) |].
    f_equal. rewrite N2Z.inj_abs_N. lia.
Qed.

(** X16: the product name of an individual template identifies the
    template: 'Business Template #' followed by the zero-padded id reads
    back to the id, so two ids with the same product name are the same id,
    whether or not the padding applies (ids of four digits and more,
    negative ids). *)
Theorem product_name_identifies_template
        (id1 id2 : Z)
        (Hname : name (individual_product_req id1)
                 = name (individual_product_req id2)) :
  id1 = id2.
Proof.
  cbn [name individual_product_req] in Hname.
  apply append_inv_head in Hname.
  pose proof (decode_format_03d id1) as D1.
  pose proof (decode_format_03d id2) as D2.
  rewrite Hname in D1. congruence.
Qed.

(** The statement above at template 7. *)
Lemma product_name_witness :
  name (individual_product_req 7) = name (individual_product_req 7)
  /\ name (individual_product_req 7) = "Business Template #007"
  /\ 7 = 7.
Proof.
  split; [reflexivity |]. split; [reflexivity |].
  apply (product_name_identifies_template 7 7 eq_refl).
Defined.

(** ** The template orchestrator *)

Section Batch.

Context {E DT : Type}.
Variable api : Orchestrator.API E DT.

(** One template, against any model: what the call and the two clock
    readings give decides the outcome. *)
Lemma single_template_run (category : string) (index : Z)
      (d : Orchestrator.Desk E) :
  exists res e',
    Orchestrator.chat_log
      (snd (Orchestrator._generate_single_template api category index d))
      = Orchestrator.chat_log d ++ [(Orchestrator.chat_req category, res)]
    /\ snd (Orchestrator._generate_single_template api category index d)
       = Orchestrator.mkDesk
           e' (Orchestrator.chat_log d ++ [(Orchestrator.chat_req category, res)])
           (Orchestrator.stdout d) (Orchestrator.generated_today d)
    /\ match res with
       | inl msg =>
           fst (Orchestrator._generate_single_template api category index d)
           = Throw (OpenAIError msg)
       | inr [] =>
           fst (Orchestrator._generate_single_template api category index d)
           = Throw (IndexError "list index out of range")
       | inr (c :: _) =>
           exists template,
             fst (Orchestrator._generate_single_template api category index d)
             = Return template
             /\ made_for api category index template
             /\ Orchestrator.tpl_content template
                = Orchestrator.message_content c
       end.
Proof.
  unfold Orchestrator._generate_single_template, st_bind,
    Orchestrator.openai_chat_completions_create, Orchestrator.now,
    Orchestrator.first_choice.
  destruct (Orchestrator.chat_completions_create
              api (Orchestrator.chat_req category) (Orchestrator.outside d))
    as [[msg | choices] e1].
  - exists (inl msg), e1. auto.
  - cbn [Orchestrator.outside Orchestrator.chat_log Orchestrator.stdout
         Orchestrator.generated_today].
    destruct (Orchestrator.datetime_now api e1) as [t1 e2].
    cbn [Orchestrator.outside Orchestrator.chat_log Orchestrator.stdout
         Orchestrator.generated_today].
    destruct (Orchestrator.datetime_now api e2) as [t2 e3].
    exists (inr choices), e3. destruct choices as [| c cs]; cbn.
    + auto.
    + split; [reflexivity |]. split; [reflexivity |].
      eexists. split; [reflexivity |]. split; [| reflexivity].
      unfold made_for. cbn. repeat split. exists t1. reflexivity.
Qed.

(** The loop of [generate_template_batch] from any point, against any
    model: [k] counts the templates made before the loop ended. *)
Lemma batch_loop (category : string) (indices : list Z) :
  forall (acc : list Orchestrator.Template) (d : Orchestrator.Desk E),
  exists made calls e',
    snd (for_each indices (Orchestrator.batch_step api category) acc d)
    = Orchestrator.mkDesk
        e' (Orchestrator.chat_log d ++ calls) (Orchestrator.stdout d)
        (Orchestrator.generated_today d + Z.of_nat (List.length made))
    /\ Forall (fun call => fst call = Orchestrator.chat_req category) calls
    /\ Forall2 (made_for api category)
               (firstn (List.length made) indices) made
    /\ match fst (for_each indices (Orchestrator.batch_step api category)
                           acc d) with
       | Return templates =>
           templates = acc ++ made
           /\ List.length made = List.length indices
           /\ List.length calls = List.length indices
           /\ forallb usable calls = true
       | Throw e =>
           (List.length made < List.length indices)%nat
           /\ exists last,
               calls = firstn (List.length made) calls ++ [last]
               /\ List.length calls = Datatypes.S (List.length made)
               /\ forallb usable (firstn (List.length made) calls) = true
               /\ usable last = false
       end.
Proof.
  induction indices as [| i indices IH]; intros acc d.
  - exists [], [], (Orchestrator.outside d). destruct d as [e log out g].
    cbn. rewrite !app_nil_r, Z.add_0_r. repeat split; auto.
  - cbn [for_each]. unfold st_bind at 1 2. unfold Orchestrator.batch_step at 1 3.
    unfold st_bind at 1 3.
    destruct (single_template_run category i d) as (res & e1 & _ & Hd & Hr).
    destruct (Orchestrator._generate_single_template api category i d)
      as [r d1]. cbn [fst snd] in Hd, Hr. subst d1.
    destruct res as [msg | [| c cs]].
    + subst r. exists [], [(Orchestrator.chat_req category, inl msg)], e1.
      cbn. rewrite Z.add_0_r. repeat split; auto; try lia.
      exists (Orchestrator.chat_req category, inl msg). auto.
    + subst r. exists [], [(Orchestrator.chat_req category, inr [])], e1.
      cbn. rewrite Z.add_0_r. repeat split; auto; try lia.
      exists (Orchestrator.chat_req category, inr []). auto.
    + destruct Hr as (template & -> & Hmade & _).
      unfold Orchestrator.count_generated at 1 2. unfold st_bind at 1 2.
      cbn [st_ret fst snd Orchestrator.outside Orchestrator.chat_log
           Orchestrator.stdout Orchestrator.generated_today].
      match goal with
      | |- context [for_each indices _ ?acc1 ?d1] =>
          destruct (IH acc1 d1) as (made & calls & e' & Hs & Hc & Hm & Ho)
      end.
      exists (template :: made),
             ((Orchestrator.chat_req category, inr (c :: cs)) :: calls), e'.
      rewrite Hs.
      cbn [Orchestrator.outside Orchestrator.chat_log Orchestrator.stdout
           Orchestrator.generated_today List.length firstn].
      split; [rewrite <- app_assoc; f_equal; lia |].
      split; [constructor; auto |]. split; [constructor; auto |].
      match goal with
      | |- context [for_each indices ?b ?acc1 ?d1] =>
          destruct (fst (for_each indices b acc1 d1)) as [templates | e]
      end.
      * destruct Ho as (-> & L1 & L2 & U). rewrite <- app_assoc.
        cbn [forallb usable snd]. repeat split; auto; simpl; lia.
      * destruct Ho as (L & last & Hl & Hn & U & Ul).
        split; [simpl; lia |]. exists last.
        cbn [List.length firstn forallb usable snd andb app].
        split; [f_equal; exact Hl |]. split; [lia |]. split; assumption.
Qed.

End Batch.

(** X17: whatever the model does, [generate_template_batch] makes one chat
    call per template, every call of a batch carrying the same request (the
    index is no part of the prompt), and advances [self.generated_today] by
    exactly the number of templates it made. A batch that returns made
    [count] templates; a batch that raises stopped at the first call that
    failed or came back without a choice, hands back none of the templates
    made before it, and leaves the counter advanced by their number. *)
Theorem batch_counter_counts_templates
        {E DT : Type} (api : Orchestrator.API E DT)
        (category : string) (count : Z) (d : Orchestrator.Desk E) :
  exists made calls e',
    snd (Orchestrator.generate_template_batch api category count d)
    = Orchestrator.mkDesk
        e' (Orchestrator.chat_log d ++ calls) (Orchestrator.stdout d)
        (Orchestrator.generated_today d + Z.of_nat (List.length made))
    /\ Forall (fun call => fst call = Orchestrator.chat_req category) calls
    /\ match fst (Orchestrator.generate_template_batch api category count d)
       with
       | Return templates =>
           templates = made
           /\ List.length templates = Z.to_nat count
           /\ List.length calls = Z.to_nat count
           /\ forallb usable calls = true
       | Throw e =>
           (List.length made < Z.to_nat count)%nat
           /\ List.length calls = Datatypes.S (List.length made)
           /\ forallb usable (firstn (List.length made) calls) = true
           /\ forallb usable (skipn (List.length made) calls) = false
       end.
Proof.
  unfold Orchestrator.generate_template_batch.
  assert (LR : List.length (Py.range 0 count) = Z.to_nat count).
  { unfold Py.range. rewrite length_map, length_seq. f_equal. lia. }
  destruct (batch_loop api category (Py.range 0 count) [] d)
    as (made & calls & e' & Hs & Hc & _ & Ho).
  exists made, calls, e'. split; [exact Hs |]. split; [exact Hc |].
  destruct (fst (for_each (Py.range 0 count)
                          (Orchestrator.batch_step api category) [] d)).
  - destruct Ho as (-> & L1 & L2 & U). cbn [app].
    repeat split; auto; congruence.
  - destruct Ho as (L & last & Hl & Hn & U & Ul).
    split; [lia |]. split; [exact Hn |]. split; [exact U |].
    assert (Hk : skipn (List.length made) calls = [last]).
    { apply (app_inv_head (firstn (List.length made) calls)).
      rewrite firstn_skipn. exact Hl. }
    rewrite Hk. cbn. now rewrite Ul.
Qed.

Section AnsweringModel.

Context {E DT : Type}.
Variable api : Orchestrator.API E DT.
Hypothesis Hans : answering api.

Lemma single_template_answered (category : string) (index : Z)
      (d : Orchestrator.Desk E) :
  exists template c cs e',
    Orchestrator._generate_single_template api category index d
    = (Return template,
       Orchestrator.mkDesk
         e' (Orchestrator.chat_log d
             ++ [(Orchestrator.chat_req category, inr (c :: cs))])
         (Orchestrator.stdout d) (Orchestrator.generated_today d))
    /\ made_for api category index template.
Proof.
  unfold Orchestrator._generate_single_template, st_bind,
    Orchestrator.openai_chat_completions_create, Orchestrator.now,
    Orchestrator.first_choice.
  destruct (Hans (Orchestrator.chat_req category) (Orchestrator.outside d))
    as (c & cs & e1 & E1). rewrite E1.
  cbn [Orchestrator.outside Orchestrator.chat_log Orchestrator.stdout
       Orchestrator.generated_today].
  destruct (Orchestrator.datetime_now api e1) as [t1 e2].
  cbn [Orchestrator.outside Orchestrator.chat_log Orchestrator.stdout
       Orchestrator.generated_today].
  destruct (Orchestrator.datetime_now api e2) as [t2 e3].
  eexists; exists c, cs, e3. split; [reflexivity |].
  unfold made_for. cbn. repeat split. exists t1. reflexivity.
Qed.

Lemma batch_loop_answered (category : string) (indices : list Z) :
  forall (acc : list Orchestrator.Template) (d : Orchestrator.Desk E),
  exists made calls e',
    for_each indices (Orchestrator.batch_step api category) acc d
    = (Return (acc ++ made),
       Orchestrator.mkDesk
         e' (Orchestrator.chat_log d ++ calls) (Orchestrator.stdout d)
         (Orchestrator.generated_today d + Z.of_nat (List.length indices)))
    /\ Forall2 (made_for api category) indices made
    /\ List.length calls = List.length indices.
Proof.
  induction indices as [| i indices IH]; intros acc d.
  - exists [], [], (Orchestrator.outside d). destruct d as [e log out g].
    cbn. rewrite !app_nil_r, Z.add_0_r. auto.
  - cbn [for_each].
    destruct (single_template_answered category i d)
      as (template & c & cs & e1 & E1 & M1).
    assert (R : Orchestrator.batch_step api category i acc d
                = (Return (acc ++ [template]),
                   Orchestrator.mkDesk
                     e1 (Orchestrator.chat_log d
                         ++ [(Orchestrator.chat_req category, inr (c :: cs))])
                     (Orchestrator.stdout d)
                     (Orchestrator.generated_today d + 1))).
    { unfold Orchestrator.batch_step.
      rewrite (st_bind_return _ _ _ _ _ E1). reflexivity. }
    rewrite (st_bind_return _ _ _ _ _ R).
    match goal with
    | |- context [for_each indices _ ?acc1 ?d1] =>
        destruct (IH acc1 d1) as (made & calls & e' & Hs & Hm & Hl)
    end.
    exists (template :: made),
           ((Orchestrator.chat_req category, inr (c :: cs)) :: calls), e'.
    rewrite Hs.
    cbn [Orchestrator.outside Orchestrator.chat_log Orchestrator.stdout
         Orchestrator.generated_today List.length].
    split; [| split; [constructor; auto | simpl; lia]].
    replace (Orchestrator.generated_today d + 1
             + Z.of_nat (Datatypes.length indices))
      with (Orchestrator.generated_today d
            + Z.of_nat (Datatypes.S (Datatypes.length indices))) by lia.
    rewrite <- !app_assoc. reflexivity.
Qed.

End AnsweringModel.

Lemma NoDup_map_injective {A B} (f : A -> B) (l : list A) :
  (forall x y, In x l -> In y l -> f x = f y -> x = y) ->
  NoDup l -> NoDup (map f l).
Proof.
  intros Hinj Hnd. induction Hnd as [| x l Hx Hnd IH]; simpl; constructor.
  - intros Hin. apply in_map_iff in Hin. destruct Hin as (y & Hy & Hyl).
    assert (y = x) by (apply Hinj; simpl; auto). subst. contradiction.
  - apply IH. intros a b Ha Hb. apply Hinj; simpl; auto.
Qed.

Lemma range_NoDup (lo hi : Z) : NoDup (Py.range lo hi).
Proof.
  unfold Py.range. apply NoDup_map_injective; [| apply seq_NoDup].
  intros x y _ _ H. lia.
Qed.

(** Two template ids that spell the same category and date stamps of one
    length are equal only for the same index. *)
Lemma template_id_index (category : string) (i j : Z) (s1 s2 : string) :
  String.length s1 = String.length s2 ->
  (category ++ "_" ++ Py.str i ++ "_" ++ s1)%string
  = (category ++ "_" ++ Py.str j ++ "_" ++ s2)%string ->
  i = j.
Proof.
  intros L H. apply append_inv_head in H. apply append_inv_head in H.
  assert (L' : String.length (Py.str i) = String.length (Py.str j)).
  { apply (f_equal String.length) in H. rewrite !append_length in H.
    simpl in H. lia. }
  destruct (append_eq_same_length _ _ _ _ H L') as [Hs _].
  pose proof (decode_str i) as Di. rewrite Hs, decode_str in Di. congruence.
Qed.

Lemma Forall2_In_right {A B} (R : A -> B -> Prop) l l' (y : B) :
  Forall2 R l l' -> In y l' -> exists x, In x l /\ R x y.
Proof.
  induction 1 as [| a b l l' Hab HF IH]; simpl; [contradiction |].
  intros [<- | Hin]; [eauto |].
  destruct (IH Hin) as (x & Hx & Hr). eauto.
Qed.

Lemma made_ids_NoDup {E DT} (api : Orchestrator.API E DT) (n : nat)
      (category : string) (indices : list Z) (made : list Orchestrator.Template) :
  (forall t, String.length (Orchestrator.strftime api t "%Y%m%d") = n) ->
  Forall2 (made_for api category) indices made ->
  NoDup indices ->
  NoDup (map Orchestrator.tpl_id made).
Proof.
  intros Hlen HF. induction HF as [| i t indices made Hm HF IH]; intros Hnd.
  - constructor.
  - inversion Hnd as [| ? ? Hi Hnd']; subst. simpl. constructor; [| auto].
    intros Hin. apply in_map_iff in Hin. destruct Hin as (t' & Hid & Ht').
    destruct (Forall2_In_right _ _ _ t' HF Ht') as (j & Hj & Hmj).
    destruct Hm as ((s1 & E1) & _). destruct Hmj as ((s2 & E2) & _).
    rewrite E1, E2 in Hid.
    apply template_id_index in Hid; [| now rewrite !Hlen].
    subst. contradiction.
Qed.

(** X18: when the model always answers with a choice,
    [generate_template_batch] returns [count] templates, one for each index
    0, 1, ..., count - 1 in that order, each carrying the batch's category
    and the price tier of that category, and [self.generated_today] has
    grown by [count] (by nothing for a negative count). *)
Theorem batch_returns_count_templates
        {E DT : Type} (api : Orchestrator.API E DT) (Hans : answering api)
        (category : string) (count : Z) (d : Orchestrator.Desk E) :
  exists templates d',
    Orchestrator.generate_template_batch api category count d
    = (Return templates, d')
    /\ List.length templates = Z.to_nat count
    /\ Orchestrator.generated_today d'
       = Orchestrator.generated_today d + Z.max 0 count
    /\ Orchestrator.stdout d' = Orchestrator.stdout d
    /\ List.length (Orchestrator.chat_log d')
       = (List.length (Orchestrator.chat_log d) + Z.to_nat count)%nat
    /\ Forall2 (made_for api category) (Py.range 0 count) templates.
Proof.
  unfold Orchestrator.generate_template_batch.
  assert (LR : List.length (Py.range 0 count) = Z.to_nat count).
  { unfold Py.range. rewrite length_map, length_seq. f_equal. lia. }
  destruct (batch_loop_answered api Hans category (Py.range 0 count) [] d)
    as (made & calls & e' & Hs & Hm & Hl).
  eexists; eexists. split; [exact Hs |]. cbn [app].
  cbn [Orchestrator.generated_today Orchestrator.stdout Orchestrator.chat_log].
  split; [rewrite <- (Forall2_length Hm); exact LR |].
  split; [rewrite LR; lia |]. split; [reflexivity |].
  split; [rewrite length_app; lia | exact Hm].
Qed.

Lemma mock_answering : answering MockOpenAI.answering.
Proof. intros req n. eexists; eexists; eexists. reflexivity. Qed.

(** The statement above on the test double, for a batch of five. *)
Lemma batch_returns_witness :
  answering MockOpenAI.answering /\
  exists templates d',
    Orchestrator.generate_template_batch MockOpenAI.answering "fintech" 5
                                         MockOpenAI.fresh
    = (Return templates, d')
    /\ List.length templates = 5%nat
    /\ Orchestrator.generated_today d' = 5.
Proof.
  split; [exact mock_answering |].
  destruct (batch_returns_count_templates MockOpenAI.answering mock_answering
                                          "fintech" 5 MockOpenAI.fresh)
    as (templates & d' & E & L & G & _).
  exists templates, d'. auto.
Defined.

(** X19: the templates of one batch have pairwise distinct ids, provided
    the date stamps have one length, as '%Y%m%d' gives: an id spells the
    category, the index and the stamp, and the index reads back from it. *)
Theorem batch_template_ids_distinct
        {E DT : Type} (api : Orchestrator.API E DT) (Hans : answering api)
        (n : nat)
        (Hstamp : forall t,
            String.length (Orchestrator.strftime api t "%Y%m%d") = n)
        (category : string) (count : Z) (d : Orchestrator.Desk E) :
  exists templates d',
    Orchestrator.generate_template_batch api category count d
    = (Return templates, d')
    /\ NoDup (map Orchestrator.tpl_id templates).
Proof.
  unfold Orchestrator.generate_template_batch.
  destruct (batch_loop_answered api Hans category (Py.range 0 count) [] d)
    as (made & calls & e' & Hs & Hm & Hl).
  eexists; eexists. split; [exact Hs |]. cbn [app].
  apply (made_ids_NoDup api n category (Py.range 0 count) made Hstamp Hm).
  apply range_NoDup.
Qed.

(** The statement above on the test double, for a batch of twelve. *)
Lemma batch_ids_witness :
  answering MockOpenAI.answering /\
  (forall t, String.length (Orchestrator.strftime MockOpenAI.answering t "%Y%m%d")
             = 8%nat) /\
  exists templates d',
    Orchestrator.generate_template_batch MockOpenAI.answering "saas" 12
                                         MockOpenAI.fresh
    = (Return templates, d')
    /\ NoDup (map Orchestrator.tpl_id templates).
Proof.
  split; [exact mock_answering |]. split; [intros t; reflexivity |].
  apply (batch_template_ids_distinct MockOpenAI.answering mock_answering 8
                                     (fun t => eq_refl) "saas" 12
                                     MockOpenAI.fresh).
Defined.

(** X20: a batch of zero or fewer templates returns the empty list at
    once: no chat call, nothing printed, the counter and the outside left as
    they were. *)
Theorem batch_of_nothing
        {E DT : Type} (api : Orchestrator.API E DT)
        (category : string) (count : Z) (d : Orchestrator.Desk E)
        (Hcount : count <= 0) :
  Orchestrator.generate_template_batch api category count d = (Return [], d).
Proof.
  unfold Orchestrator.generate_template_batch, Py.range.
  replace (Z.to_nat (count - 0)) with 0%nat by lia. reflexivity.
Qed.

(** The statement above for a count of -3. *)
Lemma batch_of_nothing_witness :
  -3 <= 0 /\
  Orchestrator.generate_template_batch MockOpenAI.answering "fintech" (-3)
                                       MockOpenAI.fresh
  = (Return [], MockOpenAI.fresh).
Proof.
  split; [lia |].
  apply (batch_of_nothing MockOpenAI.answering "fintech" (-3) MockOpenAI.fresh).
  lia.
Defined.

(** X21: an answer without any choice makes [_generate_single_template]
    raise [IndexError] at [choices[0]]: the chat call has been made and
    logged, the clock has been read, no template is returned and the
    counter is not touched. *)
Theorem answer_without_choice_raises
        {E DT : Type} (api : Orchestrator.API E DT)
        (category : string) (index : Z) (d : Orchestrator.Desk E) (e1 : E)
        (Hempty : Orchestrator.chat_completions_create
                    api (Orchestrator.chat_req category) (Orchestrator.outside d)
                  = (inr [], e1)) :
  exists e',
    Orchestrator._generate_single_template api category index d
    = (Throw (IndexError "list index out of range"),
       Orchestrator.mkDesk
         e' (Orchestrator.chat_log d ++ [(Orchestrator.chat_req category, inr [])])
         (Orchestrator.stdout d) (Orchestrator.generated_today d)).
Proof.
  unfold Orchestrator._generate_single_template, st_bind,
    Orchestrator.openai_chat_completions_create, Orchestrator.now,
    Orchestrator.first_choice.
  rewrite Hempty.
  cbn [Orchestrator.outside Orchestrator.chat_log Orchestrator.stdout
       Orchestrator.generated_today].
  destruct (Orchestrator.datetime_now api e1) as [t1 e2].
  cbn [Orchestrator.outside Orchestrator.chat_log Orchestrator.stdout
       Orchestrator.generated_today].
  destruct (Orchestrator.datetime_now api e2) as [t2 e3].
  exists e3. reflexivity.
Qed.

(** The statement above on a test double that answers without choices. *)
Lemma answer_without_choice_witness :
  Orchestrator.chat_completions_create
    MockOpenAI.speechless (Orchestrator.chat_req "fintech")
    (Orchestrator.outside MockOpenAI.fresh) = (inr [], 1%N)
  /\ exists d',
      Orchestrator._generate_single_template MockOpenAI.speechless "fintech" 0
                                             MockOpenAI.fresh
      = (Throw (IndexError "list index out of range"), d').
Proof.
  split; [reflexivity |].
  destruct (answer_without_choice_raises MockOpenAI.speechless "fintech" 0
                                         MockOpenAI.fresh 1%N eq_refl)
    as (e' & E).
  eexists. exact E.
Defined.

(** ** The orchestrator's price table *)

Lemma lower_char_idempotent (c : ascii) :
  Py.lower_char (Py.lower_char c) = Py.lower_char c.
Proof. destruct c as [[] [] [] [] [] [] [] []]; reflexivity. Qed.

Lemma lower_idempotent (s : string) : Py.lower (Py.lower s) = Py.lower s.
Proof.
  induction s as [| c s IH]; simpl; [reflexivity |].
  now rewrite lower_char_idempotent, IH.
Qed.

(** X22: [_calculate_price_tier] does not see letter case: a category and
    its lower-cased spelling get the same tier; the tier is always one of
    the five rows of the table, the 'default' row for any category outside
    'fintech', 'saas', 'ecommerce' and 'consulting'; and in every row the
    individual price is below the bundle price, which is below the
    enterprise price. *)
Theorem price_tier_ignores_case_and_is_ordered (category : string) :
  _calculate_price_tier (Py.lower category) = _calculate_price_tier category
  /\ In (_calculate_price_tier category) (map snd pricing_tiers)
  /\ (existsb (String.eqb (Py.lower category))
              ["fintech"; "saas"; "ecommerce"; "consulting"] = true
      \/ _calculate_price_tier category = mkPriceTier 25 149 897)
  /\ tier_individual (_calculate_price_tier category)
     < tier_bundle (_calculate_price_tier category)
     < tier_enterprise (_calculate_price_tier category).
Proof.
  assert (Hin : In (_calculate_price_tier category) (map snd pricing_tiers)).
  { unfold _calculate_price_tier.
    destruct (Py.dict_get pricing_tiers (Py.lower category)) as [t |] eqn:E.
    - apply dict_get_In in E. destruct E as [k Hk].
      apply in_map_iff. exists (k, t). auto.
    - simpl. auto 10. }
  split; [unfold _calculate_price_tier; now rewrite lower_idempotent |].
  split; [exact Hin |]. split.
  - unfold _calculate_price_tier, pricing_tiers, Py.dict_get, existsb.
    rewrite !(String.eqb_sym (Py.lower category)).
    destruct (String.eqb "fintech" (Py.lower category)); [now left |].
    destruct (String.eqb "saas" (Py.lower category)); [now left |].
    destruct (String.eqb "ecommerce" (Py.lower category)); [now left |].
    destruct (String.eqb "consulting" (Py.lower category)); [now left |].
    right. destruct (String.eqb "default" (Py.lower category)); reflexivity.
  - simpl in Hin.
    repeat (destruct Hin as [<- | Hin]; [simpl; lia |]). contradiction.
Qed.

(** The statement above for a category spelled in capitals. *)
Lemma price_tier_witness :
  _calculate_price_tier "FINTECH" = mkPriceTier 49 299 1997
  /\ _calculate_price_tier (Py.lower "FINTECH") = _calculate_price_tier "FINTECH".
Proof.
  split; [reflexivity |].
  apply (proj1 (price_tier_ignores_case_and_is_ordered "FINTECH")).
Defined.

(** ** The orchestrator's entry points *)

(** X23: both entry points of the orchestrator script stop at their first
    statement: it reads [os.getenv], the module never imports [os], so for
    every category and count they raise [NameError] before the client is
    built, before anything is printed and before any chat call: no template
    is ever generated or deployed through them. *)
Theorem orchestrator_entry_points_raise_NameError
        {E DT : Type} (api : Orchestrator.API E DT)
        (category : string) (count : Z) (d : Orchestrator.Desk E) :
  Orchestrator.warp_generate_templates api category count d
  = (Throw (NameError "name 'os' is not defined"), d)
  /\ Orchestrator.warp_sync_template_data api d
     = (Throw (NameError "name 'os' is not defined"), d).
Proof. split; reflexivity. Qed.
